(** * Difox product scraper: a shallow embedding of [modules/difox.py]

    The scraper drives a browser through a wrapper object ([self.se]),
    fetches product pages, extracts a product record from each page and
    reconciles the records with a local inventory.  The development
    below embeds the methods of the class [Difox] as state-passing
    functions with Python's exceptions made explicit, and then proves
    properties of the session handling, the extraction, the catalogue
    traversal, the worker pool and the two reconciliation modes. *)

From Stdlib Require Import String Ascii ZArith List DecimalString.
From stdpp Require Import gmap strings list fin_maps.

Open Scope string_scope.

(** ** Python strings *)

Module PyStr.

(** ASCII white space as [str.isspace] sees it: TAB..CR, FS..US and
    the blank.  Strings are byte strings here; the two non-ASCII
    Latin-1 blanks are outside this model. *)
Definition is_space (c : ascii) : bool :=
  let n := nat_of_ascii c in
  (Nat.leb 9 n && Nat.leb n 13) || (Nat.leb 28 n && Nat.leb n 32).

Fixpoint lstrip (s : string) : string :=
  match s with
  | EmptyString => EmptyString
  | String c s' => if is_space c then lstrip s' else s
  end.

Fixpoint rstrip (s : string) : string :=
  match s with
  | EmptyString => EmptyString
  | String c s' =>
      match rstrip s' with
      | EmptyString => if is_space c then EmptyString else String c EmptyString
      | r => String c r
      end
  end.

(** [s.strip()] *)
Definition strip (s : string) : string := rstrip (lstrip s).

(** [s.startswith(p)] *)
Definition startswith (s p : string) : bool := String.prefix p s.

(** [s.endswith(suf)] *)
Definition endswith (s suf : string) : bool :=
  let n := String.length s in
  let m := String.length suf in
  Nat.leb m n && String.eqb (String.substring (n - m) m s) suf.

(** [sub in s] *)
Fixpoint contains (sub s : string) : bool :=
  String.prefix sub s
  || match s with
     | EmptyString => false
     | String _ s' => contains sub s'
     end.

(** [s.replace(old, new)] for a non-empty [old]: occurrences are
    replaced left to right, without overlap.  [skip] counts the
    characters of a match that are still to be dropped. *)
Fixpoint replace_from (old new : string) (skip : nat) (s : string) : string :=
  match s with
  | EmptyString => EmptyString
  | String c s' =>
      match skip with
      | S k => replace_from old new k s'
      | O =>
          if String.prefix old s
          then new ++ replace_from old new (String.length old - 1) s'
          else String c (replace_from old new 0 s')
      end
  end.

(** With an empty [old] Python puts [new] around every character. *)
Fixpoint intersperse (new s : string) : string :=
  match s with
  | EmptyString => new
  | String c s' => new ++ String c (intersperse new s')
  end.

Definition replace (s old new : string) : string :=
  match old with
  | EmptyString => intersperse new s
  | _ => replace_from old new 0 s
  end.

(** [str(n)] for a natural number *)
Definition of_nat (n : nat) : string := NilZero.string_of_uint (Nat.to_uint n).

(** [str(z)] for an integer *)
Definition of_Z (z : Z) : string :=
  match z with
  | Zneg p => "-" ++ of_nat (Pos.to_nat p)
  | _ => of_nat (Z.to_nat z)
  end.

(** the double quote character *)
Definition dquote : string := String (ascii_of_nat 34) EmptyString.

(** the line terminator written by [print] *)
Definition nl : string := String (ascii_of_nat 10) EmptyString.

(** [os.path.join(a, b)] on a POSIX system *)
Definition path_join (a b : string) : string :=
  if startswith b "/" then b
  else if String.eqb a EmptyString || endswith a "/" then a ++ b
  else a ++ "/" ++ b.

End PyStr.

(** ** Values, dictionaries, pages *)

(** The values that travel through the scraper: [None], strings, the
    integer stock sentinel and the floating point price.  Floats are
    kept abstract.  The tests [x in l] of the scraper have a string or
    [None] on the left, the scraped URL or EAN, so Python's [==] is
    equality of these values there. *)
Inductive value (float : Type) : Type :=
| VNone
| VStr (s : string)
| VInt (z : Z)
| VFloat (f : float).

Arguments VNone {float}.
Arguments VStr {float} s.
Arguments VInt {float} z.
Arguments VFloat {float} f.

#[global] Instance value_eq_dec {float} `{EqDecision float} : EqDecision (value float).
Proof. solve_decision. Defined.

(** A Python [dict] with string keys: an inventory row, a catalogue
    row, a scraped product, an output row. *)
Abbreviation dict float := (gmap string (value float)).

(** The exceptions that occur: failed assertions, a missing key, an
    index out of range, an attribute of [None], and [exit()]. *)
Inductive exn : Type :=
| AssertionError (msg : string)
| KeyError (key : string)
| IndexError
| AttributeError
| SystemExit.

#[global] Instance exn_eq_dec : EqDecision exn.
Proof. solve_decision. Defined.

Inductive outcome (A : Type) : Type :=
| Return (a : A)
| Raise (e : exn).

Arguments Return {A} a.
Arguments Raise {A} e.

(** A parsed page.  [select_one] is all the scraper asks of it, so a
    page is the table from CSS selector to its first matching tag. *)
Record Tag : Type := mkTag { text : string }.

Definition BeautifulSoup : Type := list (string * Tag).

Fixpoint select_one (soup : BeautifulSoup) (selector : string) : option Tag :=
  match soup with
  | [] => None
  | (sel, tag) :: rest =>
      if String.eqb sel selector then Some tag else select_one rest selector
  end.

(** ** The collaborators of the class *)

(** [utility.price_float] and the float type it returns.  The module
    [modules/utility.py] is not part of the sources at hand; the price
    parser is a parameter of the development. *)
Class Utility (float : Type) : Type := {
  float_eq_dec :: EqDecision float;
  float_str : float -> string;
  price_float : string -> float;
}.

(** Modelled from the spec: the browser wrapper [SeleniumWrap] of
    [modules/warp.py] is missing.  The spec's RemoteDriver is a
    capability interface: navigate, query single and multiple DOM
    elements, click, type, read the current URL, and a lightweight
    cookie-bearing fetch.  [W] is the state of the browser and of the
    remote site.  Queries read the state; clicking, typing, waiting,
    navigating and fetching change it. *)
Class SeleniumWrap (float W WebElement : Type) : Type := {
  se_query : string -> option WebElement -> W -> option WebElement;
  se_query_all : string -> option WebElement -> W -> list WebElement;
  se_query_text : string -> string -> W -> option WebElement;
  se_attribute : WebElement -> string -> W -> option string;
  se_current_url : W -> string;
  se_click : WebElement -> W -> W;
  se_send_keys : string -> string -> W -> W;
  se_wait : nat -> nat -> W -> W;
  se_navigate : value float -> W -> option BeautifulSoup * W;
  se_fetch : value float -> bool -> W -> option BeautifulSoup * W;
}.

(** [list(set(l))]: the elements of [l], each once, in the order the
    hash table happens to give. *)
Class PySet (float : Type) : Type := {
  list_of_set : list (value float) -> list (value float);
  list_of_set_NoDup : forall l, NoDup (list_of_set l);
  list_of_set_elem : forall l x, x ∈ list_of_set l <-> x ∈ l;
}.

(** The calls made on the wrapper, in the order they are made. *)
Inductive call (float : Type) : Type :=
| FindElement (selector : string) (click : bool)
| FindElementByVisibleText (tag txt : string) (click : bool)
| FindElements (selector : string)
| ElementSendKeys (txt selector : string)
| WaitRandomTime (lo hi : nat)
| GetPage (url : value float)
| GetPageByRequests (url : value float) (add_cookies : bool)
| GetAttribute (name : string)
| Click
| CurrentUrl.

Arguments FindElement {float} selector click.
Arguments FindElementByVisibleText {float} tag txt click.
Arguments FindElements {float} selector.
Arguments ElementSendKeys {float} txt selector.
Arguments WaitRandomTime {float} lo hi.
Arguments GetPage {float} url.
Arguments GetPageByRequests {float} url add_cookies.
Arguments GetAttribute {float} name.
Arguments Click {float}.
Arguments CurrentUrl {float}.

(** The fields of a [Difox] object that the methods read. *)
Record Difox : Type := mkDifox {
  username : string;
  password : string;
  file_directory : string;
  test_env : bool;
}.

(** What a run can change: the browser and the site behind it, the
    text printed, the tables written with [fs.write_to_sheet], and the
    directories that exist.  [calls] records the wrapper calls. *)
Record State (float W : Type) : Type := mkState {
  browser : W;
  calls : list (call float);
  stdout : list string;
  sheets : list (string * list (dict float));
  dirs : list string;
}.

Arguments mkState {float W} browser calls stdout sheets dirs.
Arguments browser {float W} s.
Arguments calls {float W} s.
Arguments stdout {float W} s.
Arguments sheets {float W} s.
Arguments dirs {float W} s.

(** ** Computations: state passing with exceptions *)

(** A computation runs from a state to an outcome and a state.  An
    exception keeps the effects that came before it. *)
Definition Run (St A : Type) : Type := St -> outcome A * St.

Definition ret {St A} (a : A) : Run St A := fun s => (Return a, s).

Definition raise {St A} (e : exn) : Run St A := fun s => (Raise e, s).

Definition bind {St A B} (c : Run St A) (k : A -> Run St B) : Run St B :=
  fun s =>
    match c s with
    | (Return a, s') => k a s'
    | (Raise e, s') => (Raise e, s')
    end.

Declare Scope run_scope.
Delimit Scope run_scope with run.
Notation "x <- c ;; k" := (bind c (fun x => k))
  (at level 100, c at next level, right associativity) : run_scope.
Notation "c ;;; k" := (bind c (fun _ => k))
  (at level 100, right associativity) : run_scope.
Open Scope run_scope.

(** [assert x, msg] on a value that is [None] or an object *)
Definition assert_some {St A} (x : option A) (msg : string) : Run St A :=
  match x with
  | Some a => ret a
  | None => raise (AssertionError msg)
  end.

(** [assert b, msg] *)
Definition assert_true {St} (b : bool) (msg : string) : Run St unit :=
  if b then ret tt else raise (AssertionError msg).

(** [try: body  except AssertionError as e: handler(str(e))] *)
Definition try_except_AssertionError {St A} (body : Run St A)
    (handler : string -> Run St A) : Run St A :=
  fun s =>
    match body s with
    | (Raise (AssertionError msg), s') => handler msg s'
    | r => r
    end.

(** [exit()] *)
Definition exit {St A} : Run St A := raise SystemExit.

Section Model.

Context {float W WebElement : Type}.
Context `{!Utility float} `{!SeleniumWrap float W WebElement} `{!PySet float}.

#[local] Abbreviation M := (Run (State float W)).

(** [d[k]] *)
Definition getitem (d : dict float) (k : string) : M (value float) :=
  match d !! k with
  | Some v => ret v
  | None => raise (KeyError k)
  end.

(** The four ways a state changes besides the browser: text is
    printed, a wrapper call is recorded, a table is written, a
    directory is made. *)
Definition emit (chunk : string) (s : State float W) : State float W :=
  mkState (browser s) (calls s) (stdout s ++ [chunk]) (sheets s) (dirs s).

Definition log_call (c : call float) (s : State float W) : State float W :=
  mkState (browser s) (calls s ++ [c]) (stdout s) (sheets s) (dirs s).

Definition record_sheet (filename : string) (rows : list (dict float))
    (s : State float W) : State float W :=
  mkState (browser s) (calls s) (stdout s) (sheets s ++ [(filename, rows)]) (dirs s).

Definition add_directory (d : string) (s : State float W) : State float W :=
  mkState (browser s) (calls s) (stdout s) (sheets s) (dirs s ++ [d]).

Definition on_browser (f : W -> W) (s : State float W) : State float W :=
  mkState (f (browser s)) (calls s) (stdout s) (sheets s) (dirs s).

(** [print(line)] and [print(line, end='')] *)
Definition print_end (line : string) (e : string) : M unit :=
  fun s => (Return tt, emit (line ++ e) s).

Definition print (line : string) : M unit := print_end line PyStr.nl.

(** [str(v)], as [format] renders a value *)
Definition str (v : value float) : string :=
  match v with
  | VNone => "None"
  | VStr s => s
  | VInt z => PyStr.of_Z z
  | VFloat f => float_str f
  end.

(** *** The wrapper methods, over the capability interface *)

(** Modelled from the spec: the methods of the missing [SeleniumWrap]
    that [Difox] calls, each written over the capability interface
    and recording its call.  The first is
    [se.find_element(selector, click=..., parent=...)]: the element
    or [None]; a found element is clicked when [click] is set.  The
    [print_error] and [timeout] arguments only govern diagnostics and
    how long the wrapper waits, and are left out. *)
Definition find_element (selector : string) (click : bool)
    (parent : option WebElement) : M (option WebElement) :=
  fun s =>
    let s1 := log_call (FindElement selector click) s in
    match se_query selector parent (browser s1) with
    | Some e => (Return (Some e), if click then on_browser (se_click e) s1 else s1)
    | None => (Return None, s1)
    end.

(** [se.find_element_by_visible_text(tag, text, click=...)] *)
Definition find_element_by_visible_text (tag txt : string) (click : bool)
    : M (option WebElement) :=
  fun s =>
    let s1 := log_call (FindElementByVisibleText tag txt click) s in
    match se_query_text tag txt (browser s1) with
    | Some e => (Return (Some e), if click then on_browser (se_click e) s1 else s1)
    | None => (Return None, s1)
    end.

(** [se.find_elements(selector, parent=...)] *)
Definition find_elements (selector : string) (parent : option WebElement)
    : M (list WebElement) :=
  fun s =>
    let s1 := log_call (FindElements selector) s in
    (Return (se_query_all selector parent (browser s1)), s1).

(** [element.get_attribute(name)] *)
Definition get_attribute (e : WebElement) (name : string) : M (option string) :=
  fun s =>
    let s1 := log_call (GetAttribute name) s in
    (Return (se_attribute e name (browser s1)), s1).

(** [element.click()] *)
Definition click (e : WebElement) : M unit :=
  fun s => (Return tt, on_browser (se_click e) (log_call Click s)).

(** [se.element_send_keys(text, selector)] *)
Definition element_send_keys (txt selector : string) : M unit :=
  fun s => (Return tt,
            on_browser (se_send_keys txt selector) (log_call (ElementSendKeys txt selector) s)).

(** [se.wait_random_time(lo, hi)] *)
Definition wait_random_time (lo hi : nat) : M unit :=
  fun s => (Return tt, on_browser (se_wait lo hi) (log_call (WaitRandomTime lo hi) s)).

(** [se.driver.current_url] *)
Definition current_url : M string :=
  fun s =>
    let s1 := log_call CurrentUrl s in
    (Return (se_current_url (browser s1)), s1).

(** [se.get_page(url)] *)
Definition get_page (url : value float) : M (option BeautifulSoup) :=
  fun s =>
    let s1 := log_call (GetPage url) s in
    let '(soup, w) := se_navigate url (browser s1) in
    (Return soup, on_browser (fun _ => w) s1).

(** [se.get_page_by_requests(url, add_cookies=..., print_error=False)] *)
Definition get_page_by_requests (url : value float) (add_cookies : bool)
    : M (option BeautifulSoup) :=
  fun s =>
    let s1 := log_call (GetPageByRequests url add_cookies) s in
    let '(soup, w) := se_fetch url add_cookies (browser s1) in
    (Return soup, on_browser (fun _ => w) s1).

(** *** [Difox.handle_login] *)

Definition is_logged_in_selector : string := ".loginBox__badge".

Definition handle_login (self : Difox) : M bool :=
  badge <- find_element is_logged_in_selector false None ;;
  match badge with
  | Some _ => print "Already logged in." ;;; ret true
  | None =>
      find_element ".loginBox__iconWrapper" true None ;;;
      user <- find_element "#login-username" false None ;;
      user <- assert_some user "Login form not found" ;;
      typed <- get_attribute user "value" ;;
      (if decide (typed = Some (username self)) then ret tt
       else
         element_send_keys (username self) "#login-username" ;;;
         element_send_keys (password self) "#login-password") ;;;
      find_element_by_visible_text "button" "Login" true ;;;
      wait_random_time 5 6 ;;;
      badge <- find_element is_logged_in_selector false None ;;
      match badge with
      | Some _ => print "Login successful." ;;; ret true
      | None => print "Login failed." ;;; ret false
      end
  end.

(** *** [Difox.scrape_product] *)

Definition session_ran_out : string := "Your session ran out. Please login again.".

(** The session timeout check on a fetched page. *)
Definition session_timeout_check (self : Difox) (soup : BeautifulSoup) : M unit :=
  match select_one soup ".layout__flashMessageWrapper" with
  | Some msg =>
      if String.eqb (PyStr.strip (text msg)) session_ran_out
      then
        ok <- handle_login self ;;
        if ok then ret tt else print "Cannot Login." ;;; exit
      else ret tt
  | None => ret tt
  end.

(** The body of the [try] block. *)
Definition scrape_product_body (self : Difox) (url : value float) (add_cookies : bool)
    : M (dict float * string) :=
  soup <- get_page_by_requests url add_cookies ;;
  soup <- assert_some soup "Product page not found" ;;
  (* Session Timeout check *)
  session_timeout_check self soup ;;;
  (* Product name *)
  title <- assert_some (select_one soup ".productDisplay__title") "Product name not found" ;;
  let product_name := PyStr.strip (text title) in
  (* Product EAN *)
  meta <- assert_some (select_one soup ".is--eanCode") "Product EAN not found" ;;
  let product_ean := PyStr.strip (PyStr.replace (text meta) "EAN code:" EmptyString) in
  (* Product price *)
  price_div <- assert_some (select_one soup ".price__price") "Product price not found" ;;
  let price := price_float (PyStr.strip (text price_div)) in
  (* Product quantity *)
  let stock_text := select_one soup ".is--available" in
  let quantity := match stock_text with Some _ => 5%Z | None => 0%Z end in
  ret (<["EAN" := VStr product_ean]>
       (<["product_name" := VStr product_name]>
        (<["price" := VFloat price]>
         (<["quantity" := VInt quantity]>
          (<["url" := url]> ∅)))),
       EmptyString).

Definition scrape_product (self : Difox) (url : value float) (add_cookies : bool)
    : M (dict float * string) :=
  try_except_AssertionError
    (scrape_product_body self url add_cookies)
    (fun msg => ret (∅, msg)).

(** *** [Difox.update_product] *)

(** Truth value of a string: [if err:] *)
Definition truthy (s : string) : bool := negb (String.eqb s EmptyString).

Definition update_product (self : Difox) (product : dict float)
    : M (dict float * option string) :=
  url <- getitem product "url" ;;
  scraped <- scrape_product self url true ;;
  let '(new_product, err) := scraped in
  if truthy err then
    ean <- getitem product "EAN" ;;
    url <- getitem product "url" ;;
    ret (<["EAN" := ean]> (<["error" := VStr err]> (<["url" := url]> ∅)), Some err)
  else
    ean <- getitem product "EAN" ;;
    price <- getitem new_product "price" ;;
    quantity <- getitem new_product "quantity" ;;
    ret (<["EAN" := ean]> (<["price" := price]> (<["quantity" := quantity]> ∅)), None).

(** *** [fs.write_to_sheet] and the directory calls *)

(** [fs.write_to_sheet(pd.DataFrame(rows), filename)]: a table is
    written for the two supported file types, anything else is only
    reported.  Writing is taken to succeed: the handler for a file
    held open by another program, which asks the operator and tries
    again, and the one that prints the traceback of any other error
    are not modelled. *)
Definition write_to_sheet (rows : list (dict float)) (filename : string) : M unit :=
  if PyStr.endswith filename ".csv" || PyStr.endswith filename ".xlsx"
  then fun s => (Return tt, record_sheet filename rows s)
  else print ("File type not supported " ++ PyStr.dquote ++ filename ++ PyStr.dquote).

(** [if not os.path.exists(d): os.mkdir(d)]; the parent directory is
    taken to exist. *)
Definition ensure_directory (d : string) : M unit :=
  fun s =>
    if bool_decide (d ∈ dirs s) then (Return tt, s)
    else (Return tt, add_directory d s).

(** *** [ThreadPoolExecutor(max_workers=15)] and [executor.map] *)

Definition max_workers : nat := 15.

(** The pool runs every submitted task once.  Tasks are taken from
    the queue in submission order by at most [workers] workers, so
    the task that takes effect next is one of the first [workers]
    unfinished ones; which one is the scheduler's choice [sel step].
    Each task is run as one step on the shared state.  The outcome
    of a task, a returned value or the exception it raised, is kept
    at the position of its input, which is the order in which
    [executor.map] hands the outcomes over.  All tasks run here; in
    the library the tasks not yet started are cancelled once the loop
    meets an exception, which changes nothing but the state a
    terminated run leaves behind. *)
Fixpoint pool_run {A B} (workers : nat) (f : A -> M B) (sel : nat -> nat)
    (step fuel : nat) (pending : list A) (s : State float W)
    : list (outcome B) * State float W :=
  match fuel with
  | O => ([], s)
  | S fuel' =>
      let k := sel step mod Nat.min workers (length pending) in
      match pending !! k with
      | None => ([], s)
      | Some x =>
          let '(r, s1) := f x s in
          let '(rs, s2) :=
            pool_run workers f sel (S step) fuel' (delete k pending) s1 in
          ((take k rs ++ r :: drop k rs)%list, s2)
      end
  end.

(** [executor.map(f, xs)]: the outcomes of the tasks, in the order of
    [xs]. *)
Definition executor_map {A B} (workers : nat) (f : A -> M B) (sel : nat -> nat)
    (xs : list A) : M (list (outcome B)) :=
  fun s =>
    let '(rs, s') := pool_run workers f sel 0 (length xs) xs s in
    (Return rs, s').

(** [for x in executor.map(...): acc = body(x, acc)]: the outcomes
    are consumed in order, and the exception of a task is raised
    again where its outcome would have been delivered. *)
Fixpoint for_results {X Acc} (body : X -> Acc -> outcome Acc)
    (rs : list (outcome X)) (acc : Acc) : outcome Acc :=
  match rs with
  | [] => Return acc
  | Return x :: rs' =>
      match body x acc with
      | Return acc' => for_results body rs' acc'
      | Raise e => Raise e
      end
  | Raise e :: _ => Raise e
  end.

Definition lift_outcome {A} (o : outcome A) : M A := fun s => (o, s).

(** *** [Difox.update_products] *)

(** [if err:] on the second component of [update_product]'s result *)
Definition has_error (err : option string) : bool :=
  match err with
  | Some e => truthy e
  | None => false
  end.

Definition update_loop_body (r : dict float * option string)
    (acc : list (dict float) * list (dict float))
    : outcome (list (dict float) * list (dict float)) :=
  let '(new_product, err) := r in
  let '(updated_products, bad_products) := acc in
  if has_error err
  then Return (updated_products, (bad_products ++ [new_product])%list)
  else Return ((updated_products ++ [new_product])%list, bad_products).

(** [df['quantity'].value_counts().get(q)], rendered by [format] *)
Definition quantity_count (q : Z) (rows : list (dict float)) : string :=
  match length (filter (fun r : dict float => r !! "quantity" = Some (VInt q)) rows) with
  | O => "None"
  | n => PyStr.of_nat n
  end.

Definition update_products (self : Difox) (sel : nat -> nat)
    (products : list (dict float)) (updated_inventory_file bad_product_file : string)
    : M (list (dict float)) :=
  products <-
    (if test_env self
     then print "Test mode: Only 10 products updating." ;;; ret (take 10 products)
     else ret products) ;;
  print (PyStr.nl ++ "Product Availability and Price Update:") ;;;
  print ("Inventory size: " ++ PyStr.of_nat (length products) ++ " Products") ;;;
  results <- executor_map max_workers (update_product self) sel products ;;
  lists <- lift_outcome (for_results update_loop_body results ([], [])) ;;
  let '(updated_products, bad_products) := lists in
  write_to_sheet updated_products updated_inventory_file ;;;
  write_to_sheet bad_products bad_product_file ;;;
  (* df['quantity'] of a table without rows has no such column *)
  match updated_products with
  | [] => raise (KeyError "quantity")
  | _ =>
      print ("Updated: " ++ PyStr.of_nat (length updated_products)
             ++ ", In stock: " ++ quantity_count 5 updated_products
             ++ ", Out of stock: " ++ quantity_count 0 updated_products
             ++ ", Bad Product: " ++ PyStr.of_nat (length bad_products)) ;;;
      ret updated_products
  end.

(** *** [Difox.product_urls_by_catalogue] *)

(** Inside the [try] block the list [product_urls] is a local
    variable that outlives an exception: it is part of the state the
    block runs on. *)
#[local] Abbreviation L := (Run (list (value float) * State float W)).

Definition lift {A} (c : M A) : L A :=
  fun ls =>
    match c (snd ls) with
    | (r, s') => (r, (fst ls, s'))
    end.

(** [product_urls += hrefs] *)
Definition extend_product_urls (hrefs : list (value float)) : L unit :=
  fun ls => (Return tt, ((fst ls ++ hrefs)%list, snd ls)).

(** [[se.find_element('a', parent=article).get_attribute('href')
      for article in articles]]: an article without a link makes the
    attribute access fail on [None]. *)
Fixpoint article_links (articles : list WebElement) : M (list (value float)) :=
  match articles with
  | [] => ret []
  | article :: rest =>
      a <- find_element "a" false (Some article) ;;
      match a with
      | None => raise AttributeError
      | Some a =>
          href <- get_attribute a "href" ;;
          hrefs <- article_links rest ;;
          ret (from_option VStr VNone href :: hrefs)
      end
  end.

(** One round of the pagination loop. *)
Definition collect_page : L unit :=
  (* Collect product urls *)
  articles <- lift (find_elements ".displayProducts__chooseView article" None) ;;
  hrefs <- lift (article_links articles) ;;
  extend_product_urls hrefs ;;;
  (* Next page *)
  ul <- lift (find_element "ul.pagination" false None) ;;
  ul <- assert_some ul "Pagination not found" ;;
  lis <- lift (find_elements "li" (Some ul)) ;;
  match last lis with
  | None => raise IndexError
  | Some li => lift (click li)
  end ;;;
  lift (wait_random_time 3 4).

(** [for _ in range(1, page+1): body] *)
Fixpoint for_range {St} (n : nat) (body : Run St unit) : Run St unit :=
  match n with
  | O => ret tt
  | S n' => body ;;; for_range n' body
  end.

Definition aria_posinset_4 : string :=
  "button[aria-posinset=" ++ PyStr.dquote ++ "4" ++ PyStr.dquote ++ "]".

(** The body of the [try] block. *)
Definition product_urls_body (catalog_url : value float) : L unit :=
  soup <- lift (get_page catalog_url) ;;
  assert_some soup "Catalog page not found" ;;;
  result_txt <- lift (find_element ".displayProducts__number" false None) ;;
  assert_some result_txt
    ("Total result text not found in catalog " ++ str catalog_url) ;;;
  (* Set per page 100 item *)
  lift (find_element ".displayProducts__perPage-select button" true None) ;;;
  lift (find_element aria_posinset_4 true None) ;;;
  lift (wait_random_time 2 3) ;;;
  here <- lift current_url ;;
  assert_true (PyStr.contains "pageSize=100" here) "Failed to set per page 100 item" ;;;
  (* Pagination *)
  ul <- lift (find_element "ul.pagination" false None) ;;
  ul <- assert_some ul "Pagination not found" ;;
  lis <- lift (find_elements "li" (Some ul)) ;;
  let page := (Z.of_nat (length lis) - 2)%Z in
  for_range (Z.to_nat page) collect_page.

Definition product_urls_by_catalogue (catalog_url : value float)
    : M (list (value float)) :=
  fun s =>
    match product_urls_body catalog_url ([], s) with
    | (Return _, (product_urls, s')) => (Return product_urls, s')
    | (Raise (AssertionError msg), (product_urls, s')) =>
        (print msg ;;; ret product_urls) s'
    | (Raise e, (_, s')) => (Raise e, s')
    end.

(** *** [Difox.check_unlisted_products] *)

(** [[row[k] for row in rows]] *)
Fixpoint column (k : string) (rows : list (dict float)) : M (list (value float)) :=
  match rows with
  | [] => ret []
  | row :: rest =>
      v <- getitem row k ;;
      vs <- column k rest ;;
      ret (v :: vs)
  end.

(** [d[k]] where no state is involved *)
Definition lookup_key (d : dict float) (k : string) : outcome (value float) :=
  match d !! k with
  | Some v => Return v
  | None => Raise (KeyError k)
  end.

(** The body of the loop over the scraped outcomes of one catalogue:
    the accumulator is the list [unlisted] and the counter
    [err_count]. *)
Definition unlisted_loop_body (EANs : list (value float))
    (r : dict float * string) (acc : list (dict float) * nat)
    : outcome (list (dict float) * nat) :=
  let '(new_product, err) := r in
  let '(unlisted, err_count) := acc in
  if truthy err then Return (unlisted, S err_count)
  else
    match lookup_key new_product "EAN" with
    | Raise e => Raise e
    | Return ean =>
        if bool_decide (ean ∈ EANs) then Return (unlisted, err_count)
        else
          match lookup_key new_product "product_name" with
          | Raise e => Raise e
          | Return product_name =>
              match lookup_key new_product "quantity" with
              | Raise e => Raise e
              | Return quantity =>
                  Return ((unlisted ++
                           [<["EAN" := ean]>
                            (<["product_name" := product_name]>
                             (<["quantity" := quantity]> ∅))])%list,
                          err_count)
              end
          end
    end.

(** [catalog.get('filename', 'Unnamed')] *)
Definition catalog_filename (catalog : dict float) : value float :=
  default (VStr "Unnamed") (catalog !! "filename").

(** One round of the loop over [enumerate(catalogs)]; the result is
    the new value of [err_count]. *)
(** The first half of a round: traverse the catalogue, drop the
    duplicates and the URLs of the inventory, and report the sizes.
    The result is [product_urls_filtered]. *)
Definition catalog_candidates (self : Difox) (URLs : list (value float)) (i : nat)
    (catalog : dict float) : M (list (value float)) :=
  catalog_url <- getitem catalog "url" ;;
  collected <- product_urls_by_catalogue catalog_url ;;
  let product_urls := list_of_set collected in
  let in_inventory := filter (fun url => url ∈ URLs) product_urls in
  let product_urls_filtered := filter (fun url => url ∉ URLs) product_urls in
  let product_urls_filtered :=
    if test_env self then take 10 product_urls_filtered else product_urls_filtered in
  name <- getitem catalog "name" ;;
  print_end (PyStr.of_nat (i + 1) ++ ". Catalogue: " ++ str name
             ++ ", Items: " ++ PyStr.of_nat (length product_urls)
             ++ ", In Inventory: " ++ PyStr.of_nat (length in_inventory)
             ++ ", To Collect: " ++ PyStr.of_nat (length product_urls_filtered)
             ++ ", ") EmptyString ;;;
  ret product_urls_filtered.

Definition check_catalog (self : Difox) (sel : nat -> nat)
    (EANs URLs : list (value float)) (i : nat) (catalog : dict float)
    (err_count : nat) : M nat :=
  product_urls_filtered <- catalog_candidates self URLs i catalog ;;
  results <- executor_map max_workers (fun url => scrape_product self url true) sel
                          product_urls_filtered ;;
  acc <- lift_outcome (for_results (unlisted_loop_body EANs) results ([], err_count)) ;;
  let '(unlisted, err_count) := acc in
  (* Write to csv *)
  let sub_directory := PyStr.path_join (file_directory self) "category_of_interest" in
  ensure_directory sub_directory ;;;
  let filename := PyStr.path_join sub_directory (str (catalog_filename catalog)) in
  write_to_sheet unlisted filename ;;;
  print ("Collected: " ++ PyStr.of_nat (length unlisted)) ;;;
  ret err_count.

(** [for i, catalog in enumerate(catalogs): ...], from index [i] on *)
Fixpoint check_catalogs (self : Difox) (sel : nat -> nat -> nat)
    (EANs URLs : list (value float)) (i : nat) (catalogs : list (dict float))
    (err_count : nat) : M nat :=
  match catalogs with
  | [] => ret err_count
  | catalog :: rest =>
      err_count <- check_catalog self (sel i) EANs URLs i catalog err_count ;;
      check_catalogs self sel EANs URLs (S i) rest err_count
  end.

(** The lines before the loop: the two key columns of the inventory
    and the catalogues to go through. *)
Definition unlisted_setup (self : Difox) (products catalogs : list (dict float))
    : M (list (value float) * list (value float) * list (dict float)) :=
  print "Finding Inventory Unlisted Products:" ;;;
  print ("Inventory size: " ++ PyStr.of_nat (length products) ++ " Products") ;;;
  EANs <- column "EAN" products ;;
  URLs <- column "url" products ;;
  catalogs <-
    (if test_env self
     then print "Test mode: Only 3 catalogs and 10 product per catalog." ;;;
          ret (take 3 catalogs)
     else ret catalogs) ;;
  print ("Total Catalogs: " ++ PyStr.of_nat (length catalogs)) ;;;
  ret (EANs, URLs, catalogs).

Definition check_unlisted_products (self : Difox) (sel : nat -> nat -> nat)
    (products catalogs : list (dict float)) : M unit :=
  setup <- unlisted_setup self products catalogs ;;
  let '(EANs, URLs, catalogs) := setup in
  err_count <- check_catalogs self sel EANs URLs 0 catalogs 0 ;;
  print ("Error count: " ++ PyStr.of_nat err_count).

End Model.

(** ** A small site to run the scraper on *)

(** A concrete browser and site, used to run the methods on explicit
    inputs: a login form, product pages that depend on whether the
    session is authenticated, and paginated catalogues. *)
Module Stub.

Inductive Element : Type :=
| Badge
| LoginIcon
| UserField
| LoginButton
| ResultText
| PerPageButton
| PageSize100
| Pagination
| Li (next : bool)
| Article (href : option string)
| Anchor (href : string).

(** A catalogue: the product cards of each of its pages (a card
    holds the link of its product, if it has one), and which of the
    controls the listing shows. *)
Record Catalogue : Type := mkCatalogue {
  cards : list (list (option string));
  has_total : bool;
  has_pagination : bool;
  page_size_sticks : bool;
}.

(** The site and the browser in front of it.  A product page is
    given twice: as served to an authenticated session and as served
    to one that is not. *)
Record World : Type := mkWorld {
  product_pages : list (string * (BeautifulSoup * BeautifulSoup));
  catalogues : list (string * Catalogue);
  has_form : bool;
  accepts : bool;
  authenticated : bool;
  field_value : option string;
  location : string;
  page_index : nat;
}.

Fixpoint assoc {A} (k : string) (l : list (string * A)) : option A :=
  match l with
  | [] => None
  | (k', a) :: rest => if String.eqb k' k then Some a else assoc k rest
  end.

Definition current_catalogue (w : World) : option Catalogue :=
  assoc (location w) (catalogues w).

Definition aria_4 : string :=
  "button[aria-posinset=" ++ PyStr.dquote ++ "4" ++ PyStr.dquote ++ "]".

Definition query (selector : string) (parent : option Element) (w : World)
    : option Element :=
  match parent with
  | Some (Article (Some h)) => if String.eqb selector "a" then Some (Anchor h) else None
  | Some _ => None
  | None =>
      if String.eqb selector ".loginBox__badge"
      then (if authenticated w then Some Badge else None)
      else if String.eqb selector ".loginBox__iconWrapper" then Some LoginIcon
      else if String.eqb selector "#login-username"
      then (if has_form w then Some UserField else None)
      else
        match current_catalogue w with
        | None => None
        | Some c =>
            if String.eqb selector ".displayProducts__number"
            then (if has_total c then Some ResultText else None)
            else if String.eqb selector ".displayProducts__perPage-select button"
            then Some PerPageButton
            else if String.eqb selector aria_4 then Some PageSize100
            else if String.eqb selector "ul.pagination"
            then (if has_pagination c then Some Pagination else None)
            else None
        end
  end.

Definition query_all (selector : string) (parent : option Element) (w : World)
    : list Element :=
  match current_catalogue w with
  | None => []
  | Some c =>
      match parent with
      | None =>
          if String.eqb selector ".displayProducts__chooseView article"
          then map Article (nth (page_index w) (cards c) [])
          else []
      | Some Pagination =>
          if String.eqb selector "li"
          then (Li false :: map (fun _ => Li false) (cards c) ++ [Li true])%list
          else []
      | Some _ => []
      end
  end.

Definition query_text (tag txt : string) (w : World) : option Element :=
  if String.eqb tag "button" && String.eqb txt "Login" && has_form w
  then Some LoginButton else None.

Definition attribute (e : Element) (name : string) (w : World) : option string :=
  match e with
  | UserField => if String.eqb name "value" then field_value w else None
  | Anchor h => if String.eqb name "href" then Some h else None
  | _ => None
  end.

Definition set_session (b : bool) (w : World) : World :=
  mkWorld (product_pages w) (catalogues w) (has_form w) (accepts w) b
          (field_value w) (location w) (page_index w).

Definition set_field (v : option string) (w : World) : World :=
  mkWorld (product_pages w) (catalogues w) (has_form w) (accepts w)
          (authenticated w) v (location w) (page_index w).

Definition set_location (u : string) (n : nat) (w : World) : World :=
  mkWorld (product_pages w) (catalogues w) (has_form w) (accepts w)
          (authenticated w) (field_value w) u n.

Definition do_click (e : Element) (w : World) : World :=
  match e with
  | LoginButton => set_session (accepts w) w
  | PageSize100 =>
      match current_catalogue w with
      | Some c =>
          if page_size_sticks c
          then
            mkWorld (product_pages w)
                    ((location w ++ "?pageSize=100", c) :: catalogues w)
                    (has_form w) (accepts w) (authenticated w) (field_value w)
                    (location w ++ "?pageSize=100") (page_index w)
          else w
      | None => w
      end
  | Li true => set_location (location w) (S (page_index w)) w
  | _ => w
  end.

Definition send_keys (txt selector : string) (w : World) : World :=
  if String.eqb selector "#login-username" then set_field (Some txt) w else w.

Definition navigate (url : value string) (w : World)
    : option BeautifulSoup * World :=
  match url with
  | VStr u =>
      match assoc u (catalogues w) with
      | Some _ => (Some [], set_location u 0 w)
      | None => (None, set_location u 0 w)
      end
  | _ => (None, w)
  end.

Definition fetch (url : value string) (add_cookies : bool) (w : World)
    : option BeautifulSoup * World :=
  match url with
  | VStr u =>
      match assoc u (product_pages w) with
      | Some (page, expired) =>
          (Some (if authenticated w && add_cookies then page else expired), w)
      | None => (None, w)
      end
  | _ => (None, w)
  end.

#[export] Instance utility : Utility string :=
  {| float_eq_dec := _; float_str := fun f => f; price_float := fun s => s |}.

#[export] Instance selenium : SeleniumWrap string World Element :=
  {| se_query := query;
     se_query_all := query_all;
     se_query_text := query_text;
     se_attribute := attribute;
     se_current_url := location;
     se_click := do_click;
     se_send_keys := send_keys;
     se_wait := fun _ _ w => w;
     se_navigate := navigate;
     se_fetch := fetch |}.

#[export] Instance pyset : PySet string :=
  {| list_of_set := remove_dups;
     list_of_set_NoDup := NoDup_remove_dups;
     list_of_set_elem := fun l x => elem_of_remove_dups l x |}.

(** The state a run starts from. *)
Definition start (w : World) : State string World := mkState w [] [] [] [].

Definition tag (s : string) : Tag := mkTag s.

(** A complete product page, and what an expired session gets. *)
Definition full_page (title ean price : string) (available : bool) : BeautifulSoup :=
  ((".productDisplay__title", tag title)
     :: (".is--eanCode", tag ("EAN code: " ++ ean))
     :: (".price__price", tag price)
     :: (if available then [(".is--available", tag "In stock")] else []))%list.

Definition expired_page : BeautifulSoup :=
  [(".layout__flashMessageWrapper", tag " Your session ran out. Please login again. ")].

Definition row (ean url : string) : dict string :=
  <["EAN" := VStr ean]> (<["url" := VStr url]> ∅).

Definition difox : Difox := mkDifox "user" "secret" "/data" false.
Definition difox_test : Difox := mkDifox "user" "secret" "/data" true.

(** The shop: three product pages, one of them without the EAN
    label, and catalogues that list them.  The second catalogue has
    no pagination control; the third shows the same product on two
    cards and reaches a known product through a new URL. *)
Definition p1 : string := "https://shop/p1".
Definition p2 : string := "https://shop/p2".
Definition p3 : string := "https://shop/p3".
Definition p4 : string := "https://shop/p4".

Definition camera : BeautifulSoup := full_page "Camera" "4001" "1.234,56" true.
Definition lens : BeautifulSoup := full_page "Lens" "4002" "99,00" false.
Definition bag : BeautifulSoup :=
  [(".productDisplay__title", tag "Bag"); (".price__price", tag "15,00")].
Definition tripod : BeautifulSoup := full_page "Tripod" "4004" "45,00" true.

Definition shop : World :=
  mkWorld
    [(p1, (camera, expired_page)); (p2, (lens, expired_page));
     (p3, (bag, expired_page)); (p4, (tripod, expired_page))]
    [("https://shop/cameras",
      mkCatalogue [[Some p1; Some p1]; [Some p2]] true true true);
     ("https://shop/broken", mkCatalogue [[Some p4]] true false true);
     ("https://shop/new",
      mkCatalogue [[Some p1; Some p2; Some p4; Some p4; Some p3]] true true true)]
    true true true None "https://shop/home" 0.

(** The same shop seen by a session that has run out, and the shop
    when it also refuses the credentials. *)
Definition shop_expired : World := set_session false shop.

Definition shop_refusing : World :=
  mkWorld (product_pages shop) (catalogues shop) true false false None
          "https://shop/home" 0.

Definition catalog (url name filename : string) : dict string :=
  <["url" := VStr url]> (<["name" := VStr name]> (<["filename" := VStr filename]> ∅)).

Definition cameras : dict string := catalog "https://shop/cameras" "Cameras" "cameras.csv".
Definition broken : dict string := catalog "https://shop/broken" "Broken" "broken.csv".
Definition new_items : dict string := catalog "https://shop/new" "New" "new.csv".

(** An inventory of three rows; the first one has an EAN of its own,
    which is not the EAN its page shows. *)
Definition inventory3 : list (dict string) :=
  [row "9999" p1; row "4002" p2; row "4003" p3].

(** An inventory of twelve rows over the same pages. *)
Definition inventory12 : list (dict string) :=
  [row "01" p1; row "02" p2; row "03" p3; row "04" p1; row "05" p2; row "06" p3;
   row "07" p1; row "08" p2; row "09" p3; row "10" p1; row "11" p2; row "12" p3].

(** An inventory that knows the lens under an old URL. *)
Definition inventory_old_url : list (dict string) :=
  [row "4001" p1; row "4002" "https://shop/old/p2"].


(** Schedulers: first come first served, and one that lets the
    latest runnable task go first. *)
Definition fifo : nat -> nat := fun _ => 0.
Definition lifo : nat -> nat := fun _ => 14.

End Stub.

(** ** Notions used in the statements *)

(** [follows R c]: every run of [c] takes a state to an [R]-related
    one, whether it returns or raises. *)
Definition follows {St A} (R : relation St) (c : Run St A) : Prop :=
  forall s, R s (snd (c s)).

(** The relation of two states that agree on an observation. *)
Definition same {St X} (proj : St -> X) : relation St :=
  fun s s' => proj s' = proj s.

Section Observations.

Context {float W WebElement : Type}.
Context `{!Utility float} `{!SeleniumWrap float W WebElement} `{!PySet float}.

(** The URLs fetched with [get_page_by_requests], in call order. *)
Definition fetch_of (c : call float) : option (value float) :=
  match c with
  | GetPageByRequests u _ => Some u
  | _ => None
  end.

Definition fetched_urls (s : State float W) : list (value float) :=
  omap fetch_of (calls s).

(** A run that leaves the printed text, the tables and the
    directories alone and fetches no page. *)
Definition quiet : relation (State float W) :=
  fun s s' =>
    fetched_urls s' = fetched_urls s /\ stdout s' = stdout s
    /\ sheets s' = sheets s /\ dirs s' = dirs s.

(** The tables written from [s] to [s'] all satisfy [P]. *)
Definition writes (P : list (dict float) -> Prop) : relation (State float W) :=
  fun s s' =>
    exists new, sheets s' = (sheets s ++ new)%list /\ Forall (fun sh => P sh.2) new.

(** A run that may print but fetches no page, writes no table and
    makes no directory. *)
Definition offline : relation (State float W) :=
  fun s s' =>
    fetched_urls s' = fetched_urls s /\ sheets s' = sheets s /\ dirs s' = dirs s.


(** The page shows the session-expired banner. *)
Definition has_banner (soup : BeautifulSoup) : bool :=
  match select_one soup ".layout__flashMessageWrapper" with
  | Some msg => String.eqb (PyStr.strip (text msg)) session_ran_out
  | None => false
  end.

(** What [scrape_product] makes of a fetched page once the session
    check is passed: the assertions on the title, the EAN label and
    the price in this order, then the record. *)
Definition extract_product (url : value float) (soup : BeautifulSoup)
    : dict float * string :=
  match select_one soup ".productDisplay__title" with
  | None => (∅, "Product name not found")
  | Some title =>
      match select_one soup ".is--eanCode" with
      | None => (∅, "Product EAN not found")
      | Some meta =>
          match select_one soup ".price__price" with
          | None => (∅, "Product price not found")
          | Some price_div =>
              (<["EAN" := VStr (PyStr.strip
                                  (PyStr.replace (text meta) "EAN code:" EmptyString))]>
               (<["product_name" := VStr (PyStr.strip (text title))]>
                (<["price" := VFloat (price_float (PyStr.strip (text price_div)))]>
                 (<["quantity" := VInt (match select_one soup ".is--available" with
                                        | Some _ => 5
                                        | None => 0
                                        end)]>
                  (<["url" := url]> ∅)))),
               EmptyString)
          end
      end
  end.

(** The rows of the two output tables of [update_product]. *)
Definition bad_product_row (ean : value float) (err : string) (url : value float)
    : dict float :=
  <["EAN" := ean]> (<["error" := VStr err]> (<["url" := url]> ∅)).

Definition updated_product_row (ean price quantity : value float) : dict float :=
  <["EAN" := ean]> (<["price" := price]> (<["quantity" := quantity]> ∅)).


(** The file types [write_to_sheet] writes. *)
Definition is_sheet_file (filename : string) : bool :=
  PyStr.endswith filename ".csv" || PyStr.endswith filename ".xlsx".

(** The URL an inventory row is fetched from, if the row has one. *)
Definition row_url (product : dict float) : option (value float) := product !! "url".

(** The EAN column of a list of rows. *)
Definition EAN_column (rows : list (dict float)) : list (option (value float)) :=
  map (fun row : dict float => row !! "EAN") rows.


(** A relation on states, read on the states of the [try] block of
    [product_urls_by_catalogue]. *)
Definition with_urls (R : relation (State float W))
    : relation (list (value float) * State float W) :=
  fun a b => R a.2 b.2.

(** The file a catalogue's table goes to. *)
Definition catalog_sheet (self : Difox) (catalog : dict float) : string :=
  PyStr.path_join (PyStr.path_join (file_directory self) "category_of_interest")
                  (str (catalog_filename catalog)).

(** A row of an unlisted-products table whose EAN is not among
    [EANs]. *)
Definition not_listed (EANs : list (value float)) (row : dict float) : Prop :=
  exists ean, row !! "EAN" = Some ean /\ ean ∉ EANs.

(** The outcomes of a pool that report an error, that is, the
    failures the loop of [check_catalog] counts. *)
Definition failed (r : outcome (dict float * string)) : bool :=
  match r with
  | Return (_, err) => truthy err
  | Raise _ => false
  end.

(** The scraped outcomes that [check_catalog] reports as unlisted. *)
Definition reported (EANs : list (value float)) (r : outcome (dict float * string))
    : bool :=
  match r with
  | Return (product, err) =>
      negb (truthy err)
      && match product !! "EAN" with
         | Some ean => negb (bool_decide (ean ∈ EANs))
         | None => false
         end
  | Raise _ => false
  end.



(** A computation that never ends in a failed assertion. *)
Definition is_assertion (e : exn) : Prop :=
  match e with
  | AssertionError _ => True
  | _ => False
  end.



(** The state [handle_login] leaves when the badge is there. *)
Definition already_logged_in (s : State float W) : State float W :=
  emit ("Already logged in." ++ PyStr.nl)
       (log_call (FindElement is_logged_in_selector false) s).


(** An EAN that no row of the inventory has. *)
Definition absent_from (products : list (dict float)) (row : dict float) : Prop :=
  exists ean, row !! "EAN" = Some ean
              /\ forall product, product ∈ products -> product !! "EAN" <> Some ean.

End Observations.

(** ** Further notions *)

Section Traces.

Context {float W WebElement : Type}.
Context `{!Utility float} `{!SeleniumWrap float W WebElement} `{!PySet float}.

(** What was typed into the page, and where, in call order. *)
Definition keys_of (c : call float) : option (string * string) :=
  match c with
  | ElementSendKeys txt selector => Some (txt, selector)
  | _ => None
  end.

Definition typed_keys (s : State float W) : list (string * string) :=
  omap keys_of (calls s).

(** The browser once [handle_login] has clicked the login icon. *)
Definition login_form_opened (w : W) : W :=
  match se_query ".loginBox__iconWrapper" None w with
  | Some icon => se_click icon w
  | None => w
  end.

(** The messages [scrape_product] can return as [err]. *)
Definition scrape_errors : list string :=
  ["Product page not found"; "Login form not found"; "Product name not found";
   "Product EAN not found"; "Product price not found"].

(** The record [scrape_product] builds for [url]: strings for the EAN
    and the name, a price, and 5 or 0 for the quantity. *)
Definition is_product_record (url : value float) (product : dict float) : Prop :=
  exists ean name price quantity,
    product = <["EAN" := VStr ean]>
                (<["product_name" := VStr name]>
                   (<["price" := VFloat price]>
                      (<["quantity" := VInt quantity]> (<["url" := url]> ∅))))
    /\ (quantity = 0%Z \/ quantity = 5%Z).

(** What a call of [scrape_product] for [url] can end in: a record
    with an empty error, no record with one of the messages, or
    [exit()]. *)
Definition well_formed_scrape (url : value float)
    (r : outcome (dict float * string)) : Prop :=
  match r with
  | Return (product, err) =>
      (err = EmptyString /\ is_product_record url product)
      \/ (product = ∅ /\ err ∈ scrape_errors /\ truthy err = true)
  | Raise e => e = SystemExit
  end.


(** The line [update_products] ends with. *)
Definition update_summary (updated bad : list (dict float)) : string :=
  "Updated: " ++ PyStr.of_nat (length updated)
  ++ ", In stock: " ++ quantity_count 5 updated
  ++ ", Out of stock: " ++ quantity_count 0 updated
  ++ ", Bad Product: " ++ PyStr.of_nat (length bad).

(** A row of the updated-products table: the EAN, a price, and 5 or 0. *)
Definition is_updated_row (row : dict float) : Prop :=
  exists ean price quantity,
    row = updated_product_row ean (VFloat price) (VInt quantity)
    /\ (quantity = 0%Z \/ quantity = 5%Z).

(** A computation that raises nothing but exceptions in [P], and one
    that always returns. *)
Definition raises_only {St A} (P : exn -> Prop) (c : Run St A) : Prop :=
  forall s e, fst (c s) = Raise e -> P e.

Definition returns {St A} (c : Run St A) : Prop :=
  forall s, exists a, fst (c s) = Return a.

(** The messages of the assertions of [product_urls_by_catalogue], and
    the exceptions its [try] block can end in. *)
Definition traversal_messages (catalog_url : value float) : list string :=
  ["Catalog page not found";
   "Total result text not found in catalog " ++ str catalog_url;
   "Failed to set per page 100 item";
   "Pagination not found"].

Definition traversal_exn (catalog_url : value float) (e : exn) : Prop :=
  e = AttributeError \/ e = IndexError
  \/ exists msg, e = AssertionError msg /\ msg ∈ traversal_messages catalog_url.



(** A session that lasts: as long as the browser is in one of the
    states [I], the page fetched for a URL is the one [pages] gives, it
    does not show the banner, and the fetch leaves the browser in
    [I]. *)
Definition steady (I : W -> Prop) (pages : value float -> option BeautifulSoup)
    : Prop :=
  (forall url w, I w ->
                 fst (se_fetch url true w) = pages url /\ I (snd (se_fetch url true w)))
  /\ (forall url soup, pages url = Some soup -> has_banner soup = false).

(** What [scrape_product] and [update_product] return in such a
    session. *)
Definition scraped (pages : value float -> option BeautifulSoup) (url : value float)
    : dict float * string :=
  match pages url with
  | Some soup => extract_product url soup
  | None => (∅, "Product page not found")
  end.

Definition updated (pages : value float -> option BeautifulSoup)
    (product : dict float) : outcome (dict float * option string) :=
  match product !! "url" with
  | None => Raise (KeyError "url")
  | Some url =>
      let '(new_product, err) := scraped pages url in
      match product !! "EAN" with
      | None => Raise (KeyError "EAN")
      | Some ean =>
          if truthy err then Return (bad_product_row ean err url, Some err)
          else
            match new_product !! "price", new_product !! "quantity" with
            | Some price, Some quantity =>
                Return (updated_product_row ean price quantity, None)
            | None, _ => Raise (KeyError "price")
            | _, None => Raise (KeyError "quantity")
            end
      end
  end.

End Traces.

(** ** The entry points: [main.py] and [main_italia.py] *)

(** What reading a table file ends in: the table, [FileNotFoundError],
    or any other exception. *)
Inductive read_outcome (DataFrame : Type) : Type :=
| Table (df : DataFrame)
| FileNotFound
| ReadFailure.

Arguments Table {DataFrame} df.
Arguments FileNotFound {DataFrame}.
Arguments ReadFailure {DataFrame}.

(** Modelled from the spec: [SeleniumWrap.setup_driver] of the missing
    [modules/warp.py].  The spec has the automation driver fail to
    initialise as an error that is fatal at startup; the method gives
    the driver or nothing, and leaves the browser in a new state. *)
Class SeleniumSetup (W : Type) : Type := {
  se_setup_driver : bool -> option string -> W -> bool * W;
}.

(** What the entry points ask of the libraries and of the system: the
    environment after [load_dotenv()], the table files as [pandas]
    reads them, the two facts about a table that [main] uses, and the
    minutes between two readings of the clock as [format] prints
    them.  The environment and the input files are not changed by a
    run before they are read, so they do not depend on the state. *)
Class Host (float W DataFrame : Type) : Type := {
  os_getenv : string -> option string;
  pd_DataFrame : DataFrame;
  pd_read_csv : string -> list string -> read_outcome DataFrame;
  pd_read_excel : string -> list string -> read_outcome DataFrame;
  pd_duplicated_sum : string -> DataFrame -> outcome nat;
  pd_to_dict_records : DataFrame -> list (dict float);
  time_minutes : W -> W -> string;
}.

(** [try: body  except Exception: handler]: every exception of the
    model but [SystemExit] is an [Exception]. *)
Definition try_except_Exception {St A} (body : Run St A) (handler : Run St A)
    : Run St A :=
  fun s =>
    match body s with
    | (Raise SystemExit, s') => (Raise SystemExit, s')
    | (Raise _, s') => handler s'
    | r => r
    end.

(** [try: body  finally: final] *)
Definition try_finally {St A} (body : Run St A) (final : Run St unit) : Run St A :=
  fun s =>
    match body s with
    | (r, s') =>
        match final s' with
        | (Return _, s'') => (r, s'')
        | (Raise e, s'') => (Raise e, s'')
        end
    end.

Section Entry.

Context {float W WebElement DataFrame : Type}.
Context `{!Utility float} `{!SeleniumWrap float W WebElement} `{!PySet float}.
Context `{!SeleniumSetup W} `{!Host float W DataFrame}.

#[local] Abbreviation M := (Run (State float W)).

(** [traceback.print_exc()]: the traceback goes to the error stream,
    which the state does not record. *)
Definition print_exc : M unit := ret tt.

(** [fs.read_sheet(filename, dtype)] *)
Definition read_sheet (filename : string) (dtype : list string) : M DataFrame :=
  let read (r : read_outcome DataFrame) : M DataFrame :=
    match r with
    | Table df => ret df
    | FileNotFound =>
        print ("File " ++ PyStr.dquote ++ filename ++ PyStr.dquote ++ " not found") ;;;
        ret pd_DataFrame
    | ReadFailure => print_exc ;;; ret pd_DataFrame
    end in
  if PyStr.endswith filename ".csv" then read (pd_read_csv filename dtype)
  else if PyStr.endswith filename ".xlsx" then read (pd_read_excel filename dtype)
  else
    print ("File type not supported " ++ PyStr.dquote ++ filename ++ PyStr.dquote) ;;;
    ret pd_DataFrame.

(** [self.se.setup_driver(headless=..., profile=...)]; the call comes
    before every call on a page and is not recorded among them. *)
Definition setup_driver (headless : bool) (profile : option string) : M bool :=
  fun s =>
    let '(driver, w) := se_setup_driver headless profile (browser s) in
    (Return driver, on_browser (fun _ => w) s).

(** [Difox.accept_all_cookies] *)
Definition accept_all_cookies : M unit :=
  find_element_by_visible_text "span" "Accept all cookies" true ;;; ret tt.

(** [Difox.__init__]: the object is the result. *)
Definition Difox_init (username password file_directory : string)
    (test_env headless : bool) (profile : option string) : M Difox :=
  let self := mkDifox username password file_directory test_env in
  driver <- setup_driver headless profile ;;
  assert_true driver "Failed to setup chrome" ;;;
  (* Visit Home page *)
  let login_url := VStr "https://www.difox.com/en" in
  get_page login_url ;;;
  wait_random_time 2 3 ;;;
  (* Accept cookies *)
  accept_all_cookies ;;;
  wait_random_time 2 3 ;;;
  ret self.

(** [os.getenv(name)] followed by [if not value: print(msg); exit()] *)
Definition required_env (name msg : string) : M string :=
  match os_getenv name with
  | Some v => if truthy v then ret v else print msg ;;; exit
  | None => print msg ;;; exit
  end.

(** The [if ln := df.duplicated(subset=['EAN']).sum(): print(...)] of
    the two entry points. *)
Definition warn_duplicated (df : DataFrame) : M unit :=
  ln <- lift_outcome (pd_duplicated_sum "EAN" df) ;;
  match ln with
  | O => ret tt
  | _ =>
      print ("Warning: " ++ PyStr.of_nat ln ++ " duplicated EANs in the inventory file.")
  end.

(** The [finally] clause: the minutes since [start_time]. *)
Definition print_execution_time (start : W) : M unit :=
  fun s =>
    print (PyStr.nl ++ "Execution time: " ++ time_minutes start (browser s) ++ " min") s.

(** The [try] block of [main]. *)
Definition main_session (difox : Difox) (sel : nat -> nat -> nat) (mode : string)
    (products catalogs : list (dict float))
    (updated_inventory_file bad_product_file : string) : M unit :=
  handle_login difox ;;;
  if String.eqb mode "update" then
    update_products difox (sel 0) products updated_inventory_file bad_product_file ;;;
    ret tt
  else if String.eqb mode "append" then
    check_unlisted_products difox sel products catalogs
  else ret tt.

(** [main(mode)] of [main.py] *)
Definition main (sel : nat -> nat -> nat) (mode : string) : M unit :=
  fun s0 =>
    (let start_time := browser s0 in
     file_directory <-
       required_env "file_directory"
                    "Please set your file_directory in the .env file." ;;
     let inventory_file := file_directory ++ "/difox.csv" in
     let updated_inventory_file := file_directory ++ "/difox-parse.csv" in
     let bad_product_file := file_directory ++ "/bad-products.csv" in
     let catalog_file := file_directory ++ "/catalogs.csv" in
     credentials <-
       match os_getenv "difox_user", os_getenv "difox_pass" with
       | Some username, Some password =>
           if truthy username && truthy password then ret (username, password)
           else
             print "Please set your difox_user and difox_pass in the .env file." ;;;
             exit
       | _, _ =>
           print "Please set your difox_user and difox_pass in the .env file." ;;;
           exit
       end ;;
     let '(username, password) := credentials in
     df <- read_sheet inventory_file ["EAN"] ;;
     warn_duplicated df ;;;
     let products := pd_to_dict_records df in
     df <- read_sheet catalog_file [] ;;
     let catalogs := pd_to_dict_records df in
     difox <- Difox_init username password file_directory
                         (bool_decide (os_getenv "env_type" = Some "test"))
                         true (os_getenv "chrome_profile") ;;
     try_finally
       (try_except_Exception
          (main_session difox sel mode products catalogs
                        updated_inventory_file bad_product_file)
          print_exc)
       (print_execution_time start_time)) s0.

(** [main()] of [main_italia.py] *)
Definition main_italia (sel : nat -> nat) : M unit :=
  fun s0 =>
    (let start_time := browser s0 in
     (* Read Files *)
     file_directory <-
       required_env "file_directory"
                    "Please set your file_directory in the .env file." ;;
     let inventory_file := file_directory ++ "/difox-italia.csv" in
     let updated_inventory_file := file_directory ++ "/difox-italia-parse.csv" in
     let bad_product_file := file_directory ++ "/italia-bad-products.csv" in
     credentials <-
       match os_getenv "difox_user", os_getenv "difox_pass" with
       | Some username, Some password =>
           if truthy username && truthy password then ret (username, password)
           else
             print "Please set your difox_user and difox_pass in the .env file." ;;;
             exit
       | _, _ =>
           print "Please set your difox_user and difox_pass in the .env file." ;;;
           exit
       end ;;
     let '(username, password) := credentials in
     df <- read_sheet inventory_file ["EAN"] ;;
     warn_duplicated df ;;;
     let products := pd_to_dict_records df in
     (* Difox *)
     difox <- Difox_init username password file_directory
                         (bool_decide (os_getenv "env_type" = Some "test"))
                         true (os_getenv "chrome_profile") ;;
     try_finally
       (try_except_Exception
          (handle_login difox ;;;
           update_products difox sel products updated_inventory_file bad_product_file ;;;
           ret tt)
          print_exc)
       (print_execution_time start_time)) s0.

(** The [__main__] block of [main.py]; [argv] is [sys.argv]. *)
Definition main_py (sel : nat -> nat -> nat) (argv : list string) : M unit :=
  match argv with
  | _ :: mode :: _ =>
      (* update - update inventory (quantity, price) *)
      (* append - scrape unlisted products *)
      if bool_decide (mode ∈ ["update"; "append"]) then main sel mode
      else print "Invalid mode. Command should be: python main.py [update|append]"
  | _ => print "Require a parameter: python main.py [update|append]"
  end.

(** A variable of the environment that is set and not empty, and the
    three variables the entry points insist on. *)
Definition env_set (name : string) : bool :=
  match os_getenv name with
  | Some v => truthy v
  | None => false
  end.

Definition configured : bool :=
  env_set "file_directory" && env_set "difox_user" && env_set "difox_pass".

(** Two runs that end alike but for the names of the tables they
    wrote. *)
Definition alike {A} (a b : outcome A * State float W) : Prop :=
  a.1 = b.1 /\ browser a.2 = browser b.2 /\ calls a.2 = calls b.2
  /\ stdout a.2 = stdout b.2 /\ dirs a.2 = dirs b.2
  /\ map snd (sheets a.2) = map snd (sheets b.2).

(** The line the [finally] clause prints, for some reading of the
    clock. *)
Definition execution_time_line (line : string) : Prop :=
  exists minutes,
    line = ((PyStr.nl ++ "Execution time: " ++ minutes ++ " min") ++ PyStr.nl)%string.

End Entry.

(** ** More of the small site, and a host for the entry points *)

Module Sites.

Import Stub.

(** The shop when the session has run out and the page shows no login
    form, and when the form already holds the user name. *)
Definition shop_formless : World :=
  mkWorld (product_pages shop) (catalogues shop) false true false None
          "https://shop/home" 0.

Definition shop_prefilled : World := set_field (Some "user") shop_expired.

(** A catalogue with a card that has no link. *)
Definition shop_linkless : World :=
  mkWorld (product_pages shop)
          [("https://shop/linkless", mkCatalogue [[Some p1; None]] true true true)]
          true true true None "https://shop/home" 0.

Definition linkless : dict string :=
  catalog "https://shop/linkless" "Linkless" "linkless.csv".


(** A row without a URL. *)
Definition row_without_url : dict string := <["EAN" := VStr "4005"]> ∅.

(** The states of the shop in which the session is authenticated, and
    the pages it serves then. *)
Definition shop_session (w : World) : Prop :=
  authenticated w = true /\ product_pages w = product_pages shop.

Definition shop_pages (url : value string) : option BeautifulSoup :=
  match url with
  | VStr u =>
      match assoc u (product_pages shop) with
      | Some (page, _) => Some page
      | None => None
      end
  | _ => None
  end.

(** The tables on disk, the environment, and the libraries. *)
Definition DataFrame : Type := list (dict string).

Definition environment : list (string * string) :=
  [("file_directory", "/data"); ("difox_user", "user"); ("difox_pass", "secret")].

Definition files : list (string * DataFrame) :=
  [("/data/difox.csv", inventory3);
   ("/data/difox-italia.csv", inventory3);
   ("/data/catalogs.csv", [cameras; new_items])].

Definition read (filename : string) (dtype : list string) : read_outcome DataFrame :=
  match assoc filename files with
  | Some df => Table df
  | None => FileNotFound
  end.

Definition duplicated_sum (k : string) (df : DataFrame) : outcome nat :=
  let column := map (fun row : dict string => row !! k) df in
  Return (length column - length (remove_dups column)).

#[export] Instance setup : SeleniumSetup World :=
  {| se_setup_driver := fun _ _ w => (true, w) |}.

#[export] Instance host : Host string World DataFrame :=
  {| os_getenv := fun name => assoc name environment;
     pd_DataFrame := [];
     pd_read_csv := read;
     pd_read_excel := read;
     pd_duplicated_sum := duplicated_sum;
     pd_to_dict_records := fun df => df;
     time_minutes := fun _ _ => "0.0" |}.

(** A host without an environment, and a driver that cannot be set
    up. *)
Definition bare_host : Host string World DataFrame :=
  {| os_getenv := fun _ => None;
     pd_DataFrame := [];
     pd_read_csv := read;
     pd_read_excel := read;
     pd_duplicated_sum := duplicated_sum;
     pd_to_dict_records := fun df => df;
     time_minutes := fun _ _ => "0.0" |}.

Definition no_driver : SeleniumSetup World :=
  {| se_setup_driver := fun _ _ w => (false, w) |}.

(** A row without an EAN. *)
Definition row_without_EAN : dict string := <["url" := VStr p1]> ∅.

End Sites.

(** ** Properties *)

Section Properties.

Context {float W WebElement : Type}.
Context `{!Utility float} `{!SeleniumWrap float W WebElement} `{!PySet float}.

#[local] Abbreviation M := (Run (State float W)).

(** *** Composing effects *)

#[local] Instance same_preorder {St X} (proj : St -> X) : PreOrder (same proj).
Proof. split; unfold same; [intros s|intros s1 s2 s3 H1 H2]; congruence. Qed.

#[local] Instance quiet_preorder : PreOrder (@quiet float W).
Proof.
  split; unfold quiet.
  - intros s. done.
  - intros s1 s2 s3 (?&?&?&?) (?&?&?&?). repeat split; congruence.
Qed.

#[local] Instance writes_preorder P : PreOrder (@writes float W P).
Proof.
  split; unfold writes.
  - intros s. exists []. by rewrite app_nil_r.
  - intros s1 s2 s3 (n1&E1&F1) (n2&E2&F2). exists (n1 ++ n2)%list.
    rewrite E2, E1, <- app_assoc. split; [done|]. by apply Forall_app.
Qed.

Lemma follows_ret {St A} (R : relation St) `{!Reflexive R} (a : A) :
  follows R (ret a).
Proof. intros s. simpl. reflexivity. Qed.

Lemma follows_raise {St A} (R : relation St) `{!Reflexive R} e :
  follows R (@raise St A e).
Proof. intros s. simpl. reflexivity. Qed.

Lemma follows_bind {St A B} (R : relation St) `{!Transitive R}
    (c : Run St A) (k : A -> Run St B) :
  follows R c -> (forall a, follows R (k a)) -> follows R (bind c k).
Proof.
  intros Hc Hk s. unfold bind. specialize (Hc s).
  destruct (c s) as [[a|e] s1]; simpl in *; [|done].
  etransitivity; [exact Hc|apply Hk].
Qed.

Lemma follows_try {St A} (R : relation St) `{!Transitive R}
    (c : Run St A) (h : string -> Run St A) :
  follows R c -> (forall msg, follows R (h msg)) ->
  follows R (try_except_AssertionError c h).
Proof.
  intros Hc Hh s. unfold try_except_AssertionError. specialize (Hc s).
  destruct (c s) as [[a|[msg| | | |]] s1]; simpl in *; try done.
  etransitivity; [exact Hc|apply Hh].
Qed.

Lemma follows_weaken {St A} (R R' : relation St) (c : Run St A) :
  (forall s s', R s s' -> R' s s') -> follows R c -> follows R' c.
Proof. intros HR Hc s. apply HR, Hc. Qed.

Lemma follows_assert_some {St A} (R : relation St) `{!Reflexive R}
    (x : option A) msg :
  follows R (assert_some x msg).
Proof. intros s. destruct x; simpl; reflexivity. Qed.

Lemma follows_assert_true {St} (R : relation St) `{!Reflexive R} b msg :
  follows R (@assert_true St b msg).
Proof. intros s. destruct b; simpl; reflexivity. Qed.

Lemma follows_getitem (R : relation (State float W)) `{!Reflexive R} d k :
  follows R (getitem d k).
Proof. intros s. unfold getitem. destruct (d !! k); simpl; reflexivity. Qed.

Lemma follows_lift_outcome {A} (R : relation (State float W)) `{!Reflexive R}
    (o : outcome A) :
  follows R (lift_outcome o).
Proof. intros s. simpl. reflexivity. Qed.

(** *** The wrapper methods are quiet *)

Ltac wrapper_quiet :=
  intros s; unfold quiet, fetched_urls; cbn; repeat (case_match; cbn);
  rewrite ?omap_app; cbn; rewrite ?app_nil_r; done.

Lemma find_element_quiet selector click parent :
  follows quiet (find_element selector click parent).
Proof. unfold find_element. wrapper_quiet. Qed.

Lemma find_element_by_visible_text_quiet tag txt click :
  follows quiet (find_element_by_visible_text tag txt click).
Proof. unfold find_element_by_visible_text. wrapper_quiet. Qed.

Lemma find_elements_quiet selector parent :
  follows quiet (find_elements selector parent).
Proof. unfold find_elements. wrapper_quiet. Qed.

Lemma get_attribute_quiet (e : WebElement) name :
  follows quiet (get_attribute e name).
Proof. unfold get_attribute. wrapper_quiet. Qed.

Lemma click_quiet (e : WebElement) : follows quiet (click e).
Proof. unfold click. wrapper_quiet. Qed.

Lemma element_send_keys_quiet txt selector :
  follows quiet (element_send_keys txt selector).
Proof. unfold element_send_keys. wrapper_quiet. Qed.

Lemma wait_random_time_quiet lo hi : follows quiet (wait_random_time lo hi).
Proof. unfold wait_random_time. wrapper_quiet. Qed.

Lemma current_url_quiet : follows quiet current_url.
Proof. unfold current_url. wrapper_quiet. Qed.

Lemma get_page_quiet url : follows quiet (get_page url).
Proof. unfold get_page. wrapper_quiet. Qed.

#[local] Instance offline_preorder : PreOrder (@offline float W).
Proof.
  split; unfold offline.
  - intros s. done.
  - intros s1 s2 s3 (?&?&?) (?&?&?). repeat split; congruence.
Qed.

Lemma quiet_offline (s s' : State float W) : quiet s s' -> offline s s'.
Proof. unfold quiet, offline. tauto. Qed.

Lemma offline_fetched (s s' : State float W) :
  offline s s' -> same fetched_urls s s'.
Proof. unfold offline, same. tauto. Qed.

Lemma offline_writes P (s s' : State float W) : offline s s' -> writes P s s'.
Proof. intros (_&E&_). exists []. by rewrite app_nil_r. Qed.

Lemma print_end_offline line e : follows (@offline float W) (print_end line e).
Proof. intros s. done. Qed.

Lemma print_offline line : follows (@offline float W) (print line).
Proof. intros s. done. Qed.

Create HintDb effects discriminated.

#[local] Hint Resolve find_element_quiet find_element_by_visible_text_quiet
  find_elements_quiet get_attribute_quiet click_quiet element_send_keys_quiet
  wait_random_time_quiet current_url_quiet get_page_quiet
  print_end_offline print_offline : effects.
#[local] Hint Extern 1 (follows _ (ret _)) => apply follows_ret; apply _ : effects.
#[local] Hint Extern 1 (follows _ (raise _)) => apply follows_raise; apply _ : effects.
#[local] Hint Extern 1 (follows _ exit) => apply follows_raise; apply _ : effects.
#[local] Hint Extern 1 (follows _ (assert_some _ _)) =>
  apply follows_assert_some; apply _ : effects.
#[local] Hint Extern 1 (follows _ (assert_true _ _)) =>
  apply follows_assert_true; apply _ : effects.
#[local] Hint Extern 1 (follows _ (getitem _ _)) =>
  apply follows_getitem; apply _ : effects.
#[local] Hint Extern 1 (follows _ (lift_outcome _)) =>
  apply follows_lift_outcome; apply _ : effects.
#[local] Hint Extern 5 (follows offline _) =>
  eapply follows_weaken; [apply quiet_offline|] : effects.

(** One step through a computation: split a sequence, take a branch,
    or close the goal with a known effect. *)
Ltac follows_step :=
  lazymatch goal with
  | |- follows _ (bind _ _) => apply follows_bind; [apply _| |intros ?]
  | |- follows _ (try_except_AssertionError _ _) =>
      apply follows_try; [apply _| |intros ?]
  | |- follows _ (match ?x with _ => _ end) => destruct x
  | |- follows _ _ => solve [eauto with effects]
  end.

(** *** [handle_login] *)

Lemma handle_login_offline self : follows offline (handle_login self).
Proof. unfold handle_login. repeat follows_step. Qed.

Lemma handle_login_already self (s : State float W) e :
  se_query is_logged_in_selector None (browser s) = Some e ->
  handle_login self s = (Return true, already_logged_in s).
Proof.
  intros He. unfold handle_login, bind, find_element. simpl. rewrite He. reflexivity.
Qed.

Lemma handle_login_true_badge self (s s1 : State float W) :
  handle_login self s = (Return true, s1) ->
  exists e, se_query is_logged_in_selector None (browser s1) = Some e.
Proof.
  unfold handle_login, bind, find_element, find_element_by_visible_text,
    get_attribute, element_send_keys, wait_random_time, assert_some, print,
    print_end, ret, raise.
  simpl. intros H.
  repeat (case_match; simplify_eq; simpl in *); eauto.
Qed.

(** C10: login is idempotent.  When the logged-in badge is present,
    [handle_login] returns true after the one query for the badge:
    the browser is as it was, the only wrapper call is that query,
    and the login form is not opened, filled or submitted.  A login
    that follows a successful login takes this path, so it leaves
    the session as the first one left it. *)
Theorem login_is_idempotent self (s : State float W) :
  (forall e, se_query is_logged_in_selector None (browser s) = Some e ->
             handle_login self s = (Return true, already_logged_in s))
  /\ (forall s1, handle_login self s = (Return true, s1) ->
                 handle_login self s1 = (Return true, already_logged_in s1)).
Proof.
  split.
  - intros e He. by eapply handle_login_already.
  - intros s1 H1. destruct (handle_login_true_badge _ _ _ H1) as [e He].
    by eapply handle_login_already.
Qed.


(** *** [scrape_product] *)

Lemma try_bind {St A B} (c : Run St A) (k : A -> Run St B) h (s : St) :
  try_except_AssertionError (bind c k) h s =
  match c s with
  | (Return a, s1) => try_except_AssertionError (k a) h s1
  | (Raise (AssertionError msg), s1) => h msg s1
  | (Raise e, s1) => (Raise e, s1)
  end.
Proof.
  unfold try_except_AssertionError, bind.
  destruct (c s) as [[a|[]] s1]; reflexivity.
Qed.

Lemma get_page_by_requests_returns url add_cookies (s : State float W) :
  exists soup s1,
    get_page_by_requests url add_cookies s = (Return soup, s1)
    /\ fetched_urls s1 = (fetched_urls s ++ [url])%list
    /\ stdout s1 = stdout s /\ sheets s1 = sheets s /\ dirs s1 = dirs s.
Proof.
  unfold get_page_by_requests, fetched_urls. cbn.
  destruct (se_fetch _ _ _) as [soup w]. exists soup. eexists. split; [reflexivity|].
  cbn. rewrite omap_app. done.
Qed.

Lemma session_timeout_check_offline self soup :
  follows offline (session_timeout_check self soup).
Proof.
  unfold session_timeout_check.
  pose proof (handle_login_offline self).
  repeat follows_step.
Qed.

Lemma scrape_product_offline_after_fetch self url add_cookies (s : State float W) :
  offline (snd (get_page_by_requests url add_cookies s))
          (snd (scrape_product self url add_cookies s)).
Proof.
  unfold scrape_product, scrape_product_body. rewrite try_bind.
  destruct (get_page_by_requests_returns url add_cookies s) as (soup&s1&->&_).
  pose proof (session_timeout_check_offline self).
  cbn [snd].
  lazymatch goal with
  | |- offline ?s1 (snd (?c ?s1)) => cut (follows offline c); [intros Hx; apply Hx|]
  end.
  repeat follows_step.
Qed.

Lemma scrape_product_fetched_urls self url add_cookies (s : State float W) :
  fetched_urls (snd (scrape_product self url add_cookies s))
  = (fetched_urls s ++ [url])%list.
Proof.
  destruct (scrape_product_offline_after_fetch self url add_cookies s) as (E&_).
  rewrite E.
  by destruct (get_page_by_requests_returns url add_cookies s) as (?&?&->&?&_).
Qed.

Lemma scrape_product_checked self url add_cookies (s : State float W) soup s1 s2 :
  get_page_by_requests url add_cookies s = (Return (Some soup), s1) ->
  session_timeout_check self soup s1 = (Return tt, s2) ->
  scrape_product self url add_cookies s = (Return (extract_product url soup), s2).
Proof.
  intros Hf Hc.
  unfold scrape_product, try_except_AssertionError, scrape_product_body, bind.
  rewrite Hf. simpl. rewrite Hc. unfold extract_product.
  destruct (select_one soup ".productDisplay__title"); simpl; [|done].
  destruct (select_one soup ".is--eanCode"); simpl; [|done].
  destruct (select_one soup ".price__price"); simpl; done.
Qed.

Lemma session_timeout_check_banner self soup (s : State float W) :
  has_banner soup = true ->
  session_timeout_check self soup s =
  match handle_login self s with
  | (Return true, s2) => (Return tt, s2)
  | (Return false, s2) => (Raise SystemExit, snd (print "Cannot Login." s2))
  | (Raise e, s2) => (Raise e, s2)
  end.
Proof.
  unfold has_banner, session_timeout_check. intros Hb.
  destruct (select_one soup _) as [msg|]; [|done]. rewrite Hb.
  unfold bind. by destruct (handle_login self s) as [[[]|] s2].
Qed.

Lemma session_timeout_check_no_banner self soup (s : State float W) :
  has_banner soup = false ->
  session_timeout_check self soup s = (Return tt, s).
Proof.
  unfold has_banner, session_timeout_check. intros Hb.
  destruct (select_one soup _) as [msg|]; [|done]. by rewrite Hb.
Qed.


(** *** [update_product] *)

Lemma update_product_failed self product (s : State float W) url ean msg s2 :
  product !! "url" = Some url ->
  product !! "EAN" = Some ean ->
  scrape_product self url true s = (Return (∅, msg), s2) ->
  truthy msg = true ->
  update_product self product s
  = (Return (bad_product_row ean msg url, Some msg), s2).
Proof.
  intros Hu He Hs Ht. unfold update_product, bind, getitem.
  rewrite Hu. simpl. rewrite Hs, Ht, He. reflexivity.
Qed.

(** C3, as the code has it: once the page is fetched and the session
    check is passed, three fields are required, in this order: the
    title, the EAN label and the price.  The first one that is
    missing ends the extraction with the message that names it and
    with no product record, and [update_product] turns that into the
    bad-product row of the inventory row.  The availability marker
    is not required: with the three fields present a record is
    produced, with quantity 5 when the marker is there and 0 when it
    is not. *)
Theorem required_fields_validated self url (s : State float W) soup s1 s2 :
  get_page_by_requests url true s = (Return (Some soup), s1) ->
  session_timeout_check self soup s1 = (Return tt, s2) ->
  let title := select_one soup ".productDisplay__title" in
  let ean_label := select_one soup ".is--eanCode" in
  let price := select_one soup ".price__price" in
  let marker := select_one soup ".is--available" in
  (title = None ->
   scrape_product self url true s = (Return (∅, "Product name not found"), s2))
  /\ (is_Some title -> ean_label = None ->
      scrape_product self url true s = (Return (∅, "Product EAN not found"), s2))
  /\ (is_Some title -> is_Some ean_label -> price = None ->
      scrape_product self url true s = (Return (∅, "Product price not found"), s2))
  /\ (is_Some title -> is_Some ean_label -> is_Some price ->
      exists product,
        scrape_product self url true s = (Return (product, EmptyString), s2)
        /\ product !! "quantity"
           = Some (VInt (match marker with Some _ => 5 | None => 0 end))
        /\ product !! "url" = Some url)
  /\ (forall product ean msg,
        product !! "url" = Some url -> product !! "EAN" = Some ean ->
        (title = None /\ msg = "Product name not found"
         \/ is_Some title /\ ean_label = None /\ msg = "Product EAN not found"
         \/ is_Some title /\ is_Some ean_label /\ price = None
            /\ msg = "Product price not found") ->
        update_product self product s
        = (Return (bad_product_row ean msg url, Some msg), s2)
        /\ forall updated bad,
             update_loop_body (bad_product_row ean msg url, Some msg) (updated, bad)
             = Return (updated, (bad ++ [bad_product_row ean msg url])%list)).
Proof.
  intros Hf Hc title ean_label price marker.
  pose proof (scrape_product_checked _ _ _ _ _ _ _ Hf Hc) as Hs.
  unfold extract_product in Hs.
  fold title ean_label price marker in Hs.
  assert (C1 : title = None ->
    scrape_product self url true s = (Return (∅, "Product name not found"), s2)).
  { intros E. by rewrite E in Hs. }
  assert (C2 : is_Some title -> ean_label = None ->
    scrape_product self url true s = (Return (∅, "Product EAN not found"), s2)).
  { intros [t Et] E. by rewrite Et, E in Hs. }
  assert (C3 : is_Some title -> is_Some ean_label -> price = None ->
    scrape_product self url true s = (Return (∅, "Product price not found"), s2)).
  { intros [t Et] [e Ee] E. by rewrite Et, Ee, E in Hs. }
  split; [exact C1|]. split; [exact C2|]. split; [exact C3|]. split.
  - intros [t Et] [e Ee] [p Ep]. rewrite Et, Ee, Ep in Hs.
    eexists. split; [exact Hs|].
    split; [by destruct marker|done].
  - intros product ean msg Hu He Hm.
    assert (scrape_product self url true s = (Return (∅, msg), s2) /\ truthy msg = true)
      as [Hr Ht].
    { destruct Hm as [[E ->]|[(T&E&->)|(T&L&E&->)]]; split; auto. }
    split; [by eapply update_product_failed|].
    intros updated bad. unfold update_loop_body, has_error. by rewrite Ht.
Qed.



(** *** The worker pool *)

Lemma pool_pick_lookup {A} workers (pending : list A) n :
  0 < workers -> pending <> [] ->
  is_Some (pending !! (n mod Nat.min workers (length pending))).
Proof.
  intros Hw Hp. apply lookup_lt_is_Some.
  destruct pending as [|x l]; [done|]. simpl length.
  pose proof (Nat.mod_upper_bound n (Nat.min workers (S (length l)))). lia.
Qed.

Lemma Forall2_reinsert {A B} (P : A -> B -> Prop) (l : list A) (rs : list B) k x r :
  l !! k = Some x -> P x r -> Forall2 P (delete k l) rs ->
  Forall2 P l (take k rs ++ r :: drop k rs).
Proof.
  intros Hk Hx HF. rewrite delete_take_drop in HF.
  apply Forall2_app_inv_l in HF as (r1&r2&H1&H2&->).
  assert (length r1 = k) as Hlen.
  { apply Forall2_length in H1. rewrite <- H1, length_take.
    apply lookup_lt_Some in Hk. lia. }
  rewrite take_app_length' by done. rewrite drop_app_length' by done.
  rewrite <- (take_drop_middle l k x Hk). apply Forall2_app; [done|].
  by constructor.
Qed.

Lemma pool_run_outcomes {A B} workers (f : A -> M B) sel step fuel pending
    (s : State float W) :
  0 < workers -> length pending <= fuel ->
  Forall2 (fun x r => exists s0, r = fst (f x s0)) pending
          (fst (pool_run workers f sel step fuel pending s)).
Proof.
  intros Hw. revert step pending s.
  induction fuel as [|fuel IH]; intros step pending s Hlen.
  - destruct pending; [constructor|simpl in Hlen; lia].
  - simpl. destruct pending as [|x0 l] eqn:Ep.
    { rewrite lookup_nil. constructor. }
    rewrite <- Ep in *.
    destruct (pool_pick_lookup workers pending (sel step) Hw) as [x Hx];
      [by subst|].
    rewrite Hx. destruct (f x s) as [r s1] eqn:Ef.
    specialize (IH (S step) (delete (sel step mod Nat.min workers (length pending)) pending) s1).
    destruct (pool_run _ _ _ _ _ _ s1) as [rs s2]. simpl in *.
    eapply Forall2_reinsert; [exact Hx| |apply IH].
    + exists s. by rewrite Ef.
    + rewrite length_delete by eauto. subst pending. simpl in *. lia.
Qed.

Lemma pool_run_follows {A B} (R : relation (State float W)) `{!PreOrder R}
    workers (f : A -> M B) sel step fuel pending s :
  (forall x, follows R (f x)) ->
  R s (snd (pool_run workers f sel step fuel pending s)).
Proof.
  intros Hf. revert step pending s.
  induction fuel as [|fuel IH]; intros step pending s; simpl; [reflexivity|].
  case_match; [|reflexivity].
  pose proof (Hf a s) as H1. destruct (f a s) as [r s1]. simpl in H1.
  specialize (IH (S step) (delete (sel step mod Nat.min workers (length pending)) pending) s1).
  destruct (pool_run _ _ _ _ _ _ s1) as [rs s2]. simpl in *.
  by etransitivity.
Qed.

Lemma executor_map_follows {A B} (R : relation (State float W)) `{!PreOrder R}
    workers (f : A -> M B) sel xs :
  (forall x, follows R (f x)) -> follows R (executor_map workers f sel xs).
Proof.
  intros Hf s. unfold executor_map.
  pose proof (pool_run_follows R workers f sel 0 (length xs) xs s Hf) as H.
  by destruct (pool_run _ _ _ _ _ _ s).
Qed.



Lemma pool_run_fetched {A B} (g : A -> option (value float)) workers
    (f : A -> M B) sel step fuel pending (s : State float W) :
  (forall x s, fetched_urls (snd (f x s)) = (fetched_urls s ++ option_list (g x))%list) ->
  0 < workers -> length pending <= fuel ->
  exists l,
    fetched_urls (snd (pool_run workers f sel step fuel pending s))
    = (fetched_urls s ++ l)%list
    /\ l ≡ₚ omap g pending.
Proof.
  intros Hf Hw. revert step pending s.
  induction fuel as [|fuel IH]; intros step pending s Hlen.
  - destruct pending; [|simpl in Hlen; lia]. exists []. by rewrite app_nil_r.
  - simpl. destruct pending as [|x0 l0] eqn:Ep.
    { rewrite lookup_nil. exists []. by rewrite app_nil_r. }
    rewrite <- Ep in *.
    destruct (pool_pick_lookup workers pending (sel step) Hw) as [x Hx];
      [by subst|].
    rewrite Hx. pose proof (Hf x s) as H1. destruct (f x s) as [r s1]. simpl in H1.
    destruct (IH (S step) (delete (sel step mod Nat.min workers (length pending)) pending) s1)
      as (l'&E&HP).
    { rewrite length_delete by eauto. subst pending. simpl in *. lia. }
    destruct (pool_run _ _ _ _ _ _ s1) as [rs s2]. simpl in *.
    exists (option_list (g x) ++ l')%list. rewrite E, H1, <- app_assoc.
    split; [done|].
    rewrite HP.
    transitivity (omap g (x :: delete (sel step mod Nat.min workers (length pending)) pending)).
    { simpl. by destruct (g x). }
    apply omap_Permutation. symmetry. by apply delete_Permutation.
Qed.

(** *** Running a sequence step by step *)

Lemma bind_Return {St A B} (c : Run St A) (k : A -> Run St B) s a s1 :
  c s = (Return a, s1) -> bind c k s = k a s1.
Proof. unfold bind. by intros ->. Qed.

Lemma bind_Raise {St A B} (c : Run St A) (k : A -> Run St B) s e s1 :
  c s = (Raise e, s1) -> bind c k s = (Raise e, s1).
Proof. unfold bind. by intros ->. Qed.

Lemma bind_print {B} line (k : unit -> M B) (s : State float W) :
  bind (print line) k s = k tt (emit (line ++ PyStr.nl) s).
Proof. reflexivity. Qed.

Lemma bind_print_end {B} line e (k : unit -> M B) (s : State float W) :
  bind (print_end line e) k s = k tt (emit (line ++ e) s).
Proof. reflexivity. Qed.

Lemma write_to_sheet_written rows filename (s : State float W) :
  is_sheet_file filename = true ->
  write_to_sheet rows filename s = (Return tt, record_sheet filename rows s).
Proof. unfold write_to_sheet, is_sheet_file. by intros ->. Qed.

(** *** [update_products] *)

Lemma scrape_product_same_sheets self url add_cookies :
  follows (same sheets) (scrape_product self url add_cookies : M _).
Proof.
  intros s.
  destruct (scrape_product_offline_after_fetch self url add_cookies s) as (_&E&_).
  destruct (get_page_by_requests_returns url add_cookies s) as (?&?&Eg&_&_&E1&_).
  rewrite Eg in E. unfold same. simpl in E. congruence.
Qed.

Lemma update_product_after_scrape self product (s : State float W) :
  snd (update_product self product s) =
  match product !! "url" with
  | Some url => snd (scrape_product self url true s)
  | None => s
  end.
Proof.
  unfold update_product, bind, getitem, ret, raise.
  destruct (product !! "url") as [url|]; [|done]. simpl.
  destruct (scrape_product self url true s) as [[[new_product e]|x] s1]; [|done].
  simpl. destruct (truthy e); destruct (product !! "EAN"); simpl; try done.
  destruct (new_product !! "price"); simpl; [|done].
  by destruct (new_product !! "quantity").
Qed.

Lemma update_product_same_sheets self product :
  follows (same sheets) (update_product self product : M _).
Proof.
  intros s. rewrite update_product_after_scrape.
  destruct (product !! "url"); [apply scrape_product_same_sheets|done].
Qed.

Lemma update_product_fetched self product (s : State float W) :
  fetched_urls (snd (update_product self product s))
  = (fetched_urls s ++ option_list (row_url product))%list.
Proof.
  rewrite update_product_after_scrape. unfold row_url.
  destruct (product !! "url"); simpl.
  - apply scrape_product_fetched_urls.
  - by rewrite app_nil_r.
Qed.

Lemma update_product_rows self product (s : State float W) row err s' :
  update_product self product s = (Return (row, err), s') ->
  is_Some (product !! "EAN")
  /\ row !! "EAN" = product !! "EAN"
  /\ (forall e, err = Some e ->
        exists url, product !! "url" = Some url
                    /\ row = bad_product_row (default VNone (product !! "EAN")) e url)
  /\ (err = None ->
        exists price quantity,
          row = updated_product_row (default VNone (product !! "EAN")) price quantity).
Proof.
  unfold update_product, bind, getitem, ret, raise. intros H.
  destruct (product !! "url") as [url|] eqn:Hu; [|done].
  destruct (scrape_product self url true s) as [[[new_product e]|x] s1]; [|done].
  destruct (truthy e).
  - destruct (product !! "EAN") as [ean|] eqn:He; [|done].
    simplify_eq. split; [done|].
    split; [by unfold bad_product_row; rewrite lookup_insert_eq|].
    split; [|done]. intros e' [= <-]. by exists url.
  - destruct (product !! "EAN") as [ean|] eqn:He; [|done].
    destruct (new_product !! "price") as [price|]; [|done].
    destruct (new_product !! "quantity") as [quantity|]; [|done].
    simplify_eq. split; [done|]. split; [by rewrite lookup_insert_eq|].
    split; [done|]. intros _. by exists price, quantity.
Qed.

(** C8: the row [update_product] returns carries the EAN of the
    inventory row it was given, in the failure row as in the success
    row; the EAN read from the page does not reach the row. *)
Theorem update_product_keeps_inventory_EAN self product (s : State float W)
    row err s' :
  update_product self product s = (Return (row, err), s') ->
  is_Some (product !! "EAN")
  /\ row !! "EAN" = product !! "EAN"
  /\ (forall e, err = Some e ->
        exists url, product !! "url" = Some url
                    /\ row = bad_product_row (default VNone (product !! "EAN")) e url)
  /\ (err = None ->
        exists price quantity,
          row = updated_product_row (default VNone (product !! "EAN")) price quantity).
Proof.
  unfold update_product, bind, getitem, ret, raise. intros H.
  destruct (product !! "url") as [url|] eqn:Hu; [|done].
  destruct (scrape_product self url true s) as [[[new_product e]|x] s1]; [|done].
  destruct (truthy e).
  - destruct (product !! "EAN") as [ean|] eqn:He; [|done].
    simplify_eq. split; [done|].
    split; [by unfold bad_product_row; rewrite lookup_insert_eq|].
    split; [|done]. intros e' [= <-]. by exists url.
  - destruct (product !! "EAN") as [ean|] eqn:He; [|done].
    destruct (new_product !! "price") as [price|]; [|done].
    destruct (new_product !! "quantity") as [quantity|]; [|done].
    simplify_eq. split; [done|]. split; [by rewrite lookup_insert_eq|].
    split; [done|]. intros _. by exists price, quantity.
Qed.

Lemma for_results_update_returned rs u0 b0 u b :
  for_results (update_loop_body (float:=float)) rs (u0, b0) = Return (u, b) ->
  exists rows,
    rs = map Return rows
    /\ u = (u0 ++ map fst (List.filter (fun r => negb (has_error r.2)) rows))%list
    /\ b = (b0 ++ map fst (List.filter (fun r => has_error r.2) rows))%list.
Proof.
  revert u0 b0. induction rs as [|[[row err]|e] rs IH]; intros u0 b0 H; simpl in H.
  - simplify_eq. exists []. simpl. by rewrite !app_nil_r.
  - destruct (has_error err) eqn:Eh; simpl in H;
      apply IH in H as (rows&->&->&->); exists ((row, err) :: rows);
      simpl; rewrite Eh; simpl; rewrite <- ?app_assoc; done.
  - done.
Qed.

Lemma filter_sublist {A} (p : A -> bool) (l : list A) :
  List.filter p l `sublist_of` l.
Proof.
  induction l as [|x l IH]; simpl; [constructor|].
  destruct (p x); by constructor.
Qed.

Lemma map_sublist {A B} (f : A -> B) (l k : list A) :
  l `sublist_of` k -> map f l `sublist_of` map f k.
Proof. induction 1; simpl; by constructor. Qed.

Lemma partition_by_error (rows : list (dict float * option string)) :
  (map fst (List.filter (fun r => negb (has_error r.2)) rows)
   ++ map fst (List.filter (fun r => has_error r.2) rows))%list
  ≡ₚ map fst rows.
Proof.
  induction rows as [|[row err] rows IH]; simpl; [done|].
  destruct (has_error err); simpl.
  - by rewrite <- Permutation_middle, IH.
  - by rewrite IH.
Qed.

Lemma Forall2_map_eq {A B C} (f : A -> C) (g : B -> C) l k :
  Forall2 (fun x y => f x = g y) l k -> map f l = map g k.
Proof. induction 1; simpl; congruence. Qed.

(** What the pool makes of an inventory. *)
Lemma executor_map_update self sel inventory (s : State float W) :
  exists rs s2,
    executor_map max_workers (update_product self) sel inventory s = (Return rs, s2)
    /\ sheets s2 = sheets s
    /\ fetched_urls s2 ≡ₚ (fetched_urls s ++ omap row_url inventory)%list
    /\ Forall2 (fun x r => exists s0, r = fst (update_product self x s0)) inventory rs.
Proof.
  unfold executor_map.
  pose proof (pool_run_outcomes max_workers (update_product self) sel 0
                (length inventory) inventory s ltac:(unfold max_workers; lia) (le_n _))
    as HF.
  pose proof (pool_run_follows (same sheets) max_workers (update_product self) sel 0
                (length inventory) inventory s (update_product_same_sheets self)) as HS.
  destruct (pool_run_fetched row_url max_workers (update_product self) sel 0
                (length inventory) inventory s (update_product_fetched self)
                ltac:(unfold max_workers; lia) (le_n _)) as (fl&Efl&Pfl).
  destruct (pool_run _ _ _ _ _ _ s) as [rs s2]. simpl in *.
  exists rs, s2. split; [done|]. split; [exact HS|]. split; [|done].
  by rewrite Efl, Pfl.
Qed.

Lemma update_products_cases self sel products uf bf (s : State float W) :
  is_sheet_file uf = true -> is_sheet_file bf = true ->
  let inventory := if test_env self then take 10 products else products in
  let s' := snd (update_products self sel products uf bf s) in
  (sheets s' = sheets s
   /\ exists e, fst (update_products self sel products uf bf s) = Raise e)
  \/ (exists updated bad,
        sheets s' = (sheets s ++ [(uf, updated); (bf, bad)])%list
        /\ length updated + length bad = length inventory
        /\ EAN_column (updated ++ bad) ≡ₚ EAN_column inventory
        /\ fetched_urls s' ≡ₚ (fetched_urls s ++ omap row_url inventory)%list
        /\ Forall (fun row => exists ean err url,
                                row = bad_product_row ean err url) bad
        /\ EAN_column updated `sublist_of` EAN_column inventory
        /\ EAN_column bad `sublist_of` EAN_column inventory).
Proof.
  intros Hu Hb inventory s'. subst s'. unfold update_products.
  assert (exists s0,
             (if test_env self
              then print "Test mode: Only 10 products updating." ;;; ret (take 10 products)
              else ret products) s = (Return inventory, s0)
             /\ sheets s0 = sheets s /\ fetched_urls s0 = fetched_urls s)
    as (s0&E0&Es0&Ef0).
  { subst inventory. destruct (test_env self); eexists; (split; [reflexivity|done]). }
  rewrite (bind_Return _ _ _ _ _ E0). rewrite !bind_print.
  match goal with |- context [bind (executor_map _ _ _ _) _ ?st] => set (s1 := st) end.
  destruct (executor_map_update self sel inventory s1) as (rs&s2&Em&HS&HP&HF).
  rewrite (bind_Return _ _ _ _ _ Em).
  assert (sheets s2 = sheets s) as HS' by (rewrite HS; exact Es0).
  assert (fetched_urls s2 ≡ₚ (fetched_urls s ++ omap row_url inventory)%list) as HP'
    by (rewrite HP; subst s1; unfold fetched_urls in *; cbn; by rewrite Ef0).
  clear HS HP Em. clearbody s1.
  destruct (for_results update_loop_body rs ([], [])) as [[updated bad]|e] eqn:Efr.
  - right. exists updated, bad.
    rewrite (bind_Return _ _ _ (updated, bad) s2) by done.
    rewrite (bind_Return _ _ _ tt _ (write_to_sheet_written _ _ _ Hu)).
    rewrite (bind_Return _ _ _ tt _ (write_to_sheet_written _ _ _ Hb)).
    apply for_results_update_returned in Efr as (rows&->&Eu&Eb). simpl in Eu, Eb.
    assert ((updated ++ bad)%list ≡ₚ map fst rows) as HR
      by (rewrite Eu, Eb; apply partition_by_error).
    apply Forall2_fmap_r in HF.
    assert (Forall2 (fun (x : dict float) (r : dict float * option string) =>
                       x !! "EAN" = r.1 !! "EAN") inventory rows) as HE.
    { eapply Forall2_impl; [exact HF|].
      intros x [row err] (s3&E). simpl in *.
      destruct (update_product self x s3) as [o s4] eqn:Ex. simpl in E. subst o.
      apply update_product_rows in Ex as (_&->&_). done. }
    assert (Forall (fun r : dict float * option string =>
                      has_error r.2 = true ->
                      exists ean err url, r.1 = bad_product_row ean err url) rows) as HB.
    { apply Forall_forall. intros [row err] Hin Herr. simpl in *.
      apply list_elem_of_lookup in Hin as [j Hj].
      destruct (Forall2_lookup_r _ _ _ _ _ HF Hj) as (x&_&s3&E).
      destruct (update_product self x s3) as [o s4] eqn:Ex. simpl in E. subst o.
      apply update_product_rows in Ex as (_&_&Hbad&_).
      destruct err as [e|]; [|done]. destruct (Hbad e eq_refl) as (url&_&->). eauto. }
    assert (forall p : dict float * option string -> bool,
              EAN_column (map fst (List.filter p rows))
              `sublist_of` EAN_column inventory) as Hsub.
    { intros p. unfold EAN_column. rewrite map_map.
      erewrite (Forall2_map_eq _ _ inventory rows); [|exact HE].
      apply map_sublist, filter_sublist. }
    split; [|split; [|split; [|split; [|split; [|split]]]]].
    + destruct updated; cbn; rewrite HS', <- app_assoc; done.
    + rewrite <- length_app, HR, length_map. by apply Forall2_length in HE.
    + unfold EAN_column. rewrite HR, map_map.
      by erewrite (Forall2_map_eq _ _ inventory rows).
    + destruct updated; exact HP'.
    + rewrite Eb. apply Forall_forall. intros row Hin.
      apply list_elem_of_In, in_map_iff in Hin as ([row' err]&<-&Hin).
      apply filter_In in Hin as [Hin Herr].
      rewrite Forall_forall in HB. apply (HB (row', err)); [|done].
      by apply list_elem_of_In.
    + rewrite Eu. apply Hsub.
    + rewrite Eb. apply Hsub.
  - left. rewrite (bind_Raise _ _ _ e s2) by done. simpl. eauto.
Qed.

(** C7: the pool hands over one outcome per input, in the order of
    the inputs: the i-th outcome is what the task function made of
    the i-th input, in the state the run was in when that task took
    effect.  This holds for every number of workers and every
    scheduling choice.  In [update_products] the rows are appended in
    that order, so each of the two tables lists its rows in the order
    of the inventory. *)
Theorem executor_map_in_input_order :
  (forall A B workers (f : A -> M B) sel xs (s : State float W),
      0 < workers ->
      exists rs s',
        executor_map workers f sel xs s = (Return rs, s')
        /\ length rs = length xs
        /\ forall i x, xs !! i = Some x -> exists s0, rs !! i = Some (fst (f x s0)))
  /\ (forall self sel products uf bf (s : State float W) updated bad,
        is_sheet_file uf = true -> is_sheet_file bf = true ->
        let inventory := if test_env self then take 10 products else products in
        sheets (snd (update_products self sel products uf bf s))
        = (sheets s ++ [(uf, updated); (bf, bad)])%list ->
        EAN_column updated `sublist_of` EAN_column inventory
        /\ EAN_column bad `sublist_of` EAN_column inventory).
Proof.
  split.
  - intros A B workers f sel xs s Hw. unfold executor_map.
    pose proof (pool_run_outcomes workers f sel 0 (length xs) xs s Hw (le_n _)) as HF.
    destruct (pool_run _ _ _ _ _ _ s) as [rs s']. simpl in HF.
    exists rs, s'. split; [done|]. split; [symmetry; by eapply Forall2_length|].
    intros i x Hx.
    destruct (Forall2_lookup_l _ _ _ _ _ HF Hx) as (r&Hr&s0&->). eauto.
  - intros self sel products uf bf s updated bad Hu Hb inventory Hs.
    destruct (update_products_cases self sel products uf bf s Hu Hb)
      as [[E _]|(u&b&E&_&_&_&_&H1&H2)]; rewrite E in Hs.
    + apply (f_equal length) in Hs. rewrite length_app in Hs. simpl in Hs. lia.
    + apply app_inv_head in Hs. by simplify_eq.
Qed.



(** *** The catalogue traversal *)

#[local] Instance with_urls_preorder (R : relation (State float W)) `{!PreOrder R} :
  PreOrder (with_urls R).
Proof.
  split; unfold with_urls.
  - intros a. reflexivity.
  - intros a b c Hab Hbc. by etransitivity.
Qed.

Lemma follows_lift {A} (R : relation (State float W)) (c : M A) :
  follows R c -> follows (with_urls R) (lift c).
Proof.
  intros Hc [urls s]. unfold lift, with_urls. specialize (Hc s). simpl.
  by destruct (c s).
Qed.

Lemma follows_extend_product_urls (R : relation (State float W)) `{!Reflexive R} hrefs :
  follows (with_urls R) (extend_product_urls hrefs).
Proof. intros [urls s]. unfold with_urls. simpl. reflexivity. Qed.

Lemma follows_for_range {St} (R : relation St) `{!PreOrder R} n (body : Run St unit) :
  follows R body -> follows R (for_range n body).
Proof.
  intros Hb. induction n as [|n IH]; simpl.
  - by apply follows_ret, _.
  - apply follows_bind; [apply _|done|done].
Qed.

#[local] Hint Extern 1 (follows (with_urls _) (lift _)) =>
  apply follows_lift : effects.
#[local] Hint Extern 1 (follows (with_urls _) (extend_product_urls _)) =>
  apply follows_extend_product_urls; apply _ : effects.

Lemma article_links_quiet (articles : list WebElement) :
  follows quiet (article_links articles).
Proof. induction articles as [|a l IH]; simpl; repeat follows_step. Qed.

#[local] Hint Resolve article_links_quiet : effects.

Lemma collect_page_offline : follows (with_urls (@offline float W)) collect_page.
Proof. unfold collect_page. repeat follows_step. Qed.

Lemma product_urls_body_offline catalog_url :
  follows (with_urls (@offline float W)) (product_urls_body catalog_url).
Proof.
  unfold product_urls_body. pose proof collect_page_offline.
  repeat first [apply follows_for_range; [apply _|done] | follows_step].
Qed.

Lemma product_urls_by_catalogue_offline catalog_url :
  follows offline (product_urls_by_catalogue catalog_url).
Proof.
  intros s. unfold product_urls_by_catalogue.
  pose proof (product_urls_body_offline catalog_url ([], s)) as H.
  destruct (product_urls_body catalog_url ([], s)) as [[[]|[msg| | | |]] [urls s1]];
    unfold with_urls in H; simpl in *; done.
Qed.



(** *** One round of the loop over the catalogues *)

Lemma catalog_candidates_offline self URLs i catalog :
  follows offline (catalog_candidates self URLs i catalog : M _).
Proof.
  unfold catalog_candidates.
  pose proof product_urls_by_catalogue_offline.
  repeat follows_step.
Qed.

Lemma bind_Return_inv {St A B} (c : Run St A) (k : A -> Run St B) s b s' :
  bind c k s = (Return b, s') ->
  exists a s1, c s = (Return a, s1) /\ k a s1 = (Return b, s').
Proof. unfold bind. destruct (c s) as [[a|e] s1]; [eauto|done]. Qed.

Lemma catalog_candidates_result self URLs i catalog (s : State float W) urls s0 :
  catalog_candidates self URLs i catalog s = (Return urls, s0) ->
  NoDup urls /\ forall url, url ∈ urls -> url ∉ URLs.
Proof.
  unfold catalog_candidates. intros H.
  apply bind_Return_inv in H as (catalog_url&s1&_&H).
  apply bind_Return_inv in H as (collected&s2&_&H).
  apply bind_Return_inv in H as (name&s3&_&H).
  rewrite bind_print_end in H. injection H as <- _.
  assert (NoDup (filter (fun url => url ∉ URLs) (list_of_set collected))
          /\ forall url, url ∈ filter (fun url => url ∉ URLs) (list_of_set collected)
                         -> url ∉ URLs) as [HN HU].
  { split; [apply NoDup_filter, list_of_set_NoDup|].
    intros url Hin. by apply list_elem_of_filter in Hin as [? _]. }
  destruct (test_env self); [|done]. split.
  - eapply sublist_NoDup; [exact HN|apply sublist_take].
  - intros url Hin. apply HU. apply elem_of_take in Hin as (j&Hj&_).
    by eapply list_elem_of_lookup_2.
Qed.


Lemma offline_same_sheets (s s' : State float W) : offline s s' -> same sheets s s'.
Proof. unfold offline, same. tauto. Qed.

Lemma same_sheets_writes P (s s' : State float W) : same sheets s s' -> writes P s s'.
Proof. unfold same. intros E. exists []. by rewrite app_nil_r. Qed.

Lemma ensure_directory_fetched d :
  follows (same fetched_urls) (ensure_directory d : M _).
Proof. intros s. unfold ensure_directory. by case_bool_decide. Qed.

Lemma ensure_directory_sheets d : follows (same sheets) (ensure_directory d : M _).
Proof. intros s. unfold ensure_directory. by case_bool_decide. Qed.

Lemma write_to_sheet_fetched rows filename :
  follows (same fetched_urls) (write_to_sheet rows filename : M _).
Proof. intros s. unfold write_to_sheet. by case_match. Qed.

Lemma write_to_sheet_writes (P : list (dict float) -> Prop) rows filename :
  P rows -> follows (writes P) (write_to_sheet rows filename : M _).
Proof.
  intros HP s. unfold write_to_sheet. case_match.
  - exists [(filename, rows)]. split; [done|]. by constructor.
  - exists []. simpl. by rewrite app_nil_r.
Qed.

#[local] Hint Resolve ensure_directory_fetched write_to_sheet_fetched : effects.
#[local] Hint Extern 6 (follows (same fetched_urls) _) =>
  eapply follows_weaken; [apply offline_fetched|] : effects.
#[local] Hint Extern 6 (follows (same sheets) _) =>
  eapply follows_weaken; [apply offline_same_sheets|] : effects.
#[local] Hint Extern 7 (follows (writes _) _) =>
  eapply follows_weaken; [apply same_sheets_writes|] : effects.
#[local] Hint Resolve ensure_directory_sheets scrape_product_same_sheets : effects.

Lemma omap_Some_id {A} (l : list A) : omap Some l = l.
Proof. induction l as [|x l IH]; csimpl; [done|by rewrite IH]. Qed.

(** What the pool makes of the URLs of a catalogue. *)
Lemma executor_map_scrape self sel urls (s : State float W) :
  exists rs s2,
    executor_map max_workers (fun url => scrape_product self url true) sel urls s
    = (Return rs, s2)
    /\ sheets s2 = sheets s
    /\ exists l, fetched_urls s2 = (fetched_urls s ++ l)%list /\ l ≡ₚ urls.
Proof.
  unfold executor_map.
  pose proof (pool_run_follows (same sheets) max_workers
                (fun url => scrape_product self url true) sel 0
                (length urls) urls s
                (fun url => scrape_product_same_sheets self url true)) as HS.
  destruct (pool_run_fetched Some max_workers
                (fun url => scrape_product self url true) sel 0
                (length urls) urls s
                (fun url s => scrape_product_fetched_urls self url true s)
                ltac:(unfold max_workers; lia) (le_n _)) as (fl&Efl&Pfl).
  destruct (pool_run _ _ _ _ _ _ s) as [rs s2]. simpl in *.
  exists rs, s2. split; [done|]. split; [exact HS|].
  exists fl. split; [done|]. by rewrite Pfl, omap_Some_id.
Qed.



Lemma for_results_unlisted EANs rs u0 n0 u n :
  for_results (unlisted_loop_body (float:=float) EANs) rs (u0, n0) = Return (u, n) ->
  Forall (not_listed EANs) u0 ->
  Forall (not_listed EANs) u
  /\ n = n0 + length (List.filter failed rs)
  /\ length u = length u0 + length (List.filter (reported EANs) rs).
Proof.
  revert u0 n0.
  induction rs as [|[[product err]|e] rs IH]; intros u0 n0 H Hu0; simpl in H.
  - simplify_eq. simpl. split; [done|]. lia.
  - simpl. unfold lookup_key in H. destruct (truthy err) eqn:Et; simpl in *.
    { apply IH in H as (?&?&?); [|done]. split; [done|]. lia. }
    destruct (product !! "EAN") as [ean|] eqn:Ee; [|done].
    case_bool_decide as Hin; simpl in *.
    { apply IH in H as (?&?&?); [|done]. split; [done|]. lia. }
    destruct (product !! "product_name") as [name|]; [|done].
    destruct (product !! "quantity") as [quantity|]; [|done].
    apply IH in H as (?&?&Hl).
    + split; [done|]. rewrite length_app in Hl. simpl in *. lia.
    + apply Forall_app. split; [done|]. constructor; [|done].
      exists ean. split; [|done]. by rewrite lookup_insert_eq.
  - done.
Qed.

Lemma follows_bind_outcome {A B} (R : relation (State float W)) (o : outcome A)
    (k : A -> M B) :
  (forall e, o = Raise e -> Reflexive R) ->
  (forall a, o = Return a -> follows R (k a)) ->
  follows R (bind (lift_outcome o) k).
Proof.
  intros Hr Hk s. unfold bind, lift_outcome. destruct o as [a|e]; simpl.
  - by apply Hk.
  - by apply (Hr e).
Qed.

Lemma check_catalog_writes self sel EANs URLs i catalog n :
  follows (writes (Forall (not_listed EANs)))
          (check_catalog self sel EANs URLs i catalog n : M _).
Proof.
  unfold check_catalog.
  apply follows_bind; [apply _| |intros urls].
  { eapply follows_weaken; [apply offline_writes|apply catalog_candidates_offline]. }
  apply follows_bind; [apply _| |intros results].
  { apply executor_map_follows; [apply _|]. intros url.
    eapply follows_weaken; [apply same_sheets_writes|].
    apply scrape_product_same_sheets. }
  apply follows_bind_outcome; [intros; apply _|].
  intros [unlisted n'] Hfr.
  apply for_results_unlisted in Hfr as (HF&_&_); [|done].
  pose proof (write_to_sheet_writes (Forall (not_listed EANs)) unlisted
                (catalog_sheet self catalog) HF).
  unfold catalog_sheet in *.
  repeat follows_step.
Qed.

Lemma check_catalogs_writes self sel EANs URLs i catalogs n :
  follows (writes (Forall (not_listed EANs)))
          (check_catalogs self sel EANs URLs i catalogs n : M _).
Proof.
  revert i n. induction catalogs as [|catalog rest IH]; intros i n; simpl.
  - apply follows_ret, _.
  - apply follows_bind; [apply _|apply check_catalog_writes|intros n'; apply IH].
Qed.

Lemma column_spec k rows (s : State float W) :
  snd (column k rows s) = s
  /\ forall vs, fst (column k rows s) = Return vs ->
                Forall2 (fun (row : dict float) v => row !! k = Some v) rows vs.
Proof.
  induction rows as [|row rows [IHs IHv]]; simpl.
  - split; [done|]. intros vs [= <-]. constructor.
  - unfold bind, getitem. destruct (row !! k) as [v|] eqn:Ev; simpl; [|done].
    destruct (column k rows s) as [[vs|e] s1]; simpl in *; subst; [|done].
    split; [done|]. intros ? [= <-]. constructor; [done|]. by apply IHv.
Qed.

Lemma unlisted_setup_spec self products catalogs (s : State float W) :
  offline s (snd (unlisted_setup self products catalogs s))
  /\ forall EANs URLs cs,
       fst (unlisted_setup self products catalogs s) = Return (EANs, URLs, cs) ->
       Forall2 (fun (row : dict float) v => row !! "EAN" = Some v) products EANs
       /\ cs = if test_env self then take 3 catalogs else catalogs.
Proof.
  unfold unlisted_setup. rewrite !bind_print.
  set (s1 := emit _ (emit _ s)). assert (offline s s1) as H1 by done. clearbody s1.
  destruct (column_spec "EAN" products s1) as [Es Ev].
  destruct (column "EAN" products s1) as [[EANs|e] s2] eqn:E1; simpl in Es; subst s2.
  2: { rewrite !(bind_Raise _ _ _ _ _ E1). by split. }
  rewrite !(bind_Return _ _ _ _ _ E1).
  destruct (column_spec "url" products s1) as [Es' _].
  destruct (column "url" products s1) as [[URLs|e] s2] eqn:E2; simpl in Es'; subst s2.
  2: { rewrite !(bind_Raise _ _ _ _ _ E2). by split. }
  rewrite !(bind_Return _ _ _ _ _ E2).
  destruct (test_env self); cbn; (split; [by destruct H1 as (?&?&?)|]);
    intros ? ? ? [= <- <- <-]; (split; [by apply Ev|done]).
Qed.

Lemma not_listed_absent products EANs (row : dict float) :
  Forall2 (fun (p : dict float) v => p !! "EAN" = Some v) products EANs ->
  not_listed EANs row -> absent_from products row.
Proof.
  intros HF (ean&He&Hn). exists ean. split; [done|].
  intros product Hin Hp. apply Hn.
  apply list_elem_of_lookup in Hin as [j Hj].
  destruct (Forall2_lookup_l _ _ _ _ _ HF Hj) as (v&Hv&Hpv).
  rewrite Hp in Hpv. simplify_eq. by eapply list_elem_of_lookup_2.
Qed.

(** C2: whatever the inventory and the catalogues, every row of every
    table that [check_unlisted_products] writes has an EAN that no
    row of the inventory has.  The test on the EAN is made on each
    product scraped, after the URLs of the inventory were filtered
    out, so a known product reached through an unknown URL is not
    reported. *)
Theorem unlisted_rows_not_in_inventory self sel products catalogs
    (s : State float W) :
  exists new,
    sheets (snd (check_unlisted_products self sel products catalogs s))
    = (sheets s ++ new)%list
    /\ Forall (fun sheet => Forall (absent_from products) sheet.2) new.
Proof.
  unfold check_unlisted_products.
  destruct (unlisted_setup_spec self products catalogs s) as [(_&Hs&_) Hv].
  unfold bind at 1.
  destruct (unlisted_setup self products catalogs s) as [[[[EANs URLs] cs]|e] s0];
    simpl in Hs; [|exists []; by rewrite app_nil_r].
  destruct (Hv EANs URLs cs eq_refl) as [HF _].
  assert (follows (writes (Forall (not_listed EANs)))
            (err_count <- check_catalogs self sel EANs URLs 0 cs 0 ;;
             print ("Error count: " ++ PyStr.of_nat err_count) : M _)) as Hw.
  { pose proof (check_catalogs_writes self sel EANs URLs 0 cs 0).
    repeat follows_step. }
  destruct (Hw s0) as (new&E&HN). exists new. rewrite E, Hs. split; [done|].
  eapply Forall_impl; [exact HN|]. intros [f rows] Hrows. simpl in *.
  eapply Forall_impl; [exact Hrows|]. intros row. by apply not_listed_absent.
Qed.


(** C4, as the code has it: the duplicates are dropped by the caller
    of [product_urls_by_catalogue], not by the traversal.  In a round
    of [check_catalog] the pages fetched are fetched once each, and
    none of them is a URL of the inventory. *)
Theorem catalog_urls_fetched_once self sel EANs URLs i catalog n
    (s : State float W) :
  exists fetched,
    fetched_urls (snd (check_catalog self sel EANs URLs i catalog n s))
    = (fetched_urls s ++ fetched)%list
    /\ NoDup fetched
    /\ forall url, url ∈ fetched -> url ∉ URLs.
Proof.
  unfold check_catalog.
  destruct (catalog_candidates_offline self URLs i catalog s) as (Ef&_&_).
  destruct (catalog_candidates self URLs i catalog s) as [[urls|e] s0] eqn:Ec;
    simpl in Ef.
  2: { rewrite (bind_Raise _ _ _ _ _ Ec). exists []. simpl.
       rewrite app_nil_r. split; [done|]. split; [constructor|].
       intros url Hin. by apply elem_of_nil in Hin. }
  rewrite (bind_Return _ _ _ _ _ Ec).
  destruct (catalog_candidates_result _ _ _ _ _ _ _ Ec) as [HN HU].
  destruct (executor_map_scrape self sel urls s0) as (rs&s2&Em&_&l&El&Pl).
  rewrite (bind_Return _ _ _ _ _ Em).
  lazymatch goal with
  | |- context [fetched_urls (snd (?c s2))] =>
      assert (follows (same fetched_urls) c) as Ht
  end.
  { repeat follows_step. }
  rewrite (Ht s2). exists l. rewrite El, Ef. split; [done|]. split.
  - by rewrite Pl.
  - intros url Hin. apply HU. by rewrite <- Pl.
Qed.

(** *** A failed traversal *)



(** *** Failed assertions do not leave the loop *)
















(** *** Counting the failures *)





End Properties.

(** ** Further properties *)

Section Coverage.

Context {float W WebElement : Type}.
Context `{!Utility float} `{!SeleniumWrap float W WebElement} `{!PySet float}.

#[local] Abbreviation M := (Run (State float W)).

#[local] Existing Instance same_preorder.
#[local] Existing Instance quiet_preorder.
#[local] Existing Instance writes_preorder.
#[local] Existing Instance offline_preorder.
#[local] Existing Instance with_urls_preorder.

Create HintDb steps discriminated.

#[local] Hint Resolve find_element_quiet find_element_by_visible_text_quiet
  find_elements_quiet get_attribute_quiet click_quiet element_send_keys_quiet
  wait_random_time_quiet current_url_quiet get_page_quiet
  print_end_offline print_offline article_links_quiet : steps.
#[local] Hint Extern 1 (follows _ (ret _)) => apply follows_ret; apply _ : steps.
#[local] Hint Extern 1 (follows _ (raise _)) => apply follows_raise; apply _ : steps.
#[local] Hint Extern 1 (follows _ exit) => apply follows_raise; apply _ : steps.
#[local] Hint Extern 1 (follows _ (assert_some _ _)) =>
  apply follows_assert_some; apply _ : steps.
#[local] Hint Extern 1 (follows _ (assert_true _ _)) =>
  apply follows_assert_true; apply _ : steps.
#[local] Hint Extern 1 (follows _ (getitem _ _)) =>
  apply follows_getitem; apply _ : steps.
#[local] Hint Extern 1 (follows _ (lift_outcome _)) =>
  apply follows_lift_outcome; apply _ : steps.
#[local] Hint Extern 1 (follows (with_urls _) (lift _)) =>
  apply follows_lift : steps.
#[local] Hint Extern 1 (follows (with_urls _) (extend_product_urls _)) =>
  apply follows_extend_product_urls; apply _ : steps.

#[local] Hint Resolve ensure_directory_fetched write_to_sheet_fetched
  ensure_directory_sheets scrape_product_same_sheets : steps.
#[local] Hint Extern 5 (follows offline _) =>
  eapply follows_weaken; [apply quiet_offline|] : steps.
#[local] Hint Extern 6 (follows (same fetched_urls) _) =>
  eapply follows_weaken; [apply offline_fetched|] : steps.
#[local] Hint Extern 6 (follows (same sheets) _) =>
  eapply follows_weaken; [apply offline_same_sheets|] : steps.

(** One step through a computation, as before. *)
Ltac effect_step :=
  lazymatch goal with
  | |- follows _ (bind _ _) => apply follows_bind; [apply _| |intros ?]
  | |- follows _ (try_except_AssertionError _ _) =>
      apply follows_try; [apply _| |intros ?]
  | |- follows _ (match ?x with _ => _ end) => destruct x
  | |- follows _ _ => solve [eauto with steps]
  end.

(** *** [handle_login] *)

Lemma handle_login_outcomes self (s : State float W) :
  match handle_login self s with
  | (Return ok, s') =>
      ok = true <-> is_Some (se_query is_logged_in_selector None (browser s'))
  | (Raise e, s') =>
      e = AssertionError "Login form not found"
      /\ stdout s' = stdout s /\ typed_keys s' = typed_keys s
      /\ se_query "#login-username" None (browser s') = None
  end.
Proof.
  unfold handle_login, bind, find_element, find_element_by_visible_text,
    get_attribute, element_send_keys, wait_random_time, assert_some, print,
    print_end, ret, raise, typed_keys.
  simpl.
  repeat (case_match; simplify_eq; simpl in * ); rewrite ?omap_app; simpl;
    rewrite ?app_nil_r; try done; try (split; [done|intros [? ?]; congruence]);
    try (split; [intros _; eauto|done]).
Qed.

(** X1: what a login ends in.  When [handle_login] returns, it returns
    true exactly when the logged-in badge is on the page it leaves.
    When it raises, the exception is the failed assertion [Login form
    not found], raised before anything is typed or printed.  Either
    way no page is fetched, no table written and no directory made. *)
Theorem login_result_is_the_badge self (s : State float W) r s' :
  handle_login self s = (r, s') ->
  match r with
  | Return ok =>
      ok = true <-> is_Some (se_query is_logged_in_selector None (browser s'))
  | Raise e =>
      e = AssertionError "Login form not found"
      /\ stdout s' = stdout s /\ typed_keys s' = typed_keys s
  end
  /\ fetched_urls s' = fetched_urls s /\ sheets s' = sheets s /\ dirs s' = dirs s.
Proof.
  intros H.
  pose proof (handle_login_outcomes self s) as Ho.
  pose proof (handle_login_offline self s) as Hf.
  rewrite H in Ho, Hf. simpl in Hf. split; [|exact Hf].
  destruct r as [ok|e]; [done|tauto].
Qed.

Lemma handle_login_raises self (s : State float W) e :
  fst (handle_login self s) = Raise e -> e = AssertionError "Login form not found".
Proof.
  pose proof (handle_login_outcomes self s) as H.
  destruct (handle_login self s) as [[ok|e'] s']; simpl; [done|].
  intros [= ->]. tauto.
Qed.

(** X2: with no badge on the page and the login form found,
    [handle_login] types the user name and then the password, unless
    the user-name field already holds the user name: then it types
    nothing.  In both cases it clicks [Login], waits, looks for the
    badge once more and prints the line that tells the result.  The
    calls are exactly these, in this order. *)
Theorem credentials_typed_unless_prefilled self (s : State float W) user :
  se_query is_logged_in_selector None (browser s) = None ->
  se_query "#login-username" None (login_form_opened (browser s)) = Some user ->
  let prefilled :=
    bool_decide (se_attribute user "value" (login_form_opened (browser s))
                 = Some (username self)) in
  exists ok s',
    handle_login self s = (Return ok, s')
    /\ calls s'
       = (calls s
            ++ [FindElement is_logged_in_selector false;
                FindElement ".loginBox__iconWrapper" true;
                FindElement "#login-username" false;
                GetAttribute "value"]
            ++ (if prefilled then []
                else [ElementSendKeys (username self) "#login-username";
                      ElementSendKeys (password self) "#login-password"])
            ++ [FindElementByVisibleText "button" "Login" true;
                WaitRandomTime 5 6;
                FindElement is_logged_in_selector false])%list
    /\ stdout s'
       = (stdout s ++ [((if ok then "Login successful." else "Login failed.")
                        ++ PyStr.nl)%string])%list.
Proof.
  intros Hb Hu prefilled. subst prefilled.
  unfold login_form_opened in *.
  unfold handle_login, bind, find_element, find_element_by_visible_text,
    get_attribute, element_send_keys, wait_random_time, assert_some, print,
    print_end, ret, raise.
  simpl. rewrite Hb. simpl.
  destruct (se_query ".loginBox__iconWrapper" None (browser s)) as [icon|];
    simpl; rewrite Hu; simpl;
    case_bool_decide; (destruct (decide _); [|try done]); try done; simpl;
    repeat (case_match; simplify_eq; simpl in * );
    eexists _, _; (split; [reflexivity|]); simpl;
    rewrite <- ?app_assoc; simpl; done.
Qed.

(** *** [scrape_product] *)

Lemma scrape_product_eq self url add_cookies (s : State float W) :
  scrape_product self url add_cookies s =
  match get_page_by_requests url add_cookies s with
  | (Return (Some soup), s1) =>
      if has_banner soup then
        match handle_login self s1 with
        | (Return true, s2) => (Return (extract_product url soup), s2)
        | (Return false, s2) =>
            (Raise SystemExit, emit ("Cannot Login." ++ PyStr.nl) s2)
        | (Raise (AssertionError msg), s2) => (Return (∅, msg), s2)
        | (Raise e, s2) => (Raise e, s2)
        end
      else (Return (extract_product url soup), s1)
  | (Return None, s1) => (Return (∅, "Product page not found"), s1)
  | (Raise e, s1) => (Raise e, s1)
  end.
Proof.
  destruct (get_page_by_requests_returns url add_cookies s) as (soup&s1&Hf&_).
  rewrite Hf. destruct soup as [soup|].
  - destruct (has_banner soup) eqn:Hb.
    + pose proof (session_timeout_check_banner self soup s1 Hb) as Hc.
      destruct (handle_login self s1) as [[[]|e] s2] eqn:Hl.
      * by eapply scrape_product_checked.
      * unfold scrape_product, try_except_AssertionError, scrape_product_body, bind.
        rewrite Hf. simpl. by rewrite Hc.
      * unfold scrape_product, try_except_AssertionError, scrape_product_body, bind.
        rewrite Hf. simpl. rewrite Hc. by destruct e.
    + eapply scrape_product_checked; [exact Hf|].
      by apply session_timeout_check_no_banner.
  - unfold scrape_product, try_except_AssertionError, scrape_product_body, bind.
    rewrite Hf. done.
Qed.

Lemma extract_product_shape url soup :
  well_formed_scrape url (Return (extract_product url soup)).
Proof.
  unfold well_formed_scrape, extract_product, scrape_errors.
  repeat case_match; simplify_eq;
    first [ right; split; [done|]; split; [|done]; repeat constructor
          | left; split; [done|]; eexists _, _, _, _; split; [reflexivity|]; auto ].
Qed.

Lemma scrape_product_shape self url add_cookies (s : State float W) :
  well_formed_scrape url (fst (scrape_product self url add_cookies s)).
Proof.
  rewrite scrape_product_eq.
  destruct (get_page_by_requests_returns url add_cookies s) as (soup&s1&->&_).
  destruct soup as [soup|]; simpl.
  2: { right. split; [done|]. split; [|done]. unfold scrape_errors. repeat constructor. }
  destruct (has_banner soup); [|apply extract_product_shape].
  pose proof (handle_login_raises self s1) as Hr.
  destruct (handle_login self s1) as [[[]|e] s2]; simpl in *.
  - apply extract_product_shape.
  - done.
  - rewrite (Hr e eq_refl). simpl. right. split; [done|]. split; [|done].
    unfold scrape_errors. repeat constructor.
Qed.

(** X3: what a scrape ends in.  [scrape_product] returns a complete
    record (EAN, name, price, quantity 5 or 0, the URL it was given)
    with an empty error, or an empty record with one of five
    messages, none of them empty, or it ends the run with [exit()];
    no other exception leaves it.  Whatever the outcome, the URL has
    been fetched exactly once and no table or directory is touched. *)
Theorem scrape_product_outcomes self url add_cookies (s : State float W) :
  well_formed_scrape url (fst (scrape_product self url add_cookies s))
  /\ fetched_urls (snd (scrape_product self url add_cookies s))
     = (fetched_urls s ++ [url])%list
  /\ sheets (snd (scrape_product self url add_cookies s)) = sheets s
  /\ dirs (snd (scrape_product self url add_cookies s)) = dirs s.
Proof.
  split; [apply scrape_product_shape|].
  split; [apply scrape_product_fetched_urls|].
  destruct (scrape_product_offline_after_fetch self url add_cookies s) as (_&E1&E2).
  destruct (get_page_by_requests_returns url add_cookies s) as (?&?&Eg&_&_&E3&E4).
  rewrite Eg in E1, E2. simpl in *. split; congruence.
Qed.

Lemma scrape_product_no_banner self url add_cookies (s : State float W) osoup w :
  se_fetch url add_cookies (browser s) = (osoup, w) ->
  from_option has_banner false osoup = false ->
  scrape_product self url add_cookies s
  = (Return (match osoup with
             | Some soup => extract_product url soup
             | None => (∅, "Product page not found")
             end),
     mkState w (calls s ++ [GetPageByRequests url add_cookies])
             (stdout s) (sheets s) (dirs s)).
Proof.
  intros Hf Hb. rewrite scrape_product_eq.
  unfold get_page_by_requests. cbn. rewrite Hf.
  destruct osoup as [soup|]; simpl in *; [|done]. by rewrite Hb.
Qed.


(** X5: when the session has run out and the login that follows
    cannot find the login form, the failed assertion of
    [handle_login] is caught by the handler of [scrape_product].  The
    scrape returns the failure [Login form not found] and the run
    goes on, in update mode with the bad-product row of the inventory
    row; only a login that returns false ends the run. *)
Theorem login_form_missing_is_scrape_failure self url (s : State float W)
    soup s1 e s2 :
  get_page_by_requests url true s = (Return (Some soup), s1) ->
  has_banner soup = true ->
  handle_login self s1 = (Raise e, s2) ->
  scrape_product self url true s = (Return (∅, "Login form not found"), s2)
  /\ forall product ean,
       product !! "url" = Some url -> product !! "EAN" = Some ean ->
       update_product self product s
       = (Return (bad_product_row ean "Login form not found" url,
                  Some "Login form not found"), s2).
Proof.
  intros Hf Hb Hl.
  assert (scrape_product self url true s = (Return (∅, "Login form not found"), s2))
    as Hs.
  { rewrite scrape_product_eq, Hf, Hb, Hl.
    pose proof (handle_login_raises self s1 e) as He. rewrite Hl in He.
    by rewrite (He eq_refl). }
  split; [done|]. intros product ean Hu He.
  by eapply update_product_failed.
Qed.

(** *** [update_product] *)

Lemma update_product_shape self product (s : State float W) :
  match fst (update_product self product s) with
  | Return (row, None) =>
      exists ean price quantity,
        product !! "EAN" = Some ean
        /\ row = updated_product_row ean (VFloat price) (VInt quantity)
        /\ (quantity = 0%Z \/ quantity = 5%Z)
  | Return (row, Some err) =>
      exists ean url,
        product !! "EAN" = Some ean /\ product !! "url" = Some url
        /\ row = bad_product_row ean err url
        /\ err ∈ scrape_errors /\ truthy err = true
  | Raise e =>
      e = SystemExit
      \/ (e = KeyError "url" /\ product !! "url" = None)
      \/ (e = KeyError "EAN" /\ product !! "EAN" = None)
  end.
Proof.
  unfold update_product, bind, getitem, ret, raise.
  destruct (product !! "url") as [url|] eqn:Hu; simpl; [|by auto].
  pose proof (scrape_product_shape self url true s) as Hw.
  destruct (scrape_product self url true s) as [[[new_product err]|x] s1];
    simpl in *; [|by left].
  destruct Hw as [(->&ean'&name&price&q&->&Hq)|(->&Hin&Ht)].
  - simpl. destruct (product !! "EAN") as [ean|] eqn:He; simpl; [|by auto].
    rewrite lookup_insert_ne by done. rewrite lookup_insert_ne by done.
    rewrite lookup_insert_eq. simpl.
    do 3 (rewrite lookup_insert_ne by done). rewrite lookup_insert_eq. simpl.
    by exists ean, price, q.
  - rewrite Ht. destruct (product !! "EAN") as [ean|] eqn:He; simpl; [|by auto].
    by exists ean, url.
Qed.

(** X6: what [update_product] ends in.  A row without an error is an
    updated row: the EAN of the inventory row, a price and the
    quantity 5 or 0.  A row with an error is the bad-product row of
    the inventory row, with one of the messages of [scrape_product].
    The only exceptions are [exit()] and the [KeyError] for a missing
    [url] or [EAN] of the inventory row, never one for [price] or
    [quantity].  The page of the row has been fetched once, if the
    row has a URL, and no table is written. *)
Theorem update_product_outcomes self product (s : State float W) r s' :
  update_product self product s = (r, s') ->
  match r with
  | Return (row, None) => is_updated_row row /\ row !! "EAN" = product !! "EAN"
  | Return (row, Some err) =>
      exists ean url,
        product !! "EAN" = Some ean /\ product !! "url" = Some url
        /\ row = bad_product_row ean err url /\ err ∈ scrape_errors
  | Raise e => e = SystemExit \/ e = KeyError "url" \/ e = KeyError "EAN"
  end
  /\ fetched_urls s' = (fetched_urls s ++ option_list (row_url product))%list
  /\ sheets s' = sheets s.
Proof.
  intros H.
  pose proof (update_product_shape self product s) as Hs.
  pose proof (update_product_fetched self product s) as Hf.
  pose proof (update_product_same_sheets self product s) as Hh.
  rewrite H in Hs, Hf, Hh. simpl in *. split; [|by split].
  destruct r as [[row [err|]]|e].
  - destruct Hs as (ean&url&?&?&?&?&_). by exists ean, url.
  - destruct Hs as (ean&price&q&He&->&Hq). split; [by exists ean, price, q|].
    unfold updated_product_row. by rewrite lookup_insert_eq.
  - tauto.
Qed.

(** X7: an inventory row without [url] makes [update_product] raise
    [KeyError] before anything is fetched, the state being left as it
    was; a row with a URL and without [EAN] makes it raise only after
    the page of the row was fetched. *)
Theorem update_product_missing_keys self product (s : State float W) :
  (product !! "url" = None ->
   update_product self product s = (Raise (KeyError "url"), s))
  /\ (forall url r s1,
        product !! "url" = Some url -> product !! "EAN" = None ->
        scrape_product self url true s = (Return r, s1) ->
        update_product self product s = (Raise (KeyError "EAN"), s1)
        /\ fetched_urls s1 = (fetched_urls s ++ [url])%list).
Proof.
  split.
  - intros Hu. unfold update_product, bind, getitem. by rewrite Hu.
  - intros url [new_product err] s1 Hu He Hs.
    pose proof (scrape_product_fetched_urls self url true s) as Hf.
    rewrite Hs in Hf. split; [|exact Hf].
    unfold update_product, bind, getitem. rewrite Hu. simpl. rewrite Hs, He.
    by destruct (truthy err).
Qed.

(** *** [update_products] *)







(** *** [product_urls_by_catalogue] *)

Lemma raises_only_bind {St A B} (P : exn -> Prop) (c : Run St A) (k : A -> Run St B) :
  raises_only P c -> (forall a, raises_only P (k a)) -> raises_only P (bind c k).
Proof.
  intros Hc Hk s e. unfold bind. specialize (Hc s).
  destruct (c s) as [[a|e'] s1]; simpl in *; [apply Hk|].
  intros [= ->]. by apply Hc.
Qed.

Lemma raises_only_returns {St A} (P : exn -> Prop) (c : Run St A) :
  returns c -> raises_only P c.
Proof. intros H s e He. destruct (H s) as [a Ha]. congruence. Qed.

Lemma returns_lift {A} (c : M A) : returns c -> returns (lift c).
Proof.
  intros H [urls s]. destruct (H s) as [a Ha]. exists a. unfold lift. simpl.
  by destruct (c s) as [r s1].
Qed.

Lemma raises_only_lift {A} (P : exn -> Prop) (c : M A) :
  raises_only P c -> raises_only P (lift c).
Proof.
  intros H [urls s] e. unfold lift. specialize (H s e). simpl.
  by destruct (c s) as [r s1].
Qed.

Lemma raises_only_assert_some {St A} (P : exn -> Prop) (x : option A) msg :
  P (AssertionError msg) -> raises_only P (assert_some x msg : Run St A).
Proof. intros HP s e. destruct x; simpl; [done|]. by intros [= <-]. Qed.

Lemma raises_only_assert_true {St} (P : exn -> Prop) b msg :
  P (AssertionError msg) -> raises_only P (assert_true b msg : Run St unit).
Proof. intros HP s e. destruct b; simpl; [done|]. by intros [= <-]. Qed.

Lemma raises_only_for_range {St} (P : exn -> Prop) n (body : Run St unit) :
  raises_only P body -> raises_only P (for_range n body).
Proof.
  intros Hb. induction n as [|n IH]; simpl; [by intros s e|].
  by apply raises_only_bind.
Qed.

Lemma find_element_returns selector click parent :
  returns (find_element selector click parent : M _).
Proof. intros s. unfold find_element. case_match; eauto. Qed.

Lemma find_elements_returns selector parent :
  returns (find_elements selector parent : M _).
Proof. intros s. eexists. reflexivity. Qed.

Lemma get_page_returns url : returns (get_page url : M _).
Proof. intros s. unfold get_page. case_match. eauto. Qed.

Lemma article_links_raises (articles : list WebElement) :
  raises_only (fun e => e = AttributeError) (article_links articles : M _).
Proof.
  induction articles as [|a l IH]; simpl; [by intros s e|].
  apply raises_only_bind; [apply raises_only_returns, find_element_returns|].
  intros [x|]; [|by intros s e [= <-]].
  apply raises_only_bind; [by intros s e|intros href].
  apply raises_only_bind; [exact IH|by intros hrefs s e].
Qed.

Lemma collect_page_raises url :
  raises_only (traversal_exn url) (collect_page (WebElement:=WebElement)).
Proof.
  assert (traversal_exn url (AssertionError "Pagination not found")) as HP.
  { right. right. eexists. split; [done|]. unfold traversal_messages.
    repeat constructor. }
  unfold collect_page.
  apply raises_only_bind;
    [apply raises_only_lift, raises_only_returns, find_elements_returns|intros articles].
  apply raises_only_bind; [|intros hrefs].
  { apply raises_only_lift. intros s e He. left.
    by eapply article_links_raises. }
  apply raises_only_bind; [by intros s e|intros _].
  apply raises_only_bind;
    [apply raises_only_lift, raises_only_returns, find_element_returns|intros ul].
  apply raises_only_bind; [by apply raises_only_assert_some|intros ul'].
  apply raises_only_bind;
    [apply raises_only_lift, raises_only_returns, find_elements_returns|intros lis].
  apply raises_only_bind; [|intros _; by intros [urls s] e].
  destruct (last lis); [by intros [urls s] e|].
  intros s e [= <-]. right. by left.
Qed.

Lemma product_urls_body_raises url :
  raises_only (traversal_exn url) (product_urls_body (WebElement:=WebElement) url).
Proof.
  assert (forall msg, msg ∈ traversal_messages url ->
                      traversal_exn url (AssertionError msg)) as HP.
  { intros msg Hin. right. right. by exists msg. }
  unfold product_urls_body.
  apply raises_only_bind;
    [apply raises_only_lift, raises_only_returns, get_page_returns|intros soup].
  apply raises_only_bind; [|intros _].
  { apply raises_only_assert_some, HP. unfold traversal_messages. repeat constructor. }
  apply raises_only_bind;
    [apply raises_only_lift, raises_only_returns, find_element_returns|intros txt].
  apply raises_only_bind; [|intros _].
  { apply raises_only_assert_some, HP. unfold traversal_messages. repeat constructor. }
  apply raises_only_bind;
    [apply raises_only_lift, raises_only_returns, find_element_returns|intros _].
  apply raises_only_bind;
    [apply raises_only_lift, raises_only_returns, find_element_returns|intros _].
  apply raises_only_bind; [by intros [urls s] e|intros _].
  apply raises_only_bind; [by intros [urls s] e|intros here].
  apply raises_only_bind; [|intros _].
  { apply raises_only_assert_true, HP. unfold traversal_messages. repeat constructor. }
  apply raises_only_bind;
    [apply raises_only_lift, raises_only_returns, find_element_returns|intros ul].
  apply raises_only_bind; [|intros ul'].
  { apply raises_only_assert_some, HP. unfold traversal_messages. repeat constructor. }
  apply raises_only_bind;
    [apply raises_only_lift, raises_only_returns, find_elements_returns|intros lis].
  apply raises_only_for_range, collect_page_raises.
Qed.

Lemma collect_page_quiet :
  follows (with_urls (@quiet float W)) (collect_page (WebElement:=WebElement)).
Proof. unfold collect_page. repeat effect_step. Qed.

Lemma product_urls_body_quiet catalog_url :
  follows (with_urls (@quiet float W))
          (product_urls_body (WebElement:=WebElement) catalog_url).
Proof.
  unfold product_urls_body. pose proof collect_page_quiet.
  repeat first [apply follows_for_range; [apply _|done] | effect_step].
Qed.

(** X10: what a traversal ends in.  [product_urls_by_catalogue] does
    no lightweight fetch, writes no table and makes no directory.  It
    prints nothing, or, when an assertion failed, the message of that
    assertion, and then it returns.  The only exceptions that leave it
    are [AttributeError], from a product card without a link, and
    [IndexError], from a pagination control without entries. *)
Theorem product_urls_by_catalogue_outcomes catalog_url (s : State float W) :
  let r := product_urls_by_catalogue (WebElement:=WebElement) catalog_url s in
  fetched_urls r.2 = fetched_urls s /\ sheets r.2 = sheets s /\ dirs r.2 = dirs s
  /\ (stdout r.2 = stdout s
      \/ exists msg urls,
           msg ∈ traversal_messages catalog_url
           /\ r.1 = Return urls
           /\ stdout r.2 = (stdout s ++ [(msg ++ PyStr.nl)%string])%list)
  /\ (forall e, r.1 = Raise e -> e = AttributeError \/ e = IndexError).
Proof.
  unfold product_urls_by_catalogue.
  pose proof (product_urls_body_quiet catalog_url ([], s)) as Hq.
  pose proof (product_urls_body_raises catalog_url ([], s)) as Hr.
  destruct (product_urls_body catalog_url ([], s)) as [[[]|e] [urls s1]];
    unfold with_urls in Hq; simpl in *; destruct Hq as (Hf&Ho&Hs&Hd).
  - repeat split; auto. done.
  - destruct (Hr e eq_refl) as [->|[->|(msg&->&Hin)]]; simpl.
    + repeat split; auto. intros e [= <-]. by left.
    + repeat split; auto. intros e [= <-]. by right.
    + unfold fetched_urls in *. cbn. repeat split; auto; [|done].
      right. exists msg, urls. by rewrite Ho.
Qed.

(** *** [check_unlisted_products] *)

Lemma product_urls_by_catalogue_raised url (s : State float W) e urls s1 :
  product_urls_body (WebElement:=WebElement) url ([], s) = (Raise e, (urls, s1)) ->
  ~ is_assertion e ->
  product_urls_by_catalogue (WebElement:=WebElement) url s = (Raise e, s1).
Proof.
  unfold product_urls_by_catalogue. intros -> Hn.
  destruct e; simpl in *; tauto.
Qed.

(** X11: an exception of the traversal that is not a failed
    assertion is not caught.  It ends the loop over the catalogues at
    this catalogue, before the line of the catalogue is printed,
    before any product page is fetched and any table written, and the
    catalogues that follow are not visited. *)
Theorem traversal_error_ends_the_run self sel EANs URLs i catalog rest n
    (s : State float W) url e urls s1 :
  catalog !! "url" = Some url ->
  product_urls_body (WebElement:=WebElement) url ([], s) = (Raise e, (urls, s1)) ->
  ~ is_assertion e ->
  (e = AttributeError \/ e = IndexError)
  /\ check_catalogs self sel EANs URLs i (catalog :: rest) n s = (Raise e, s1)
  /\ stdout s1 = stdout s /\ sheets s1 = sheets s
  /\ fetched_urls s1 = fetched_urls s.
Proof.
  intros Hu Hb Hn.
  pose proof (product_urls_body_quiet url ([], s)) as Hq.
  pose proof (product_urls_body_raises url ([], s) e) as Hr.
  rewrite Hb in Hq, Hr. unfold with_urls in Hq. simpl in *.
  destruct Hq as (Hf&Ho&Hs&_). split.
  { destruct (Hr eq_refl) as [->|[->|(msg&->&_)]]; auto. by destruct Hn. }
  split; [|done].
  unfold check_catalog, catalog_candidates.
  rewrite (bind_Raise _ _ _ e s1); [done|].
  rewrite (bind_Raise _ _ _ e s1); [done|].
  rewrite (bind_Return _ _ _ url s) by (unfold getitem; by rewrite Hu).
  rewrite (bind_Raise _ _ _ e s1); [done|].
  by eapply product_urls_by_catalogue_raised.
Qed.

Lemma catalog_candidates_test_bound self URLs i catalog (s : State float W) urls s0 :
  test_env self = true ->
  catalog_candidates self URLs i catalog s = (Return urls, s0) ->
  length urls <= 10.
Proof.
  unfold catalog_candidates. intros Ht H.
  apply bind_Return_inv in H as (catalog_url&s1&_&H).
  apply bind_Return_inv in H as (collected&s2&_&H).
  apply bind_Return_inv in H as (name&s3&_&H).
  rewrite bind_print_end in H. injection H as <- _.
  rewrite Ht, length_take. lia.
Qed.

Lemma check_catalog_fetched self sel EANs URLs i catalog n (s : State float W) :
  exists l,
    fetched_urls (snd (check_catalog self sel EANs URLs i catalog n s))
    = (fetched_urls s ++ l)%list
    /\ (test_env self = true -> length l <= 10).
Proof.
  unfold check_catalog.
  destruct (catalog_candidates_offline self URLs i catalog s) as (Ef&_&_).
  destruct (catalog_candidates self URLs i catalog s) as [[urls|e] s0] eqn:Ec;
    simpl in Ef.
  2: { rewrite (bind_Raise _ _ _ _ _ Ec). exists []. simpl.
       rewrite app_nil_r. split; [done|]. simpl. lia. }
  rewrite (bind_Return _ _ _ _ _ Ec).
  destruct (executor_map_scrape self sel urls s0) as (rs&s2&Em&_&l&El&Pl).
  rewrite (bind_Return _ _ _ _ _ Em).
  lazymatch goal with
  | |- context [fetched_urls (snd (?c s2))] =>
      assert (follows (same fetched_urls) c) as Ht
  end.
  { repeat effect_step. }
  rewrite (Ht s2). exists l. rewrite El, Ef. split; [done|].
  intros Htest. rewrite Pl. by eapply catalog_candidates_test_bound.
Qed.

Lemma check_catalogs_fetched self sel EANs URLs i catalogs n (s : State float W) :
  exists l,
    fetched_urls (snd (check_catalogs self sel EANs URLs i catalogs n s))
    = (fetched_urls s ++ l)%list
    /\ (test_env self = true -> length l <= 10 * length catalogs).
Proof.
  revert i n s. induction catalogs as [|catalog rest IH]; intros i n s; simpl.
  { exists []. rewrite app_nil_r. split; [done|]. simpl. lia. }
  destruct (check_catalog_fetched self (sel i) EANs URLs i catalog n s) as (l1&E1&B1).
  unfold bind.
  destruct (check_catalog self (sel i) EANs URLs i catalog n s) as [[n1|e] s1];
    simpl in E1.
  - destruct (IH (S i) n1 s1) as (l2&E2&B2). exists (l1 ++ l2)%list.
    rewrite E2, E1, <- app_assoc. split; [done|].
    intros Ht. rewrite length_app. specialize (B1 Ht). specialize (B2 Ht). lia.
  - exists l1. split; [done|]. intros Ht. specialize (B1 Ht). lia.
Qed.

(** X12: in test mode [check_unlisted_products] runs as it runs on
    the first three catalogues, and it fetches at most ten product
    pages for each of them, so at most ten times the smaller of three
    and the number of catalogues in all. *)
Theorem append_test_mode_bounds self sel products catalogs (s : State float W) :
  test_env self = true ->
  check_unlisted_products self sel products catalogs s
  = check_unlisted_products self sel products (take 3 catalogs) s
  /\ exists l,
       fetched_urls (snd (check_unlisted_products self sel products catalogs s))
       = (fetched_urls s ++ l)%list
       /\ length l <= 10 * Nat.min 3 (length catalogs).
Proof.
  intros Ht. split.
  { unfold check_unlisted_products, unlisted_setup. rewrite Ht.
    by rewrite take_take, Nat.min_id. }
  unfold check_unlisted_products.
  destruct (unlisted_setup_spec self products catalogs s) as [(Hf&_&_) Hv].
  unfold bind at 1.
  destruct (unlisted_setup self products catalogs s) as [[[[EANs URLs] cs]|e] s0];
    simpl in Hf.
  2: { exists []. simpl. rewrite app_nil_r. split; [done|]. simpl. lia. }
  destruct (Hv EANs URLs cs eq_refl) as [_ ->]. rewrite Ht.
  destruct (check_catalogs_fetched self sel EANs URLs 0 (take 3 catalogs) 0 s0)
    as (l&El&Bl).
  exists l. rewrite length_take in Bl. split; [|by apply Bl].
  unfold bind.
  destruct (check_catalogs self sel EANs URLs 0 (take 3 catalogs) 0 s0)
    as [[n1|e] s1]; simpl in *; by rewrite <- Hf.
Qed.

Lemma column_missing k rows (s : State float W) :
  Exists (fun row : dict float => row !! k = None) rows ->
  column k rows s = (Raise (KeyError k), s).
Proof.
  induction rows as [|row rows IH]; intros H; [by apply Exists_nil in H|].
  simpl. unfold bind, getitem.
  destruct (row !! k) as [v|] eqn:Ev; simpl; [|done].
  apply Exists_cons in H as [H|H]; [congruence|]. by rewrite (IH H).
Qed.

Lemma column_present k rows (s : State float W) :
  Forall (fun row : dict float => is_Some (row !! k)) rows ->
  exists vs, column k rows s = (Return vs, s).
Proof.
  induction 1 as [|row rows [v Hv] _ [vs IH]]; simpl; [by eexists|].
  unfold bind, getitem. rewrite Hv. simpl. rewrite IH. by eexists.
Qed.

(** X13: an inventory in which a row lacks [EAN], or in which every
    row has [EAN] and one lacks [url], makes [check_unlisted_products]
    raise the [KeyError] for that key before any catalogue is
    visited: the browser has not been used and nothing was written. *)
Theorem inventory_columns_required self sel products catalogs (s : State float W) :
  let r := check_unlisted_products self sel products catalogs s in
  (Exists (fun row : dict float => row !! "EAN" = None) products ->
   r.1 = Raise (KeyError "EAN"))
  /\ (Forall (fun row : dict float => is_Some (row !! "EAN")) products ->
      Exists (fun row : dict float => row !! "url" = None) products ->
      r.1 = Raise (KeyError "url"))
  /\ (Exists (fun row : dict float => row !! "EAN" = None \/ row !! "url" = None)
             products ->
      browser r.2 = browser s /\ calls r.2 = calls s /\ sheets r.2 = sheets s
      /\ dirs r.2 = dirs s).
Proof.
  assert (forall k, Exists (fun row : dict float => row !! k = None) products ->
            (k = "EAN" \/ Forall (fun row : dict float => is_Some (row !! "EAN")) products
                          /\ k = "url") ->
            exists s2, check_unlisted_products self sel products catalogs s
                       = (Raise (KeyError k), s2)
                       /\ browser s2 = browser s /\ calls s2 = calls s
                       /\ sheets s2 = sheets s /\ dirs s2 = dirs s) as Hk.
  { intros k Hm Hc.
    cut (exists s2, unlisted_setup self products catalogs s = (Raise (KeyError k), s2)
                    /\ browser s2 = browser s /\ calls s2 = calls s
                    /\ sheets s2 = sheets s /\ dirs s2 = dirs s).
    { intros (s2&E&?). exists s2. split; [|done].
      unfold check_unlisted_products. by rewrite (bind_Raise _ _ _ _ _ E). }
    unfold unlisted_setup.
    rewrite !bind_print.
    destruct Hc as [->|[Hall ->]].
    - eexists. split; [|shelve].
      erewrite bind_Raise; [reflexivity|]. by apply column_missing.
      Unshelve. done.
    - lazymatch goal with
      | |- context [bind (column "EAN" products) _ ?st] =>
          destruct (column_present "EAN" products st Hall) as [vs Hvs]
      end.
      rewrite (bind_Return _ _ _ _ _ Hvs).
      eexists. split; [|shelve].
      erewrite bind_Raise; [reflexivity|]. by apply column_missing.
      Unshelve. done. }
  intros r. subst r. split; [|split].
  - intros Hm. destruct (Hk "EAN" Hm) as (s2&->&_); auto.
  - intros Hall Hm. destruct (Hk "url" Hm) as (s2&->&_); auto.
  - intros Hm.
    destruct (decide (Forall (fun row : dict float => is_Some (row !! "EAN")) products))
      as [Hall|Hno].
    + assert (Exists (fun row : dict float => row !! "url" = None) products) as Hu.
      { apply Exists_exists in Hm as (row&Hin&[He|Hu]).
        - rewrite Forall_forall in Hall. destruct (Hall row Hin) as [? ?]. congruence.
        - apply Exists_exists. eauto. }
      destruct (Hk "url" Hu) as (s2&->&?); auto.
    + apply not_Forall_Exists in Hno; [|apply _].
      assert (Exists (fun row : dict float => row !! "EAN" = None) products) as He.
      { eapply Exists_impl; [exact Hno|]. intros row Hn. simpl in Hn.
        destruct (row !! "EAN"); [|done]. by destruct Hn. }
      destruct (Hk "EAN" He) as (s2&->&?); auto.
Qed.






Lemma append_cons c (x y : string) : (String c x ++ y)%string = String c (x ++ y).
Proof. reflexivity. Qed.


Lemma length_append (x y : string) :
  String.length (x ++ y) = String.length x + String.length y.
Proof.
  induction x as [|c x IH]; [done|]. rewrite append_cons. simpl. by rewrite IH.
Qed.

Lemma substring_append_skip (x y : string) n m :
  String.substring (String.length x + n) m (x ++ y) = String.substring n m y.
Proof. induction x as [|c x IH]; [done|]. rewrite append_cons. simpl. exact IH. Qed.

Lemma endswith_append (x y suf : string) :
  String.length suf <= String.length y ->
  PyStr.endswith (x ++ y) suf = PyStr.endswith y suf.
Proof.
  intros Hl. unfold PyStr.endswith. rewrite length_append.
  replace (String.length x + String.length y - String.length suf)
    with (String.length x + (String.length y - String.length suf)) by lia.
  rewrite substring_append_skip.
  rewrite (leb_correct _ _ Hl).
  by rewrite leb_correct by lia.
Qed.




Lemma filter_complement_length {A} (P : A -> Prop) `{!forall x, Decision (P x)}
    (l : list A) :
  length (filter P l) + length (filter (fun x => ~ P x) l) = length l.
Proof.
  induction l as [|x l IH]; [done|]. rewrite !filter_cons.
  destruct (decide (P x)), (decide (~ P x)); simpl; try lia; tauto.
Qed.

(** X16: the line printed for a catalogue.  None of the URLs to
    collect is a URL of the inventory, and their number is the one
    the line gives: the items found less those in the inventory, cut
    to ten in test mode. *)
Theorem catalogue_line_adds_up self URLs i catalog (s : State float W) urls s0 :
  catalog_candidates self URLs i catalog s = (Return urls, s0) ->
  exists name items known,
    catalog !! "name" = Some name
    /\ last (stdout s0)
       = Some ((PyStr.of_nat (i + 1) ++ ". Catalogue: " ++ str name
                ++ ", Items: " ++ PyStr.of_nat items
                ++ ", In Inventory: " ++ PyStr.of_nat known
                ++ ", To Collect: " ++ PyStr.of_nat (length urls)
                ++ ", ") ++ EmptyString)%string
    /\ known <= items
    /\ length urls = (if test_env self then Nat.min 10 (items - known)
                      else items - known)
    /\ Forall (fun url => url ∉ URLs) urls.
Proof.
  unfold catalog_candidates. intros H.
  apply bind_Return_inv in H as (catalog_url&s1&_&H).
  apply bind_Return_inv in H as (collected&s2&_&H).
  apply bind_Return_inv in H as (name&s3&Hn&H).
  rewrite bind_print_end in H. injection H as <- <-.
  unfold getitem in Hn. destruct (catalog !! "name") as [name'|] eqn:En; [|done].
  injection Hn as -> ->.
  pose proof (filter_complement_length (fun url => url ∈ URLs) (list_of_set collected))
    as Hl.
  exists name, (length (list_of_set collected)),
    (length (filter (fun url => url ∈ URLs) (list_of_set collected))).
  cbv beta in Hl.
  split; [done|]. split; [cbn; by rewrite last_snoc|]. split; [lia|]. split.
  - destruct (test_env self); rewrite ?length_take; lia.
  - assert (Forall (fun url => url ∉ URLs)
                   (filter (fun url => url ∉ URLs) (list_of_set collected))) as HF.
    { apply Forall_forall. intros url Hin.
      by apply list_elem_of_filter in Hin as [? _]. }
    destruct (test_env self); [|done]. by apply Forall_take.
Qed.

(** *** A session that lasts *)

Lemma scrape_product_steady I pages self url (s : State float W) :
  steady I pages -> I (browser s) ->
  exists s', scrape_product self url true s = (Return (scraped pages url), s')
             /\ I (browser s') /\ stdout s' = stdout s /\ sheets s' = sheets s
             /\ dirs s' = dirs s.
Proof.
  intros [Hf Hb] HI. destruct (Hf url (browser s) HI) as [Ep Hw].
  destruct (se_fetch url true (browser s)) as [osoup w] eqn:Ef. simpl in *.
  assert (from_option has_banner false osoup = false) as Hn.
  { destruct osoup as [soup|]; [|done]. simpl. apply (Hb url). by rewrite <- Ep. }
  eexists. split.
  - rewrite (scrape_product_no_banner self url true s osoup w Ef Hn).
    unfold scraped. by rewrite <- Ep.
  - done.
Qed.

Lemma update_product_steady I pages self product (s : State float W) :
  steady I pages -> I (browser s) ->
  fst (update_product self product s) = updated pages product
  /\ I (browser (snd (update_product self product s)))
  /\ stdout (snd (update_product self product s)) = stdout s
  /\ sheets (snd (update_product self product s)) = sheets s.
Proof.
  intros Hst HI. unfold update_product, updated, bind, getitem, ret, raise.
  destruct (product !! "url") as [url|]; [|done]. simpl.
  destruct (scrape_product_steady I pages self url s Hst HI) as (s'&->&?&?&?&?).
  destruct (scraped pages url) as [new_product err].
  destruct (truthy err); destruct (product !! "EAN"); simpl; try done.
  destruct (new_product !! "price"); simpl; [|done].
  by destruct (new_product !! "quantity").
Qed.

Lemma pool_run_steady {A B} (J : State float W -> Prop) (g : A -> outcome B)
    workers (f : A -> M B) sel step fuel pending (s : State float W) :
  (forall x s, J s -> fst (f x s) = g x /\ J (snd (f x s))) ->
  0 < workers -> length pending <= fuel -> J s ->
  fst (pool_run workers f sel step fuel pending s) = map g pending
  /\ J (snd (pool_run workers f sel step fuel pending s)).
Proof.
  intros Hf Hw. revert step pending s.
  induction fuel as [|fuel IH]; intros step pending s Hlen HJ.
  - destruct pending; [done|simpl in Hlen; lia].
  - simpl. destruct pending as [|x0 l] eqn:Ep.
    { by rewrite lookup_nil. }
    rewrite <- Ep in *.
    destruct (pool_pick_lookup workers pending (sel step) Hw) as [x Hx];
      [by subst|].
    rewrite Hx. destruct (Hf x s HJ) as [Ex HJ1].
    destruct (f x s) as [r s1]. simpl in Ex, HJ1.
    destruct (IH (S step) (delete (sel step mod Nat.min workers (length pending)) pending)
                 s1) as [Ers HJ2]; [|done|].
    { rewrite length_delete by eauto. subst pending. simpl in *. lia. }
    destruct (pool_run _ _ _ _ _ _ s1) as [rs s2]. simpl in *.
    split; [|done]. subst rs r.
    symmetry. rewrite <- (map_id (take _ _ ++ _)).
    apply (Forall2_map_eq g id).
    eapply Forall2_reinsert; [exact Hx|done|].
    apply Forall2_fmap_r, Forall_Forall2_diag, Forall_forall. done.
Qed.

Lemma update_products_eq self sel products uf bf (s : State float W) :
  is_sheet_file uf = true -> is_sheet_file bf = true ->
  let inventory := if test_env self then take 10 products else products in
  let s0 := if test_env self
            then emit ("Test mode: Only 10 products updating." ++ PyStr.nl) s else s in
  let s1 := emit (("Inventory size: " ++ PyStr.of_nat (length inventory) ++ " Products")
                  ++ PyStr.nl)
                 (emit ((PyStr.nl ++ "Product Availability and Price Update:")
                        ++ PyStr.nl) s0) in
  update_products self sel products uf bf s =
  match pool_run max_workers (update_product self) sel 0 (length inventory)
                 inventory s1 with
  | (rs, s2) =>
      match for_results update_loop_body rs ([], []) with
      | Return (updated, bad) =>
          let s4 := record_sheet bf bad (record_sheet uf updated s2) in
          match updated with
          | [] => (Raise (KeyError "quantity"), s4)
          | _ => (Return updated, emit (update_summary updated bad ++ PyStr.nl) s4)
          end
      | Raise e => (Raise e, s2)
      end
  end.
Proof.
  intros Hu Hb inventory s0 s1. unfold update_products.
  rewrite (bind_Return _ _ s inventory s0)
    by (subst inventory s0; by destruct (test_env self)).
  rewrite !bind_print. fold s1.
  unfold executor_map, bind at 1.
  destruct (pool_run _ _ _ _ _ _ s1) as [rs s2].
  destruct (for_results update_loop_body rs ([], [])) as [[updated bad]|e] eqn:Efr.
  - rewrite (bind_Return _ _ _ (updated, bad) s2) by done.
    rewrite (bind_Return _ _ _ tt _ (write_to_sheet_written _ _ _ Hu)).
    rewrite (bind_Return _ _ _ tt _ (write_to_sheet_written _ _ _ Hb)).
    by destruct updated.
  - by rewrite (bind_Raise _ _ _ e s2).
Qed.

(** X17: with a session that lasts (pages without the banner, and a
    fetch that keeps the browser in such a state), the result of an
    update run, the tables it writes and the text it prints do not
    depend on the choices of the scheduler. *)
Theorem update_independent_of_schedule I pages self sel1 sel2 products uf bf
    (s : State float W) :
  steady I pages -> I (browser s) ->
  is_sheet_file uf = true -> is_sheet_file bf = true ->
  let a := update_products self sel1 products uf bf s in
  let b := update_products self sel2 products uf bf s in
  a.1 = b.1 /\ sheets a.2 = sheets b.2 /\ stdout a.2 = stdout b.2.
Proof.
  intros Hst HI Hu Hb a b. subst a b.
  rewrite !update_products_eq by done.
  set (inventory := if test_env self then take 10 products else products).
  match goal with |- context [pool_run _ _ _ _ _ _ ?st] => set (s1 := st) end.
  assert (I (browser s1)) as HI1.
  { subst s1. cbn. by destruct (test_env self). }
  clearbody s1.
  set (J := fun st : State float W =>
              I (browser st) /\ stdout st = stdout s1 /\ sheets st = sheets s1).
  assert (J s1) as HJ by done.
  assert (forall x st, J st ->
            fst (update_product self x st) = updated pages x
            /\ J (snd (update_product self x st))) as Hf.
  { intros x st (HI'&Eo&Es).
    destruct (update_product_steady I pages self x st Hst HI') as (E&?&?&?).
    split; [done|]. subst J. cbv beta. split; [done|]. split; congruence. }
  destruct (pool_run_steady J (updated pages) max_workers (update_product self) sel1 0
              (length inventory) inventory s1 Hf ltac:(unfold max_workers; lia)
              (le_n _) HJ) as [E1 (_&Eo1&Es1)].
  destruct (pool_run_steady J (updated pages) max_workers (update_product self) sel2 0
              (length inventory) inventory s1 Hf ltac:(unfold max_workers; lia)
              (le_n _) HJ) as [E2 (_&Eo2&Es2)].
  destruct (pool_run _ _ sel1 _ _ _ _) as [rs1 sa].
  destruct (pool_run _ _ sel2 _ _ _ _) as [rs2 sb].
  simpl in *. subst rs1 rs2.
  destruct (for_results update_loop_body (map (updated pages) inventory) ([], []))
    as [[u bad]|e]; [|simpl; by rewrite Eo1, Eo2, Es1, Es2].
  destruct u; cbn; by rewrite Eo1, Eo2, Es1, Es2.
Qed.

End Coverage.

(** *** The entry points *)

Section EntryProperties.

Context {float W WebElement DataFrame : Type}.
Context `{!Utility float} `{!SeleniumWrap float W WebElement} `{!PySet float}.
Context `{!SeleniumSetup W} `{!Host float W DataFrame}.

#[local] Abbreviation M := (Run (State float W)).

Lemma required_env_spec name msg (s : State float W) :
  match os_getenv name with
  | Some v =>
      if truthy v then required_env name msg s = (Return v, s)
      else required_env name msg s = (Raise SystemExit, emit (msg ++ PyStr.nl) s)
  | None => required_env name msg s = (Raise SystemExit, emit (msg ++ PyStr.nl) s)
  end.
Proof.
  unfold required_env. destruct (os_getenv name) as [v|]; [|done].
  by destruct (truthy v).
Qed.

(** X18: unless [file_directory], [difox_user] and [difox_pass] are
    set and not empty, [main] of either entry point prints one
    message and ends with [exit()], the state being otherwise as it
    was: no file is read and no browser started.  And the command
    line of [main.py] without an argument, or with one that is
    neither [update] nor [append], prints one line and returns. *)
Theorem nothing_starts_unconfigured sel (s : State float W) :
  (configured = false ->
   forall mode,
     (exists msg, main sel mode s = (Raise SystemExit, emit (msg ++ PyStr.nl) s))
     /\ (exists msg,
           main_italia (sel 0) s = (Raise SystemExit, emit (msg ++ PyStr.nl) s)))
  /\ (forall argv,
        (forall mode, argv !! 1 = Some mode -> mode <> "update" /\ mode <> "append") ->
        exists msg, main_py sel argv s = (Return tt, emit (msg ++ PyStr.nl) s)).
Proof.
  split.
  - unfold configured, env_set. intros Hc mode.
    pose proof (required_env_spec "file_directory"
                  "Please set your file_directory in the .env file." s) as Hd.
    unfold main, main_italia.
    destruct (os_getenv "file_directory") as [d|];
      [destruct (truthy d)|];
      try (split; eexists; by rewrite (bind_Raise _ _ _ _ _ Hd)).
    rewrite !(bind_Return _ _ _ _ _ Hd). simpl in Hc.
    destruct (os_getenv "difox_user") as [u|], (os_getenv "difox_pass") as [p|];
      try (split; eexists; reflexivity).
    apply andb_false_iff in Hc. unfold andb.
    destruct (truthy u); [destruct (truthy p)|]; try (split; eexists; reflexivity).
    by destruct Hc.
  - intros argv Hm. unfold main_py.
    destruct argv as [|a [|mode rest]]; try (eexists; reflexivity).
    destruct (Hm mode eq_refl) as [H1 H2].
    case_bool_decide as Hin; [|eexists; reflexivity].
    apply elem_of_cons in Hin as [->|Hin]; [done|].
    apply list_elem_of_singleton in Hin. done.
Qed.

Lemma read_sheet_returns filename dtype (s : State float W) :
  exists df s1, read_sheet filename dtype s = (Return df, s1)
                /\ browser s1 = browser s /\ calls s1 = calls s
                /\ sheets s1 = sheets s /\ dirs s1 = dirs s.
Proof.
  unfold read_sheet.
  destruct (PyStr.endswith filename ".csv");
    [|destruct (PyStr.endswith filename ".xlsx")];
    repeat case_match; by eexists _, _.
Qed.

Lemma Difox_init_raises username password file_directory test_env headless profile :
  raises_only (fun e => e = AssertionError "Failed to setup chrome")
              (Difox_init username password file_directory test_env headless profile
               : M _).
Proof.
  unfold Difox_init, accept_all_cookies.
  apply raises_only_bind; [|intros driver].
  { apply raises_only_returns. intros s. unfold setup_driver. case_match. eauto. }
  apply raises_only_bind; [by apply raises_only_assert_true|intros _].
  apply raises_only_bind; [apply raises_only_returns, get_page_returns|intros _].
  apply raises_only_bind; [by intros s e|intros _].
  apply raises_only_bind; [|intros _].
  { apply raises_only_bind; [|by intros ? s e].
    apply raises_only_returns. intros s. unfold find_element_by_visible_text.
    case_match; eauto. }
  apply raises_only_bind; [by intros s e|intros _]. by intros s e.
Qed.

Lemma session_finally (body : M unit) start (s : State float W) :
  let r := try_finally (try_except_Exception body print_exc)
                       (print_execution_time start) s in
  (r.1 = Return tt \/ r.1 = Raise SystemExit)
  /\ (exists line, last (stdout r.2) = Some line /\ execution_time_line line)
  /\ (r.1 = Raise SystemExit <-> fst (body s) = Raise SystemExit).
Proof.
  unfold try_finally, try_except_Exception, print_execution_time, print_exc.
  destruct (body s) as [[[]|e] s1]; [|destruct e]; cbn;
    (split; [auto|]);
    (split; [eexists; split; [apply last_snoc|by eexists]|]);
    split; congruence.
Qed.

(** X19: what [main] ends in.  When it returns, the last line printed
    is the execution time.  The exceptions that leave it are
    [exit()], the failed assertion of the constructor when the driver
    cannot be set up, and what [duplicated] raises on the inventory
    table.  No other exception raised while logging in, updating or
    appending leaves it, and an [exit()] of a configured run comes
    after the execution time was printed. *)
Theorem main_outcomes sel mode (s : State float W) :
  let r := main sel mode s in
  match r.1 with
  | Return _ => exists line, last (stdout r.2) = Some line /\ execution_time_line line
  | Raise e =>
      (e = SystemExit
       /\ (configured = true ->
           exists line, last (stdout r.2) = Some line /\ execution_time_line line))
      \/ e = AssertionError "Failed to setup chrome"
      \/ exists df, pd_duplicated_sum "EAN" df = Raise e
  end.
Proof.
  intros r. subst r. destruct (main sel mode s) as [r s'] eqn:Hm. simpl.
  unfold main in Hm. unfold configured, env_set.
  pose proof (required_env_spec "file_directory"
                "Please set your file_directory in the .env file." s) as Hd.
  destruct (os_getenv "file_directory") as [d|]; [destruct (truthy d)|];
    try (rewrite (bind_Raise _ _ _ _ _ Hd) in Hm; injection Hm as <- <-; by left).
  rewrite (bind_Return _ _ _ _ _ Hd) in Hm. clear Hd.
  set (cred := match os_getenv "difox_user", os_getenv "difox_pass" with
               | Some username, Some password => _
               | _, _ => _
               end) in Hm.
  assert ((exists u p, cred s = (Return (u, p), s))
          \/ exists s1, cred s = (Raise SystemExit, s1)
                        /\ true && match os_getenv "difox_user" with
                                   | Some v => truthy v
                                   | None => false
                                   end
                           && match os_getenv "difox_pass" with
                              | Some v => truthy v
                              | None => false
                              end = false) as [(u&p&Hc)|(s1&Hc&Hn)].
  { subst cred.
    destruct (os_getenv "difox_user") as [u|], (os_getenv "difox_pass") as [p|];
      try (right; eexists; split; [reflexivity|]; simpl; by rewrite ?andb_false_r).
    destruct (truthy u), (truthy p); simpl;
      first [left; by exists u, p|right; eexists; split; reflexivity]. }
  2: { rewrite (bind_Raise _ _ _ _ _ Hc) in Hm. injection Hm as <- <-. left.
       split; [done|]. intros Ht. congruence. }
  rewrite (bind_Return _ _ _ _ _ Hc) in Hm. clear Hc. clearbody cred.
  destruct (read_sheet_returns (d ++ "/difox.csv") ["EAN"] s) as (df&s1&Hr&_).
  rewrite (bind_Return _ _ _ _ _ Hr) in Hm. clear Hr.
  destruct (warn_duplicated df s1) as [[[]|e] s2] eqn:Hw.
  2: { rewrite (bind_Raise _ _ _ _ _ Hw) in Hm. injection Hm as <- <-.
       right. right. exists df. unfold warn_duplicated, bind, lift_outcome in Hw.
       destruct (pd_duplicated_sum "EAN" df) as [[|ln]|e']; by simplify_eq. }
  rewrite (bind_Return _ _ _ _ _ Hw) in Hm. clear Hw.
  destruct (read_sheet_returns (d ++ "/catalogs.csv") [] s2) as (cf&s3&Hr&_).
  rewrite (bind_Return _ _ _ _ _ Hr) in Hm. clear Hr.
  pose proof (Difox_init_raises u p d (bool_decide (os_getenv "env_type" = Some "test"))
                true (os_getenv "chrome_profile") s3) as Hi.
  destruct (Difox_init _ _ _ _ _ _ s3) as [[difox|e] s4] eqn:Hinit; simpl in Hi.
  2: { rewrite (bind_Raise _ _ _ _ _ Hinit) in Hm. injection Hm as <- <-.
       right. left. by apply Hi. }
  rewrite (bind_Return _ _ _ _ _ Hinit) in Hm. clear Hi Hinit.
  lazymatch type of Hm with
  | try_finally (try_except_Exception ?body _) _ s4 = _ =>
      pose proof (session_finally body (browser s) s4) as ([E|E]&Hl&_)
  end; rewrite Hm in E, Hl; simpl in E, Hl; subst r; [done|left; by split].
Qed.

(** X20: the constructor.  When the driver is set up, the object
    holds the four arguments and the calls are: the home page, a wait,
    the search for [Accept all cookies] with a click, a wait.  When
    the driver is not set up, the assertion [Failed to setup chrome]
    fails before any page is called.  Nothing is printed or
    written. *)
Theorem Difox_init_outcomes username password file_directory test_env headless profile
    (s : State float W) :
  let r := Difox_init username password file_directory test_env headless profile s in
  stdout r.2 = stdout s /\ sheets r.2 = sheets s /\ dirs r.2 = dirs s
  /\ match r.1 with
     | Return self =>
         self = mkDifox username password file_directory test_env
         /\ fst (se_setup_driver headless profile (browser s)) = true
         /\ calls r.2
            = (calls s ++ [GetPage (VStr "https://www.difox.com/en");
                           WaitRandomTime 2 3;
                           FindElementByVisibleText "span" "Accept all cookies" true;
                           WaitRandomTime 2 3])%list
     | Raise e =>
         e = AssertionError "Failed to setup chrome"
         /\ fst (se_setup_driver headless profile (browser s)) = false
         /\ calls r.2 = calls s
     end.
Proof.
  unfold Difox_init, accept_all_cookies, setup_driver, bind, assert_true, get_page,
    wait_random_time, find_element_by_visible_text, ret, raise.
  destruct (se_setup_driver headless profile (browser s)) as [[] w]; cbn; [|done].
  destruct (se_navigate _ w) as [soup w1]; cbn.
  destruct (se_query_text _ _ _) as [e|]; cbn; rewrite <- ?app_assoc; done.
Qed.

(** X21: the login at startup.  The result of [handle_login] is not
    looked at: after a login that returned false the mode runs as
    after one that returned true.  A login that cannot find its form
    ends the session at once: the failed assertion is caught by
    [except Exception], nothing having been fetched or written. *)
Theorem startup_login_is_not_checked difox sel mode products catalogs uf bf
    (s : State float W) :
  (forall ok s1,
      handle_login difox s = (Return ok, s1) ->
      main_session difox sel mode products catalogs uf bf s
      = (if String.eqb mode "update"
         then (update_products difox (sel 0) products uf bf ;;; ret tt) s1
         else if String.eqb mode "append"
              then check_unlisted_products difox sel products catalogs s1
              else (Return tt, s1)))
  /\ (forall e s1,
        handle_login difox s = (Raise e, s1) ->
        try_except_Exception (main_session difox sel mode products catalogs uf bf)
                             print_exc s
        = (Return tt, s1)
        /\ stdout s1 = stdout s /\ fetched_urls s1 = fetched_urls s
        /\ sheets s1 = sheets s).
Proof.
  split.
  - intros ok s1 Hl. unfold main_session. rewrite (bind_Return _ _ _ _ _ Hl).
    by destruct (String.eqb mode "update"), (String.eqb mode "append").
  - intros e s1 Hl.
    pose proof (handle_login_outcomes difox s) as Ho.
    pose proof (handle_login_offline difox s) as (Hf&Hs&_).
    rewrite Hl in Ho, Hf, Hs. destruct Ho as (->&Eo&_). simpl in *.
    split; [|done].
    unfold try_except_Exception, main_session.
    by rewrite (bind_Raise _ _ _ _ _ Hl).
Qed.


Lemma endswith_csv (d name : string) :
  PyStr.endswith name ".csv" = true -> 4 <= String.length name ->
  PyStr.endswith (d ++ name) ".csv" = true.
Proof. intros E Hl. by rewrite endswith_append. Qed.

Lemma read_sheet_table filename dtype df (s : State float W) :
  PyStr.endswith filename ".csv" = true ->
  pd_read_csv filename dtype = Table df ->
  read_sheet filename dtype s = (Return df, s).
Proof. intros E Hr. unfold read_sheet. by rewrite E, Hr. Qed.

Lemma update_products_renamed difox sel products uf bf uf' bf' (s : State float W) :
  is_sheet_file uf = true -> is_sheet_file bf = true ->
  is_sheet_file uf' = true -> is_sheet_file bf' = true ->
  alike (update_products difox sel products uf bf s)
        (update_products difox sel products uf' bf' s).
Proof.
  intros Hu Hb Hu' Hb'. rewrite !update_products_eq by done. cbv zeta.
  destruct (pool_run _ _ _ _ _ _ _) as [rs s2].
  destruct (for_results update_loop_body rs ([], [])) as [[updated bad]|e];
    [destruct updated|]; unfold alike; cbn; rewrite ?map_app; done.
Qed.

Lemma update_session_alike difox sel products uf bf uf' bf' (s : State float W) :
  is_sheet_file uf = true -> is_sheet_file bf = true ->
  is_sheet_file uf' = true -> is_sheet_file bf' = true ->
  alike ((handle_login difox ;;;
          update_products difox sel products uf bf ;;; ret tt) s)
        ((handle_login difox ;;;
          update_products difox sel products uf' bf' ;;; ret tt) s).
Proof.
  intros Hu Hb Hu' Hb'. unfold bind at 1 3.
  destruct (handle_login difox s) as [[ok|e] s1]; [|done].
  pose proof (update_products_renamed difox sel products uf bf uf' bf' s1
                Hu Hb Hu' Hb') as Ha.
  unfold bind.
  destruct (update_products difox sel products uf bf s1) as [[u|e] sa],
    (update_products difox sel products uf' bf' s1) as [[u'|e'] sb];
    unfold alike in *; simpl in *; destruct Ha as (?&?&?&?&?&?); by simplify_eq.
Qed.

Lemma session_alike (c c' : M unit) start (s : State float W) :
  alike (c s) (c' s) ->
  alike (try_finally (try_except_Exception c print_exc) (print_execution_time start) s)
        (try_finally (try_except_Exception c' print_exc) (print_execution_time start) s).
Proof.
  unfold alike, try_finally, try_except_Exception, print_execution_time, print_exc.
  destruct (c s) as [[[]|e] sa], (c' s) as [[[]|e'] sb]; simpl;
    intros (E1&E2&E3&E4&E5&E6); simplify_eq; try destruct e'; cbn;
    rewrite ?E2, ?E4; done.
Qed.

(** X23: [main_italia.py] is the update mode of [main.py] on the
    Italian files.  When the two inventory files hold the same table
    and the catalogue file can be read, the two runs end alike: the
    same outcome, the same calls, the same printed text, and tables
    with the same rows, which differ in their names only. *)
Theorem main_italia_is_update sel (s : State float W) d df cf :
  os_getenv "file_directory" = Some d ->
  pd_read_csv (d ++ "/difox-italia.csv") ["EAN"] = Table df ->
  pd_read_csv (d ++ "/difox.csv") ["EAN"] = Table df ->
  pd_read_csv (d ++ "/catalogs.csv") [] = Table cf ->
  alike (main_italia (sel 0) s) (main sel "update" s).
Proof.
  intros Hd Hit Hinv Hcat. unfold main_italia, main.
  pose proof (required_env_spec "file_directory"
                "Please set your file_directory in the .env file." s) as He.
  rewrite Hd in He. destruct (truthy d).
  2: { rewrite !(bind_Raise _ _ _ _ _ He). done. }
  rewrite !(bind_Return _ _ _ _ _ He). clear He.
  set (cred := match os_getenv "difox_user", os_getenv "difox_pass" with
               | Some username, Some password => _
               | _, _ => _
               end).
  assert ((exists u p, cred s = (Return (u, p), s))
          \/ exists s1, cred s = (Raise SystemExit, s1)) as [(u&p&Hc)|(s1&Hc)].
  { subst cred.
    destruct (os_getenv "difox_user") as [u|], (os_getenv "difox_pass") as [p|];
      try (right; eexists; reflexivity).
    destruct (truthy u && truthy p); [left; by exists u, p|right; eexists; reflexivity]. }
  2: { rewrite !(bind_Raise _ _ _ _ _ Hc). done. }
  rewrite !(bind_Return _ _ _ _ _ Hc). clear Hc. clearbody cred.
  rewrite (bind_Return _ _ _ df s)
    by (apply read_sheet_table; [apply endswith_csv; [reflexivity|simpl; lia]|done]).
  rewrite (bind_Return _ _ _ df s)
    by (apply read_sheet_table; [apply endswith_csv; [reflexivity|simpl; lia]|done]).
  destruct (warn_duplicated df s) as [[[]|e] s2] eqn:Hw.
  2: { rewrite !(bind_Raise _ _ _ _ _ Hw). done. }
  rewrite !(bind_Return _ _ _ _ _ Hw). clear Hw.
  rewrite (bind_Return _ _ _ cf s2)
    by (apply read_sheet_table; [apply endswith_csv; [reflexivity|simpl; lia]|done]).
  destruct (Difox_init u p d (bool_decide (os_getenv "env_type" = Some "test")) true
                       (os_getenv "chrome_profile") s2) as [[difox|e] s4] eqn:Hinit.
  2: { rewrite !(bind_Raise _ _ _ _ _ Hinit). done. }
  rewrite !(bind_Return _ _ _ _ _ Hinit). clear Hinit.
  unfold main_session. simpl String.eqb. cbv iota.
  apply session_alike, update_session_alike;
    unfold is_sheet_file; rewrite endswith_csv; first [done|simpl; lia].
Qed.

End EntryProperties.

(** ** Runs on the small site *)

Section Runs.

Import Stub.



(** A login that is refused ends the run. *)
Example refused_login_ends_the_run :
  fst (update_products difox fifo inventory3 "/data/difox-parse.csv"
         "/data/bad-products.csv"
         (start shop_refusing))
  = Raise SystemExit.
Proof. vm_compute. reflexivity. Qed.

(** C3, against the wording of the specification: the page of the lens has the
    title, the EAN label and the price but no availability marker,
    and extraction returns a record for it, with quantity 0 and no
    error. *)
Lemma availability_marker_not_required :
  exists product,
    fst (get_page_by_requests (VStr p2) true (start shop)) = Return (Some lens)
    /\ select_one lens ".is--available" = None
    /\ fst (scrape_product difox (VStr p2) true (start shop))
       = Return (product, EmptyString)
    /\ product !! "quantity" = Some (VInt 0)
    /\ product !! "EAN" = Some (VStr "4002").
Proof.
  exists (extract_product (VStr p2) lens).1.
  repeat split; vm_compute; reflexivity.
Qed.

Lemma required_fields_validated_witness :
  let s := start shop in
  let s1 := snd (get_page_by_requests (VStr p3) true s) in
  get_page_by_requests (VStr p3) true s = (Return (Some bag), s1)
  /\ session_timeout_check difox bag s1 = (Return tt, s1)
  /\ scrape_product difox (VStr p3) true s = (Return (∅, "Product EAN not found"), s1)
  /\ update_product difox (row "4003" p3) s
     = (Return (bad_product_row (VStr "4003") "Product EAN not found" (VStr p3),
                Some "Product EAN not found"), s1).
Proof.
  intros s s1.
  assert (get_page_by_requests (VStr p3) true s = (Return (Some bag), s1)) as Hf
    by (vm_compute; reflexivity).
  assert (session_timeout_check difox bag s1 = (Return tt, s1)) as Hc
    by (vm_compute; reflexivity).
  split; [exact Hf|]. split; [exact Hc|].
  pose proof (required_fields_validated difox (VStr p3) s bag s1 s1 Hf Hc) as H.
  cbv zeta in H. destruct H as (_&Hean&_&_&Hbad).
  split.
  - apply Hean; [eexists; vm_compute; reflexivity|vm_compute; reflexivity].
  - apply (Hbad (row "4003" p3) (VStr "4003") "Product EAN not found");
      [vm_compute; reflexivity|vm_compute; reflexivity|].
    right. left. split; [eexists; vm_compute; reflexivity|].
    split; [vm_compute; reflexivity|reflexivity].
Defined.

(** C4, against the wording of the specification: the first catalogue shows the
    camera on two cards, and the traversal returns its URL twice. *)
Lemma product_urls_by_catalogue_keeps_duplicates :
  fst (product_urls_by_catalogue (VStr "https://shop/cameras") (start shop))
  = Return [VStr p1; VStr p1; VStr p2]
  /\ ~ NoDup [VStr (float:=string) p1; VStr p1; VStr p2].
Proof.
  split; [vm_compute; reflexivity|].
  intros H. apply NoDup_cons in H as [H _]. apply H. left.
Qed.


(** A run over the broken catalogue and the one after it: the first
    contributes an empty table, the second is processed. *)
Example broken_catalogue_then_next :
  let s' := snd (check_unlisted_products difox (fun _ => fifo) inventory_old_url
                   [broken; new_items] (start shop)) in
  sheets s'
  = [("/data/category_of_interest/broken.csv", []);
     ("/data/category_of_interest/new.csv",
      [<["EAN" := VStr "4004"]>
       (<["product_name" := VStr "Tripod"]> (<["quantity" := VInt 5]> ∅))])]
  /\ fetched_urls s' = [VStr p2; VStr p4; VStr p3].
Proof. split; vm_compute; reflexivity. Qed.


Lemma executor_map_in_input_order_witness :
  0 < max_workers
  /\ exists rs s',
       executor_map max_workers (update_product difox) lifo inventory3 (start shop)
       = (Return rs, s')
       /\ length rs = length inventory3
       /\ forall i x, inventory3 !! i = Some x ->
                      exists s0, rs !! i = Some (fst (update_product difox x s0)).
Proof.
  assert (0 < max_workers) as Hw by (unfold max_workers; lia).
  split; [exact Hw|].
  exact (proj1 executor_map_in_input_order _ _ max_workers (update_product difox) lifo
           inventory3 (start shop) Hw).
Defined.

(** The scheduler lets the last row go first; the outcomes are those
    of the rows in the order of the inventory all the same. *)
Example last_first_schedule_keeps_order :
  let r := executor_map max_workers (update_product difox) lifo inventory3 (start shop) in
  fetched_urls (snd r) = [VStr p3; VStr p1; VStr p2]
  /\ fst r
     = Return
         [Return (updated_product_row (VStr "9999") (VFloat "1.234,56") (VInt 5), None);
          Return (updated_product_row (VStr "4002") (VFloat "99,00") (VInt 0), None);
          Return (bad_product_row (VStr "4003") "Product EAN not found" (VStr p3),
                  Some "Product EAN not found")].
Proof. split; vm_compute; reflexivity. Qed.

Lemma update_product_keeps_inventory_EAN_witness :
  let r := update_product difox (row "9999" p1) (start shop) in
  r = (Return (updated_product_row (VStr "9999") (VFloat "1.234,56") (VInt 5), None),
       snd r)
  /\ (extract_product (VStr p1) camera).1 !! "EAN" = Some (VStr "4001")
  /\ updated_product_row (VStr "9999") (VFloat "1.234,56") (VInt 5) !! "EAN"
     = row "9999" p1 !! "EAN".
Proof.
  intros r.
  assert (r = (Return (updated_product_row (VStr "9999") (VFloat "1.234,56") (VInt 5),
                       None), snd r)) as E by (vm_compute; reflexivity).
  split; [exact E|]. split; [vm_compute; reflexivity|].
  exact (proj1 (proj2 (update_product_keeps_inventory_EAN difox (row "9999" p1)
                         (start shop) _ _ _ E))).
Defined.


(** The twelve-row inventory in test mode: ten rows are processed,
    seven updated and three bad, and the rows 11 and 12 are in no
    table. *)
Example twelve_rows_in_test_mode :
  let s' := snd (update_products difox_test lifo inventory12 "/data/difox-parse.csv"
                   "/data/bad-products.csv" (start shop)) in
  map (fun sheet => (sheet.1, EAN_column sheet.2)) (sheets s')
  = [("/data/difox-parse.csv",
      map (fun e => Some (VStr e)) ["01"; "02"; "04"; "05"; "07"; "08"; "10"]);
     ("/data/bad-products.csv", map (fun e => Some (VStr e)) ["03"; "06"; "09"])]
  /\ last (stdout s')
     = Some ("Updated: 7, In stock: 4, Out of stock: 3, Bad Product: 3" ++ PyStr.nl).
Proof. split; vm_compute; reflexivity. Qed.

Lemma login_is_idempotent_witness :
  let s := start shop_expired in
  let s1 := snd (handle_login difox s) in
  handle_login difox s = (Return true, s1)
  /\ handle_login difox s1 = (Return true, already_logged_in s1)
  /\ browser (already_logged_in s1) = browser s1
  /\ calls (already_logged_in s1)
     = (calls s1 ++ [FindElement is_logged_in_selector false])%list.
Proof.
  intros s s1.
  assert (handle_login difox s = (Return true, s1)) as H1 by (vm_compute; reflexivity).
  split; [exact H1|].
  split; [exact (proj2 (login_is_idempotent difox s) s1 H1)|].
  split; reflexivity.
Defined.

(** The unlisted products of the new items: the lens is in the
    inventory under an old URL, so its page is scraped, and it is
    left out on its EAN. *)
Example known_EAN_behind_new_URL :
  let s' := snd (check_unlisted_products difox (fun _ => fifo) inventory_old_url
                   [new_items] (start shop)) in
  VStr p2 ∈ fetched_urls s'
  /\ fst (scrape_product difox (VStr p2) true (start shop))
     = Return (extract_product (VStr p2) lens)
  /\ (extract_product (VStr p2) lens).1 !! "EAN" = Some (VStr "4002")
  /\ map (fun sheet => EAN_column sheet.2) (sheets s') = [[Some (VStr "4004")]].
Proof.
  split; [vm_compute; left|]. repeat split; vm_compute; reflexivity.
Qed.

End Runs.

(** ** More runs on the small site *)

Import Stub Sites.

Lemma login_result_is_the_badge_witness :
  let s := start shop_refusing in
  let s' := snd (handle_login difox s) in
  handle_login difox s = (Return false, s')
  /\ (false = true <-> is_Some (se_query is_logged_in_selector None (browser s')))
  /\ fetched_urls s' = fetched_urls s.
Proof.
  intros s s'.
  assert (handle_login difox s = (Return false, s')) as H by (vm_compute; reflexivity).
  split; [exact H|].
  pose proof (login_result_is_the_badge difox s (Return false) s' H) as (Ha&Hf&_).
  split; [exact Ha|exact Hf].
Defined.

Lemma credentials_typed_unless_prefilled_witness :
  let s := start shop_expired in
  let p := start shop_prefilled in
  (se_query is_logged_in_selector None (browser s) = None
   /\ se_query "#login-username" None (login_form_opened (browser s)) = Some UserField
   /\ exists ok s',
        handle_login difox s = (Return ok, s')
        /\ typed_keys s' = [("user", "#login-username"); ("secret", "#login-password")])
  /\ (exists ok p',
        handle_login difox p = (Return ok, p') /\ typed_keys p' = []).
Proof.
  intros s p.
  assert (se_query is_logged_in_selector None (browser s) = None) as H1
    by (vm_compute; reflexivity).
  assert (se_query "#login-username" None (login_form_opened (browser s))
          = Some UserField) as H2 by (vm_compute; reflexivity).
  assert (se_query is_logged_in_selector None (browser p) = None) as H3
    by (vm_compute; reflexivity).
  assert (se_query "#login-username" None (login_form_opened (browser p))
          = Some UserField) as H4 by (vm_compute; reflexivity).
  split.
  - split; [exact H1|]. split; [exact H2|].
    pose proof (credentials_typed_unless_prefilled difox s UserField H1 H2) as H.
    cbv zeta in H. destruct H as (ok&s'&E&Ec&_).
    exists ok, s'. split; [exact E|].
    unfold typed_keys. rewrite Ec. vm_compute. reflexivity.
  - pose proof (credentials_typed_unless_prefilled difox p UserField H3 H4) as H.
    cbv zeta in H. destruct H as (ok&p'&E&Ec&_).
    exists ok, p'. split; [exact E|].
    unfold typed_keys. rewrite Ec. vm_compute. reflexivity.
Defined.


Lemma login_form_missing_is_scrape_failure_witness :
  let s := start shop_formless in
  let s1 := snd (get_page_by_requests (VStr p1) true s) in
  let s2 := snd (handle_login difox s1) in
  get_page_by_requests (VStr p1) true s = (Return (Some expired_page), s1)
  /\ has_banner expired_page = true
  /\ handle_login difox s1 = (Raise (AssertionError "Login form not found"), s2)
  /\ scrape_product difox (VStr p1) true s = (Return (∅, "Login form not found"), s2)
  /\ update_product difox (row "9999" p1) s
     = (Return (bad_product_row (VStr "9999") "Login form not found" (VStr p1),
                Some "Login form not found"), s2).
Proof.
  intros s s1 s2.
  assert (get_page_by_requests (VStr p1) true s = (Return (Some expired_page), s1))
    as H1 by (vm_compute; reflexivity).
  assert (has_banner expired_page = true) as H2 by (vm_compute; reflexivity).
  assert (handle_login difox s1 = (Raise (AssertionError "Login form not found"), s2))
    as H3 by (vm_compute; reflexivity).
  split; [exact H1|]. split; [exact H2|]. split; [exact H3|].
  pose proof (login_form_missing_is_scrape_failure difox (VStr p1) s expired_page s1
                _ s2 H1 H2 H3) as [Hs Hu].
  split; [exact Hs|].
  apply (Hu (row "9999" p1) (VStr "9999")); vm_compute; reflexivity.
Defined.

Lemma update_product_outcomes_witness :
  let s := start shop in
  let r := update_product difox (row "4002" p2) s in
  let line := updated_product_row (VStr "4002") (VFloat "99,00") (VInt 0) in
  r = (Return (line, None), snd r)
  /\ is_updated_row line
  /\ fetched_urls (snd r) = [VStr p2]
  /\ sheets (snd r) = [].
Proof.
  intros s r line.
  assert (r = (Return (line, None), snd r)) as E by (vm_compute; reflexivity).
  split; [exact E|].
  pose proof (update_product_outcomes difox (row "4002" p2) s _ _ E) as ((Hr&_)&Hf&Hs).
  split; [exact Hr|]. split; [|exact Hs].
  rewrite Hf. vm_compute. reflexivity.
Defined.

Lemma update_product_missing_keys_witness :
  let s := start shop in
  row_without_url !! "url" = None
  /\ update_product difox row_without_url s = (Raise (KeyError "url"), s)
  /\ row_without_EAN !! "url" = Some (VStr p1)
  /\ row_without_EAN !! "EAN" = None
  /\ fst (update_product difox row_without_EAN s) = Raise (KeyError "EAN")
  /\ fetched_urls (snd (update_product difox row_without_EAN s)) = [VStr p1].
Proof.
  intros s.
  assert (row_without_url !! "url" = None) as H1 by (vm_compute; reflexivity).
  assert (row_without_EAN !! "url" = Some (VStr p1)) as H2 by (vm_compute; reflexivity).
  assert (row_without_EAN !! "EAN" = None) as H3 by (vm_compute; reflexivity).
  assert (scrape_product difox (VStr p1) true s
          = (Return (extract_product (VStr p1) camera),
             snd (scrape_product difox (VStr p1) true s))) as H4
    by (vm_compute; reflexivity).
  split; [exact H1|].
  split; [exact (proj1 (update_product_missing_keys difox row_without_url s) H1)|].
  split; [exact H2|]. split; [exact H3|].
  destruct (proj2 (update_product_missing_keys difox row_without_EAN s)
              (VStr p1) _ _ H2 H3 H4) as [E Ef].
  rewrite E. split; [reflexivity|exact Ef].
Defined.



Lemma traversal_error_ends_the_run_witness :
  let s := start shop_linkless in
  let url := VStr "https://shop/linkless" in
  let s1 := snd (snd (product_urls_body url ([], s))) in
  linkless !! "url" = Some url
  /\ product_urls_body url ([], s) = (Raise AttributeError, ([], s1))
  /\ check_catalogs difox (fun _ => fifo) [] [] 0 [linkless; cameras] 0 s
     = (Raise AttributeError, s1)
  /\ sheets s1 = [] /\ stdout s1 = [].
Proof.
  intros s url s1.
  assert (linkless !! "url" = Some url) as Hu by (vm_compute; reflexivity).
  assert (product_urls_body url ([], s) = (Raise AttributeError, ([], s1))) as Hb
    by (vm_compute; reflexivity).
  split; [exact Hu|]. split; [exact Hb|].
  pose proof (traversal_error_ends_the_run difox (fun _ => fifo) [] [] 0 linkless
                [cameras] 0 s url AttributeError [] s1 Hu Hb (fun H => H))
    as (_&Hc&Ho&Hs&_).
  split; [exact Hc|]. split; [exact Hs|exact Ho].
Defined.

Lemma append_test_mode_bounds_witness :
  let s := start shop in
  let catalogs := [cameras; broken; new_items; cameras] in
  test_env difox_test = true
  /\ check_unlisted_products difox_test (fun _ => fifo) inventory_old_url catalogs s
     = check_unlisted_products difox_test (fun _ => fifo) inventory_old_url
                               [cameras; broken; new_items] s
  /\ exists l,
       fetched_urls (snd (check_unlisted_products difox_test (fun _ => fifo)
                            inventory_old_url catalogs s))
       = (fetched_urls s ++ l)%list
       /\ length l <= 30.
Proof.
  intros s catalogs.
  assert (test_env difox_test = true) as Ht by reflexivity.
  split; [exact Ht|].
  exact (append_test_mode_bounds difox_test (fun _ => fifo) inventory_old_url catalogs
           s Ht).
Defined.

Lemma inventory_columns_required_witness :
  let r := check_unlisted_products difox (fun _ => fifo)
                                   [row "4001" p1; row_without_url] [cameras]
                                   (start shop) in
  Forall (fun row : dict string => is_Some (row !! "EAN")) [row "4001" p1; row_without_url]
  /\ Exists (fun row : dict string => row !! "url" = None) [row "4001" p1; row_without_url]
  /\ r.1 = Raise (KeyError "url")
  /\ calls r.2 = [] /\ sheets r.2 = [].
Proof.
  intros r.
  assert (Forall (fun row : dict string => is_Some (row !! "EAN"))
                 [row "4001" p1; row_without_url]) as H1.
  { repeat constructor; eexists; vm_compute; reflexivity. }
  assert (Exists (fun row : dict string => row !! "url" = None)
                 [row "4001" p1; row_without_url]) as H2.
  { right. left. vm_compute. reflexivity. }
  split; [exact H1|]. split; [exact H2|].
  pose proof (inventory_columns_required difox (fun _ => fifo)
                [row "4001" p1; row_without_url] [cameras] (start shop)) as H.
  cbv zeta in H. destruct H as (_&Hu&Hs).
  split; [exact (Hu H1 H2)|].
  assert (Exists (fun row : dict string => row !! "EAN" = None \/ row !! "url" = None)
                 [row "4001" p1; row_without_url]) as H3.
  { right. left. right. vm_compute. reflexivity. }
  destruct (Hs H3) as (_&Hc&Hsh&_). split; [exact Hc|exact Hsh].
Defined.



Lemma catalogue_line_adds_up_witness :
  let s := start shop in
  let r := catalog_candidates difox [VStr p1] 0 new_items s in
  r = (Return [VStr p2; VStr p4; VStr p3], snd r)
  /\ last (stdout (snd r))
     = Some "1. Catalogue: New, Items: 4, In Inventory: 1, To Collect: 3, "
  /\ Forall (fun url => url ∉ [VStr (float:=string) p1]) [VStr p2; VStr p4; VStr p3].
Proof.
  intros s r.
  assert (r = (Return [VStr p2; VStr p4; VStr p3], snd r)) as E
    by (vm_compute; reflexivity).
  split; [exact E|]. split; [vm_compute; reflexivity|].
  destruct (catalogue_line_adds_up difox [VStr p1] 0 new_items s _ _ E)
    as (_&_&_&_&_&_&_&H).
  exact H.
Defined.

Lemma shop_session_steady : steady shop_session shop_pages.
Proof.
  split.
  - intros url w [Ha Hp]. unfold shop_pages. cbn [se_fetch selenium]. unfold fetch.
    destruct url as [|u| |]; try (split; [reflexivity|by split]).
    rewrite Hp.
    destruct (assoc u (product_pages shop)) as [[page expired]|];
      cbn [fst snd]; rewrite ?Ha; (split; [reflexivity|by split]).
  - intros url soup. unfold shop_pages.
    destruct url as [|u| |]; try done. unfold shop. cbn [product_pages assoc].
    repeat (destruct (String.eqb _ u);
            [intros [= <-]; vm_compute; reflexivity|]).
    done.
Qed.

Lemma update_independent_of_schedule_witness :
  let uf := "/data/difox-parse.csv" in
  let bf := "/data/bad-products.csv" in
  let s := start shop in
  let a := update_products difox fifo inventory12 uf bf s in
  let b := update_products difox lifo inventory12 uf bf s in
  steady shop_session shop_pages
  /\ shop_session (browser s)
  /\ is_sheet_file uf = true /\ is_sheet_file bf = true
  /\ a.1 = b.1 /\ sheets a.2 = sheets b.2 /\ stdout a.2 = stdout b.2
  /\ fetched_urls a.2 <> fetched_urls b.2.
Proof.
  intros uf bf s a b.
  assert (shop_session (browser s)) as HI by (split; reflexivity).
  assert (is_sheet_file uf = true) as Hu by (vm_compute; reflexivity).
  assert (is_sheet_file bf = true) as Hb by (vm_compute; reflexivity).
  split; [exact shop_session_steady|]. split; [exact HI|].
  split; [exact Hu|]. split; [exact Hb|].
  pose proof (update_independent_of_schedule shop_session shop_pages difox fifo lifo
                inventory12 uf bf s shop_session_steady HI Hu Hb) as H.
  cbv zeta in H. destruct H as (H1&H2&H3).
  split; [exact H1|]. split; [exact H2|]. split; [exact H3|].
  vm_compute. intros H. discriminate H.
Defined.


Lemma nothing_starts_unconfigured_witness :
  let s := start shop in
  @configured string World DataFrame bare_host = false
  /\ (exists msg,
        @main string World Element DataFrame utility selenium pyset setup bare_host
              (fun _ => fifo) "update" s
        = (Raise SystemExit, emit (msg ++ PyStr.nl) s))
  /\ (exists msg,
        main_py (fun _ => fifo) ["main.py"; "delete"] s
        = (Return tt, emit (msg ++ PyStr.nl) s)).
Proof.
  intros s.
  assert (@configured string World DataFrame bare_host = false) as Hc by reflexivity.
  split; [exact Hc|]. split.
  - exact (proj1 (proj1 (@nothing_starts_unconfigured string World Element DataFrame
                           utility selenium pyset setup bare_host (fun _ => fifo) s)
                        Hc "update")).
  - apply (proj2 (nothing_starts_unconfigured (fun _ => fifo) s)).
    intros mode [= <-]. split; intros H; discriminate H.
Defined.

Lemma startup_login_is_not_checked_witness :
  let uf := "/data/difox-parse.csv" in
  let bf := "/data/bad-products.csv" in
  let r := start shop_refusing in
  let r1 := snd (handle_login difox r) in
  let f := start shop_formless in
  let f1 := snd (handle_login difox f) in
  handle_login difox r = (Return false, r1)
  /\ main_session difox (fun _ => fifo) "update" inventory3 [] uf bf r
     = (update_products difox fifo inventory3 uf bf ;;; ret tt) r1
  /\ handle_login difox f = (Raise (AssertionError "Login form not found"), f1)
  /\ try_except_Exception (main_session difox (fun _ => fifo) "update" inventory3 []
                                        uf bf) print_exc f
     = (Return tt, f1)
  /\ fetched_urls f1 = [] /\ sheets f1 = [].
Proof.
  intros uf bf r r1 f f1.
  assert (handle_login difox r = (Return false, r1)) as H1 by (vm_compute; reflexivity).
  assert (handle_login difox f = (Raise (AssertionError "Login form not found"), f1))
    as H2 by (vm_compute; reflexivity).
  split; [exact H1|].
  split.
  - exact (proj1 (startup_login_is_not_checked difox (fun _ => fifo) "update" inventory3
                    [] uf bf r) false r1 H1).
  - split; [exact H2|].
    destruct (proj2 (startup_login_is_not_checked difox (fun _ => fifo) "update"
                       inventory3 [] uf bf f) _ f1 H2) as (E&_&Hf&Hs).
    split; [exact E|]. split; [exact Hf|exact Hs].
Defined.

(** A driver that cannot be set up: the constructor fails its
    assertion, and [main] with it, before a page is called and before
    the [try] block is entered. *)
Example main_without_driver :
  let r := @main string World Element DataFrame utility selenium pyset no_driver host
                 (fun _ => fifo) "update" (start shop) in
  fst r = Raise (AssertionError "Failed to setup chrome")
  /\ calls (snd r) = [] /\ stdout (snd r) = [].
Proof. repeat split; vm_compute; reflexivity. Qed.

(** The entry points on the host of the small site: the update run
    through [main] and the one through [main_italia]. *)
Lemma main_italia_is_update_witness :
  let s := start shop in
  os_getenv "file_directory" = Some "/data"
  /\ pd_read_csv "/data/difox-italia.csv" ["EAN"] = Table inventory3
  /\ pd_read_csv "/data/difox.csv" ["EAN"] = Table inventory3
  /\ pd_read_csv "/data/catalogs.csv" [] = Table [cameras; new_items]
  /\ alike (main_italia fifo s) (main (fun _ => fifo) "update" s)
  /\ map fst (sheets (snd (main_italia fifo s)))
     = ["/data/difox-italia-parse.csv"; "/data/italia-bad-products.csv"]
  /\ map fst (sheets (snd (main (fun _ => fifo) "update" s)))
     = ["/data/difox-parse.csv"; "/data/bad-products.csv"].
Proof.
  intros s.
  assert (os_getenv "file_directory" = Some "/data") as Hd by reflexivity.
  assert (pd_read_csv "/data/difox-italia.csv" ["EAN"] = Table inventory3) as H1
    by (vm_compute; reflexivity).
  assert (pd_read_csv "/data/difox.csv" ["EAN"] = Table inventory3) as H2
    by (vm_compute; reflexivity).
  assert (pd_read_csv "/data/catalogs.csv" [] = Table [cameras; new_items]) as H3
    by (vm_compute; reflexivity).
  split; [exact Hd|]. split; [exact H1|]. split; [exact H2|]. split; [exact H3|].
  split; [|split; vm_compute; reflexivity].
  exact (main_italia_is_update (fun _ => fifo) s "/data" inventory3
           [cameras; new_items] Hd H1 H2 H3).
Defined.

(** An update run from the command line, start to end. *)
Example main_py_update_run :
  let r := main_py (fun _ => fifo) ["main.py"; "update"] (start shop) in
  fst r = Return tt
  /\ stdout (snd r)
     = ["Already logged in." ++ PyStr.nl;
        (PyStr.nl ++ "Product Availability and Price Update:") ++ PyStr.nl;
        "Inventory size: 3 Products" ++ PyStr.nl;
        "Updated: 2, In stock: 1, Out of stock: 1, Bad Product: 1" ++ PyStr.nl;
        (PyStr.nl ++ "Execution time: 0.0 min") ++ PyStr.nl]%string
  /\ fetched_urls (snd r) = [VStr p1; VStr p2; VStr p3].
Proof. repeat split; vm_compute; reflexivity. Qed.
